(** * scmdata: the run container, its filter and append engines, the netCDF
    name codec and the on-disk database, embedded from the Python sources
    [run.py], [netcdf.py] and [database.py]. *)

From Stdlib Require Import List ZArith QArith Bool Ascii String DecimalString Lia
  Permutation.
From Stdlib Require OrderedTypeEx.
Import ListNotations.

Local Open Scope string_scope.
Local Open Scope Z_scope.

(** ** Python exceptions and fallible computations *)

Module Py.

Inductive PyExc : Type :=
| ValueError (msg : string)
| TypeError (msg : string)
| KeyError (msg : string)
| IndexError (msg : string)
| AssertionError (msg : string)
| ImportError (msg : string)
| OSError (msg : string)
| KeyboardInterrupt
| SystemExit.

(** [except Exception] catches every class derived from [Exception];
    [KeyboardInterrupt] and [SystemExit] derive from [BaseException] only. *)
Definition is_Exception (e : PyExc) : bool :=
  match e with
  | KeyboardInterrupt | SystemExit => false
  | _ => true
  end.

Inductive Res (A : Type) : Type :=
| Ok (a : A)
| Raise (e : PyExc).
Arguments Ok {A} a.
Arguments Raise {A} e.

Definition bind {A B : Type} (c : Res A) (k : A -> Res B) : Res B :=
  match c with
  | Ok a => k a
  | Raise e => Raise e
  end.

Fixpoint mapM {A B : Type} (f : A -> Res B) (l : list A) : Res (list B) :=
  match l with
  | [] => Ok []
  | x :: l' =>
      bind (f x) (fun y => bind (mapM f l') (fun ys => Ok (y :: ys)))
  end.

End Py.
Import Py.

Notation "x <- c ;; k" := (Py.bind c (fun x => k))
  (at level 61, c at next level, right associativity).
Notation "' p <- c ;; k" := (Py.bind c (fun x => let p := x in k))
  (at level 61, p pattern, c at next level, right associativity).

(** ** Values *)

(** Metadata values and filter arguments.  Python's [True] and [False] are the
    integers 1 and 0; [SNaN] is the missing value of the metadata table. *)
Inductive Scalar : Type :=
| SStr (s : string)
| SNum (z : Z)
| STime (t : Z)
| SNaN.

Inductive PyVal : Type :=
| Atom (a : Scalar)
| PyList (l : list Scalar).

Definition scalar_eqb (a b : Scalar) : bool :=
  match a, b with
  | SStr s, SStr s' => String.eqb s s'
  | SNum z, SNum z' => Z.eqb z z'
  | STime t, STime t' => Z.eqb t t'
  | SNaN, SNaN => true
  | _, _ => false
  end.

Fixpoint row_eqb (r r' : list Scalar) : bool :=
  match r, r' with
  | [], [] => true
  | a :: l, b :: l' => scalar_eqb a b && row_eqb l l'
  | _, _ => false
  end.

(** Truthiness of a Python value, as [if x:] tests it. *)
Definition truthy (v : PyVal) : bool :=
  match v with
  | Atom (SStr s) => negb (String.eqb s "")
  | Atom (SNum z) => negb (Z.eqb z 0)
  | Atom (STime _) => true
  | Atom SNaN => true
  | PyList l => negb (Nat.eqb (List.length l) 0)
  end.

(** ** Boolean masks (numpy arrays of bool) *)

Module Mask.

Definition all_true (n : nat) : list bool := repeat true n.

Definition invert (m : list bool) : list bool := map negb m.

(** The masks of [_apply_filters] are made by [np.array([True] * n)], which
    numpy types as [float64], not as [bool], when [n] is 0.  The operations
    on them are in place and keep their length, so that a mask of [filter] is
    of type [float64] exactly when it is empty; [~] and [&=] are not defined
    on such an array and raise [TypeError]. *)
Definition invert_msg : string :=
  "ufunc 'invert' not supported for the input types, and the inputs could not be safely coerced to any supported types according to the casting rule ''safe''".

Definition iand_msg : string :=
  "ufunc 'bitwise_and' not supported for the input types, and the inputs could not be safely coerced to any supported types according to the casting rule ''safe''".

(** [~m] on a mask of [_apply_filters] *)
Definition np_invert (m : list bool) : Res (list bool) :=
  match m with
  | [] => Raise (TypeError invert_msg)
  | _ :: _ => Ok (invert m)
  end.

(** Python's [sum] over a bool array: the number of [True] entries. *)
Definition sum (m : list bool) : nat := List.length (List.filter (fun b => b) m).

Fixpoint zip_and (a b : list bool) : list bool :=
  match a, b with
  | x :: a', y :: b' => (x && y) :: zip_and a' b'
  | _, _ => []
  end.

(** [a &= b] on a mask [a] of [_apply_filters]: an empty [a] is of type
    [float64], on which [&] is not defined; otherwise the result keeps the
    shape of [a], and [b] must have the same length, or length one, which
    numpy broadcasts. *)
Definition iand (a b : list bool) : Res (list bool) :=
  match a with
  | [] => Raise (TypeError iand_msg)
  | _ :: _ =>
      if Nat.eqb (List.length a) (List.length b) then Ok (zip_and a b)
      else match b with
           | [y] => Ok (map (fun x => x && y) a)
           | _ => Raise (ValueError "operands could not be broadcast together")
           end
  end.

(** [[l[i] for i, v in enumerate(mask) if v]] *)
Fixpoint select {A : Type} (mask : list bool) (l : list A) : Res (list A) :=
  match mask with
  | [] => Ok []
  | v :: mask' =>
      match l with
      | x :: l' =>
          if v then (r <- select mask' l' ;; Ok (x :: r)) else select mask' l'
      | [] =>
          if v then Raise (IndexError "list index out of range")
          else select mask' []
      end
  end.

(** Boolean-array indexing [a[mask]] of an array: the lengths must agree. *)
Definition index {A : Type} (l : list A) (mask : list bool) : Res (list A) :=
  if Nat.eqb (List.length l) (List.length mask) then select mask l
  else Raise (IndexError "boolean index did not match indexed array").

End Mask.

(** ** Time points *)

Module TimePoints.

(** Modelled from the spec: [time.py] is not part of the sources.  A time
    point is an instant at a resolution of one second, held as the number of
    seconds since 1970-01-01T00:00:00 (numpy's [datetime64[s]]); an integer
    time label is the calendar year, taken at January 1 of that year.  The
    calendar is the proleptic Gregorian one. *)
Definition days_from_civil (y m d : Z) : Z :=
  let y' := if m <=? 2 then y - 1 else y in
  let era := y' / 400 in
  let yoe := y' - era * 400 in
  let doy := (153 * (if 2 <? m then m - 3 else m + 9) + 2) / 5 + d - 1 in
  let doe := yoe * 365 + yoe / 4 - yoe / 100 + doy in
  era * 146097 + doe - 719468.

(** Modelled from the spec: [time.py] is not part of the sources.  The year,
    month and day of a day number, the inverse of [days_from_civil]. *)
Definition civil_from_days (z : Z) : Z * Z * Z :=
  let z' := z + 719468 in
  let era := z' / 146097 in
  let doe := z' - era * 146097 in
  let yoe := (doe - doe / 1460 + doe / 36524 - doe / 146096) / 365 in
  let doy := doe - (365 * yoe + yoe / 4 - yoe / 100) in
  let mp := (5 * doy + 2) / 153 in
  let d := doy - (153 * mp + 2) / 5 + 1 in
  let m := if mp <? 10 then mp + 3 else mp - 9 in
  let y := yoe + era * 400 + (if m <=? 2 then 1 else 0) in
  (y, m, d).

(** Modelled from the spec: [time.py] is not part of the sources.  An
    integer time label is January 1 of that year. *)
Definition of_year (y : Z) : Z := 86400 * days_from_civil y 1 1.

(** Modelled from the spec: [time.py] is not part of the sources.  The
    components of a time point that the filters on [year], [month], [day] and
    [hour] look at. *)
Definition year (t : Z) : Z := fst (fst (civil_from_days (t / 86400))).
Definition month (t : Z) : Z := snd (fst (civil_from_days (t / 86400))).
Definition day (t : Z) : Z := snd (civil_from_days (t / 86400)).
Definition hour (t : Z) : Z := (t mod 86400) / 3600.
(** Monday is 0; 1970-01-01 was a Thursday. *)
Definition weekday (t : Z) : Z := (t / 86400 + 3) mod 7.

Definition years (tp : list Z) : list Z := map year tp.
Definition months (tp : list Z) : list Z := map month tp.
Definition days (tp : list Z) : list Z := map day tp.
Definition hours (tp : list Z) : list Z := map hour tp.
Definition weekdays (tp : list Z) : list Z := map weekday tp.

End TimePoints.

(** ** Time series *)

Definition Meta : Type := list (string * Scalar).

Fixpoint meta_get (m : Meta) (k : string) : option Scalar :=
  match m with
  | [] => None
  | (k', v) :: m' => if String.eqb k k' then Some v else meta_get m' k
  end.

Definition meta_keys (m : Meta) : list string := map fst m.

(** A value is a float or NaN ([None]); finite floats are taken as the
    rationals they denote. *)
Definition Value : Type := option Q.

Definition isnull (v : Value) : bool :=
  match v with None => true | Some _ => false end.

Record TimeSeries : Type := mkTimeSeries {
  name : Z;
  meta : Meta;
  time : list Z;
  values : list Value
}.

Module TS.

Definition len (ts : TimeSeries) : nat := List.length (values ts).

(** Modelled from the spec: [timeseries.py] is not part of the sources.
    [ts[mask]] keeps the entries of the values and of the time coordinate at
    which the mask holds. *)
Definition getitem_mask (mask : list bool) (ts : TimeSeries) : Res TimeSeries :=
  v <- Mask.index (values ts) mask ;;
  t <- Mask.index (time ts) mask ;;
  Ok (mkTimeSeries (name ts) (meta ts) t v).

(** Modelled from the spec: [timeseries.py] is not part of the sources.
    [ts["time"] = values] replaces the time coordinate. *)
Definition set_time (tp : list Z) (ts : TimeSeries) : TimeSeries :=
  mkTimeSeries (name ts) (meta ts) tp (values ts).

Fixpoint lookup_time (t : Z) (tp : list Z) (vs : list Value) : Value :=
  match tp, vs with
  | t' :: tp', v :: vs' => if Z.eqb t t' then v else lookup_time t tp' vs'
  | _, _ => None
  end.

(** Modelled from the spec: [timeseries.py] is not part of the sources.
    [ts.reindex(new_t)] moves the series onto the time axis [new_t]; a time
    point the series did not have gets NaN, also between two of its own time
    points, as [test_append_column_order_time_interpolation] expects. *)
Definition reindex (new_t : list Z) (ts : TimeSeries) : TimeSeries :=
  mkTimeSeries (name ts) (meta ts) new_t
    (map (fun t => lookup_time t (time ts) (values ts)) new_t).

End TS.

(** ** The container *)

Record ScmRun : Type := mkScmRun {
  _ts : list TimeSeries;
  _time_points : list Z
}.

(** Keyword arguments of a call, in the order given. *)
Definition Kwargs : Type := list (string * PyVal).

Fixpoint kw_get (kw : Kwargs) (k : string) : option PyVal :=
  match kw with
  | [] => None
  | (k', v) :: kw' => if String.eqb k k' then Some v else kw_get kw' k
  end.

Definition kw_mem (k : string) (kw : Kwargs) : bool :=
  existsb (fun p => String.eqb k (fst p)) kw.

Definition kw_remove (k : string) (kw : Kwargs) : Kwargs :=
  List.filter (fun p => negb (String.eqb k (fst p))) kw.

Module Run.

(** [__len__] *)
Definition len (self : ScmRun) : nat := List.length (_ts self).

Definition time_points (self : ScmRun) : list Z := _time_points self.

Fixpoint insert_key (k : string) (l : list string) : list string :=
  match l with
  | [] => [k]
  | k' :: l' =>
      match String.compare k k' with
      | Lt => k :: l
      | Eq => l
      | Gt => k' :: insert_key k l'
      end
  end.

(** [sorted(list(set(l)))] *)
Definition sorted_set (l : list string) : list string :=
  fold_right insert_key [] l.

Definition meta_attributes (self : ScmRun) : list string :=
  sorted_set (List.concat (map (fun ts => meta_keys (meta ts)) (_ts self))).

Definition meta_or_nan (ts : TimeSeries) (col : string) : Scalar :=
  match meta_get (meta ts) col with
  | Some v => v
  | None => SNaN
  end.

Definition _meta_column (self : ScmRun) (col : string) : list Scalar :=
  map (fun ts => meta_or_nan ts col) (_ts self).

(** One row of the [meta] table: a value per metadata column, NaN where the
    series lacks the key.  Rows are only ever compared as a whole, so the
    order of the columns is immaterial; that of [meta_attributes] is used. *)
Definition meta_row (cols : list string) (ts : TimeSeries) : list Scalar :=
  map (meta_or_nan ts) cols.

(** The [meta] property: one row per series. *)
Definition meta_table (self : ScmRun) : list (list Scalar) :=
  map (meta_row (meta_attributes self)) (_ts self).

(** [__getitem__] for a string key *)
Definition __getitem__ (self : ScmRun) (key : string) : Res (list Scalar) :=
  if String.eqb key "time" then Ok (map STime (_time_points self))
  else if String.eqb key "year" then
    Ok (map SNum (TimePoints.years (_time_points self)))
  else if existsb (String.eqb key) (meta_attributes self) then
    Ok (_meta_column self key)
  else Raise (KeyError ("I don't know what to do with key: " ++ key)).

(** [self["time"] = value] *)
Definition setitem_time (self : ScmRun) (value : list Z) : Res ScmRun :=
  if forallb (fun ts => Nat.eqb (List.length value) (TS.len ts)) (_ts self)
  then Ok (mkScmRun (map (TS.set_time value) (_ts self)) value)
  else Raise (ValueError "New time series is the incorrect length").

(** What [filter] leaves behind: the receiver after the call, the returned
    container ([None] when filtering in place) and the logged warnings. *)
Record FilterOut : Type := mkFilterOut {
  f_self : ScmRun;
  f_ret : option ScmRun;
  f_log : list string
}.

Section Filters.

(** The matchers of [filters.py], which is not part of the sources, and the
    class attribute [data_hierarchy_separator] that is set from it. *)
Variable pattern_match :
  list Scalar -> PyVal -> option PyVal -> PyVal -> bool -> string -> Res (list bool).
Variables years_match month_match day_match hour_match datetime_match :
  list Z -> PyVal -> Res (list bool).
Variable data_hierarchy_separator : string.

Definition _day_match (self : ScmRun) (values : PyVal) : Res (list bool) :=
  wday <- match values with
          | Atom (SStr _) => Ok true
          | PyList [] => Raise (IndexError "list index out of range")
          | PyList (SStr _ :: _) => Ok true
          | _ => Ok false
          end ;;
  let days := if (wday : bool) then TimePoints.weekdays (_time_points self)
              else TimePoints.days (_time_points self) in
  day_match days values.

(** One turn of the loop of [_apply_filters] over [filters.items()]. *)
Definition apply_filter (self : ScmRun) (filters : Kwargs) (regexp : PyVal)
    (has_nan : bool) (keep : list bool * list bool) (item : string * PyVal)
    : Res (list bool * list bool) :=
  let '(keep_ts, keep_meta) := keep in
  let '(col, values) := item in
  let on_meta (m : Res (list bool)) :=
    m' <- m ;; k <- Mask.iand keep_meta m' ;; Ok (keep_ts, k) in
  let on_ts (m : Res (list bool)) :=
    m' <- m ;; k <- Mask.iand keep_ts m' ;; Ok (k, keep_meta) in
  if String.eqb col "variable" then
    on_meta (pattern_match (_meta_column self col) values (kw_get filters "level")
               regexp has_nan data_hierarchy_separator)
  else if existsb (String.eqb col) (meta_attributes self) then
    on_meta (pattern_match (_meta_column self col) values None
               regexp has_nan data_hierarchy_separator)
  else if String.eqb col "year" then
    on_ts (years_match (TimePoints.years (_time_points self)) values)
  else if String.eqb col "month" then
    on_ts (month_match (TimePoints.months (_time_points self)) values)
  else if String.eqb col "day" then
    on_ts (_day_match self values)
  else if String.eqb col "hour" then
    on_ts (hour_match (TimePoints.hours (_time_points self)) values)
  else if String.eqb col "time" then
    on_ts (datetime_match (_time_points self) values)
  else if String.eqb col "level" then
    if negb (kw_mem "variable" filters) then
      on_meta (pattern_match (_meta_column self "variable") (Atom (SStr "*"))
                 (Some values) regexp has_nan data_hierarchy_separator)
    else Ok keep
  else Raise (ValueError ("filter by `" ++ col ++ "` not supported")).

Fixpoint apply_filters_loop (self : ScmRun) (filters : Kwargs) (regexp : PyVal)
    (has_nan : bool) (items : Kwargs) (keep : list bool * list bool)
    : Res (list bool * list bool) :=
  match items with
  | [] => Ok keep
  | item :: items' =>
      keep' <- apply_filter self filters regexp has_nan keep item ;;
      apply_filters_loop self filters regexp has_nan items' keep'
  end.

(** Returns [(keep_ts, keep_meta)]. *)
Definition _apply_filters (self : ScmRun) (filters : Kwargs) (has_nan : bool)
    : Res (list bool * list bool) :=
  let regexp := match kw_get filters "regexp" with
                | Some v => v
                | None => Atom (SNum 0)
                end in
  let filters := kw_remove "regexp" filters in
  apply_filters_loop self filters regexp has_nan filters
    (Mask.all_true (List.length (time_points self)), Mask.all_true (len self)).

Definition filter (self : ScmRun) (keep inplace has_nan : bool) (kwargs : Kwargs)
    : Res FilterOut :=
  '(_keep_times, _keep_cols) <- _apply_filters self kwargs has_nan ;;
  (* [~] is applied to both masks on every path that raises nothing else,
     first to [_keep_cols] when [keep] is false and first to [_keep_times]
     otherwise; on an empty mask it raises the same [TypeError] either way. *)
  not_times <- Mask.np_invert _keep_times ;;
  not_cols <- Mask.np_invert _keep_cols ;;
  if negb keep && negb (Nat.eqb (Mask.sum not_cols) 0)
       && negb (Nat.eqb (Mask.sum not_times) 0)
  then Raise (ValueError
         "If keep=False, filtering cannot be performed on temporally and with metadata at the same time")
  else
    let reduce_times := Nat.ltb 0 (Mask.sum not_times) in
    let reduce_cols := Nat.ltb 0 (Mask.sum not_cols) in
    let keep_times := if keep then _keep_times else not_times in
    let keep_cols := if keep then _keep_cols else not_cols in
    let reduce_cols :=
      if negb keep && (negb reduce_cols && negb reduce_times) then true
      else reduce_cols in
    ts <- (if reduce_cols then Mask.select keep_cols (_ts self)
           else Ok (_ts self)) ;;
    ret <- (if reduce_times then
              ts' <- mapM (TS.getitem_mask keep_times) ts ;;
              tp <- Mask.index (time_points self) keep_times ;;
              setitem_time (mkScmRun ts' (_time_points self)) tp
            else Ok (mkScmRun ts (_time_points self))) ;;
    let log := if Nat.eqb (len ret) 0 then ["Filtered ScmDataFrame is empty!"]
               else [] in
    Ok (if inplace then mkFilterOut ret None log
        else mkFilterOut self (Some ret) log).

End Filters.

(** The keys of a filter that bear on metadata: a metadata column of the
    container, [variable], [level], or the [regexp] switch. *)
Definition is_meta_filter (self : ScmRun) (col : string) : bool :=
  String.eqb col "variable" || existsb (String.eqb col) (meta_attributes self)
  || String.eqb col "level" || String.eqb col "regexp".

Definition meta_only (self : ScmRun) (kwargs : Kwargs) : bool :=
  forallb (fun p => is_meta_filter self (fst p)) kwargs.

(** [pd.Series.unique]: the distinct values in order of first appearance; NaN
    counts as one value. *)
Fixpoint unique (l : list Scalar) : list Scalar :=
  match l with
  | [] => []
  | x :: l' => x :: List.filter (fun y => negb (scalar_eqb x y)) (unique l')
  end.

Inductive UniqueMeta : Type :=
| Values (vals : list Scalar)
| Value1 (v : Scalar).

Section GetUniqueMeta.

(** Python's formatting of a list of values inside the error message. *)
Variable format_list : list Scalar -> string.

Definition not_unique_msg (meta : string) (vals : list Scalar) : string :=
  "`" ++ meta ++ "` column is not unique (found values: " ++ format_list vals ++ ")".

Definition get_unique_meta (self : ScmRun) (meta : string) (no_duplicates : bool)
    : Res UniqueMeta :=
  col <- __getitem__ self meta ;;
  let vals := unique col in
  if no_duplicates then
    if negb (Nat.eqb (List.length vals) 1) then
      Raise (ValueError (not_unique_msg meta vals))
    else match vals with
         | v :: _ => Ok (Value1 v)
         | [] => Raise (IndexError "list index out of range")
         end
  else Ok (Values vals).

End GetUniqueMeta.

End Run.

(** ** Append *)

Module Append.

Fixpoint insert_time (t : Z) (l : list Z) : list Z :=
  match l with
  | [] => [t]
  | t' :: l' =>
      if Z.ltb t t' then t :: l
      else if Z.eqb t t' then l
      else t' :: insert_time t l'
  end.

(** [np.unique]: the sorted distinct entries. *)
Definition np_unique (l : list Z) : list Z := fold_right insert_time [] l.

Fixpoint array_equal (a b : list Z) : bool :=
  match a, b with
  | [], [] => true
  | x :: a', y :: b' => Z.eqb x y && array_equal a' b'
  | _, _ => false
  end.

(** [meta.duplicated().any()]: some row repeats an earlier one. *)
Fixpoint duplicated_any (rows : list (list Scalar)) : bool :=
  match rows with
  | [] => false
  | r :: rows' => existsb (row_eqb r) rows' || duplicated_any rows'
  end.

(** [timeseries(check_duplicated=False)]: the wide table, one row per series
    carrying its metadata row and its values; the values must fit the time
    axis that labels the columns. *)
Definition timeseries (self : ScmRun) : Res (list (list Scalar * list Value)) :=
  if forallb (fun ts => Nat.eqb (TS.len ts) (List.length (_time_points self)))
       (_ts self)
  then Ok (map (fun ts => (Run.meta_row (Run.meta_attributes self) ts, values ts))
             (_ts self))
  else Raise (ValueError "Length mismatch").

Definition has_nan_key (row : list Scalar) : bool :=
  existsb (scalar_eqb SNaN) row.

Fixpoint distinct_rows (rows : list (list Scalar)) : list (list Scalar) :=
  match rows with
  | [] => []
  | r :: rows' =>
      r :: List.filter (fun r' => negb (row_eqb r r')) (distinct_rows rows')
  end.

Fixpoint add_counts (a b : list nat) : list nat :=
  match a, b with
  | x :: a', y :: b' => (x + y)%nat :: add_counts a' b'
  | _, _ => []
  end.

(** [(~ts.isnull()).astype(int)] of one row. *)
Definition notnull_counts (vs : list Value) : list nat :=
  map (fun v => if isnull v then 0%nat else 1%nat) vs.

(** [.groupby(ts.index.names).sum()]: per group of rows with the same
    metadata, the column-wise sum.  pandas leaves out of a groupby every row
    whose key holds a NaN. *)
Definition contributing_values (ncols : nat) (ts : list (list Scalar * list Value))
    : list (list Scalar * list nat) :=
  let keys := List.filter (fun k => negb (has_nan_key k))
                (distinct_rows (map fst ts)) in
  map (fun k =>
         (k, fold_right add_counts (repeat 0%nat ncols)
               (map (fun r => notnull_counts (snd r))
                  (List.filter (fun r => row_eqb k (fst r)) ts))))
      keys.

(** [(contributing_values > 1).any().any()] *)
Definition any_above_one (contributing : list (list Scalar * list nat)) : bool :=
  existsb (fun g => existsb (fun c => Nat.ltb 1 c) (snd g)) contributing.

Definition warn_msg : string :=
  "Duplicate time points detected, the output will be the average of the duplicates. Set `duplicate_msg='return'` to examine the joint timeseries (the duplicates can be found by looking at `res[res.index.duplicated(keep=False)].sort_index()`. Set `duplicate_msg=False` to silence this message.".

Definition return_msg : string := "returning a `pd.DataFrame`, not an `ScmRun`".

(** Returns what the function returns ([None], or [data] itself) together
    with the warnings it issued. *)
Definition _handle_potential_duplicates_in_append (data : ScmRun)
    (duplicate_msg : PyVal) : Res (option ScmRun * list string) :=
  ts <- timeseries data ;;
  let contributing :=
    contributing_values (List.length (_time_points data)) ts in
  let duplicates := any_above_one contributing in
  if negb duplicates then Ok (None, [])
  else
    match duplicate_msg with
    | Atom (SStr s) =>
        if String.eqb s "warn" then Ok (None, [warn_msg])
        else if String.eqb s "return" then Ok (Some data, [return_msg])
        else Raise (ValueError "Unrecognised value for duplicate_msg")
    | _ => Raise (ValueError "Unrecognised value for duplicate_msg")
    end.

Definition Qsum (l : list Q) : Q := fold_right Qplus (0 # 1)%Q l.

Fixpoint notnull (vs : list Value) : list Q :=
  match vs with
  | [] => []
  | Some q :: vs' => q :: notnull vs'
  | None :: vs' => notnull vs'
  end.

(** Modelled from the spec: [groupby.py] is not part of the sources.  The
    mean over the contributors of one time point ignores NaN; it is NaN when
    every contributor is NaN. *)
Definition nanmean (vs : list Value) : Value :=
  match notnull vs with
  | [] => None
  | q :: qs => Some (Qsum (q :: qs) / inject_Z (Z.of_nat (List.length (q :: qs))))%Q
  end.

Definition column (j : nat) (members : list TimeSeries) : list Value :=
  map (fun ts => nth j (values ts) None) members.

(** Modelled from the spec: [groupby.py] is not part of the sources.
    [groupby(keys).mean(axis=0)] partitions the series into buckets with
    identical values for the keys and replaces each bucket by one series, its
    mean at every time point; the series carries the metadata of the bucket
    and the name of the bucket's first member. *)
Definition groupby_mean (self : ScmRun) (keys : list string) : list TimeSeries :=
  let n := List.length (_time_points self) in
  let buckets := distinct_rows (map (Run.meta_row keys) (_ts self)) in
  List.concat
    (map (fun k =>
            match List.filter (fun ts => row_eqb k (Run.meta_row keys ts)) (_ts self) with
            | [] => []
            | first :: others =>
                [mkTimeSeries (name first) (meta first) (_time_points self)
                   (map (fun j => nanmean (column j (first :: others))) (seq 0 n))]
            end)
         buckets).

Fixpoint insert_by_name (ts : TimeSeries) (l : list TimeSeries) : list TimeSeries :=
  match l with
  | [] => [ts]
  | ts' :: l' =>
      if Z.leb (name ts) (name ts') then ts :: l
      else ts' :: insert_by_name ts l'
  end.

(** [list.sort(key=lambda a: a.name)], which is stable. *)
Definition sort_by_name (l : list TimeSeries) : list TimeSeries :=
  fold_right insert_by_name [] l.

(** What [df_append] leaves behind: the first run after the call (it is
    updated when appending in place), the returned value and the warnings. *)
Record AppendOut : Type := mkAppendOut {
  a_first : ScmRun;
  a_ret : option ScmRun;
  a_warnings : list string
}.

(** The first part of [df_append]: the series of all the runs, on the common
    time base.  The runs are distinct objects: [runs[0]] does not occur again
    among [runs[1:]]. *)
Definition join (first : ScmRun) (rest : list ScmRun) : ScmRun :=
  let runs := first :: rest in
  let ts := (_ts first ++ List.concat (map _ts rest))%list in
  let new_t := np_unique (List.concat (map Run.time_points runs)) in
  let all_valid_times :=
    forallb (fun r => array_equal new_t (Run.time_points r)) runs in
  if all_valid_times then mkScmRun ts (_time_points first)
  else mkScmRun (map (TS.reindex new_t) ts) new_t.

(** [ret._ts = ret.groupby(ret.meta_attributes).mean(axis=0)._ts] *)
Definition average (ret : ScmRun) : ScmRun :=
  mkScmRun (groupby_mean ret (Run.meta_attributes ret)) (_time_points ret).

(** [ret._ts.sort(key=lambda a: a.name)] *)
Definition sort (ret : ScmRun) : ScmRun :=
  mkScmRun (sort_by_name (_ts ret)) (_time_points ret).

Definition df_append (runs : list ScmRun) (inplace : bool) (duplicate_msg : PyVal)
    : Res AppendOut :=
  match runs with
  | [] => Raise (IndexError "list index out of range")
  | first :: rest =>
      let ret := join first rest in
      let finish (ret : ScmRun) (w : list string) :=
        let ret := sort ret in
        Ok (if inplace then mkAppendOut ret None w
            else mkAppendOut first (Some ret) w) in
      if duplicated_any (Run.meta_table ret) then
        if truthy duplicate_msg then
          '(warn_handle_res, w) <- _handle_potential_duplicates_in_append ret duplicate_msg ;;
          match warn_handle_res with
          | Some data =>
              Ok (mkAppendOut (if inplace then ret else first) (Some data) w)
          | None => finish (average ret) w
          end
        else finish (average ret) []
      else finish ret []
  end.

(** [ScmRun.append] *)
Definition append (self other : ScmRun) (inplace : bool) (duplicate_msg : PyVal)
    : Res AppendOut :=
  df_append [self; other] inplace duplicate_msg.

End Append.

(** ** Python strings (ASCII) *)

(** The strings of the model are strings of ASCII characters: on them the
    functions below are Python's.  A character code above 127 stands for no
    character of a Python string; the properties that depend on the case or
    on the class of the characters are stated for ASCII strings. *)

Module Str.

Fixpoint is_ascii (s : string) : bool :=
  match s with
  | EmptyString => true
  | String c s' => Nat.ltb (nat_of_ascii c) 128 && is_ascii s'
  end.

Definition is_upper (c : ascii) : bool :=
  let n := nat_of_ascii c in Nat.leb 65 n && Nat.leb n 90.

Definition is_lower (c : ascii) : bool :=
  let n := nat_of_ascii c in Nat.leb 97 n && Nat.leb n 122.

Definition is_digit (c : ascii) : bool :=
  let n := nat_of_ascii c in Nat.leb 48 n && Nat.leb n 57.

Definition is_cased (c : ascii) : bool := is_upper c || is_lower c.

(** [c.isalnum()] of an ASCII character *)
Definition isalnum (c : ascii) : bool := is_cased c || is_digit c.

Definition to_lower (c : ascii) : ascii :=
  if is_upper c then ascii_of_nat (nat_of_ascii c + 32) else c.

Definition to_upper (c : ascii) : ascii :=
  if is_lower c then ascii_of_nat (nat_of_ascii c - 32) else c.

Fixpoint map_chars (f : ascii -> ascii) (s : string) : string :=
  match s with
  | EmptyString => EmptyString
  | String c s' => String (f c) (map_chars f s')
  end.

(** [s.lower()] *)
Definition lower (s : string) : string := map_chars to_lower s.

Fixpoint title_from (previous_is_cased : bool) (s : string) : string :=
  match s with
  | EmptyString => EmptyString
  | String c s' =>
      if is_cased c then
        String (if previous_is_cased then to_lower c else to_upper c)
          (title_from true s')
      else String c (title_from false s')
  end.

(** [s.title()] of an ASCII string: a letter is upper-cased when no letter
    precedes it and lower-cased otherwise. *)
Definition title (s : string) : string := title_from false s.

(** [replace_from old new skip s]: [skip] counts the characters of [s] that
    still belong to an occurrence of [old] already replaced. *)
Fixpoint replace_from (old new : string) (skip : nat) (s : string) : string :=
  match s with
  | EmptyString => EmptyString
  | String c s' =>
      match skip with
      | S k => replace_from old new k s'
      | O =>
          if String.prefix old s then
            new ++ replace_from old new (String.length old - 1) s'
          else String c (replace_from old new 0 s')
      end
  end.

(** [s.replace(old, new)] for a non-empty [old]: the occurrences are replaced
    from left to right and do not overlap. *)
Definition replace (old new s : string) : string := replace_from old new 0 s.

Definition startswith (s p : string) : bool := String.prefix p s.

Fixpoint endswith_char (s : string) (c : ascii) : bool :=
  match s with
  | EmptyString => false
  | String x EmptyString => Ascii.eqb x c
  | String _ s' => endswith_char s' c
  end.

Fixpoint contains_char (c : ascii) (s : string) : bool :=
  match s with
  | EmptyString => false
  | String x s' => Ascii.eqb x c || contains_char c s'
  end.

End Str.

(** ** The netCDF codec *)

Module Netcdf.

Definition _var_to_nc (var : string) : string :=
  Str.lower (Str.replace " " "_" (Str.replace "|" "__" var)).

Definition _nc_to_var (var : string) : string :=
  Str.title (Str.replace "_" " " (Str.replace "__" "|" var)).

(** The [variable] metadata that [nc_to_run] gives to the series which
    [run_to_nc] stored for the variable [v]: [_write_nc] names the netCDF
    variable [_var_to_nc(v)], and [_read_nc] sets [var_meta["variable"]] to
    [_nc_to_var] of that name. *)
Definition variable_read_back (v : string) : string :=
  _nc_to_var (_var_to_nc v).

(** A space is never directly followed by a space or by the hierarchy
    separator. *)
Fixpoint spaces_apart (s : string) : bool :=
  match s with
  | EmptyString => true
  | String c s' =>
      (if Ascii.eqb c " " then
         match s' with
         | String d _ => negb (Ascii.eqb d " ") && negb (Ascii.eqb d "|")
         | EmptyString => true
         end
       else true) && spaces_apart s'
  end.

(** The names the codec leaves unchanged: no underscore, spaces apart, and
    title-cased already. *)
Definition is_nc_stable (v : string) : bool :=
  negb (Str.contains_char "_" v) && spaces_apart v && String.eqb (Str.title v) v.

(** The escaping of [_var_to_nc], character by character. *)
Definition escape_char (c : ascii) : string :=
  if Ascii.eqb c "|" then "__"
  else if Ascii.eqb c " " then "_"
  else String (Str.to_lower c) "".

(** The name after the first step of [_nc_to_var]: the separators are back,
    the spaces are still underscores. *)
Definition half_decoded (v : string) : string :=
  Str.map_chars (fun c => if Ascii.eqb c " " then "_"%char else Str.to_lower c) v.

Section NcToRun.

(** The netCDF4 library: whether it could be imported, and the opening of a
    file as a dataset.  [_read_nc] is taken with the class it builds fixed. *)
Variable Dataset : Type.
Variable has_netcdf : bool.
Variable nc_Dataset : string -> Res Dataset.
Variable _read_nc : Dataset -> Res ScmRun.

(** Returns the value of the call together with what was logged. *)
Definition nc_to_run (fname : string) : Res (option ScmRun * list string) :=
  if negb has_netcdf then
    Raise (ImportError "netcdf4 is not installed. Run 'pip install netcdf4'")
  else
    ds <- nc_Dataset fname ;;
    match _read_nc ds with
    | Ok run => Ok (Some run, [])
    | Raise e =>
        if is_Exception e then
          Ok (None, ["Failed reading netdf file: " ++ fname])
        else Raise e
    end.

End NcToRun.

End Netcdf.

(** ** The on-disk database *)

Module Database.

Record ScmDatabase : Type := mkScmDatabase {
  _root_dir : string;
  levels : list string
}.

(** [safe_char] of an ASCII character *)
Definition safe_char (c : ascii) : ascii :=
  if Str.isalnum c || Str.contains_char c "-/*_." then c else "-"%char.

Definition _get_disk_filename (inp : string) : string :=
  Str.map_chars safe_char inp.

(** [os.path.join(a, *p)] on POSIX *)
Fixpoint path_join (a : string) (p : list string) : string :=
  match p with
  | [] => a
  | b :: p' =>
      path_join
        (if Str.startswith b "/" then b
         else if String.eqb a "" || Str.endswith_char a "/" then a ++ b
         else a ++ "/" ++ b)
        p'
  end.

Definition Filters : Type := list (string * string).

Fixpoint filters_get (f : Filters) (level : string) : option string :=
  match f with
  | [] => None
  | (k, v) :: f' => if String.eqb level k then Some v else filters_get f' level
  end.

(** A resolved path: the components of the absolute path, from the root. *)
Definition Path : Type := list string.

Fixpoint path_eqb (p q : Path) : bool :=
  match p, q with
  | [], [] => true
  | a :: p', b :: q' => String.eqb a b && path_eqb p' q'
  | _, _ => false
  end.

Fixpoint proper_prefixes (p : Path) : list Path :=
  match p with
  | [] => []
  | a :: p' => [] :: map (cons a) (proper_prefixes p')
  end.

(** [Path.parents]: the proper ancestors, the nearest first. *)
Definition parents (p : Path) : list Path := rev (proper_prefixes p).

(** [out_path] lies strictly below [root_path]. *)
Definition strictly_inside (root_path out_path : Path) : Prop :=
  exists rest, rest <> [] /\ out_path = (root_path ++ rest)%list.

Section Delete.

(** The file system: its states, [glob.glob(pattern, recursive=True)],
    [pathlib.Path(p).resolve()] and [shutil.rmtree]. *)
Variable FS : Type.
Variable glob : FS -> string -> list string.
Variable resolve : FS -> string -> Path.
Variable rmtree : FS -> string -> Res FS.

Definition _check_is_subdir (fs : FS) (root d : string) : Res unit :=
  let root_path := resolve fs root in
  let out_path := resolve fs d in
  let is_subdir := existsb (path_eqb root_path) (parents out_path) in
  if negb is_subdir then Raise (AssertionError (d ++ " not in " ++ root))
  else Ok tt.

(** What [delete] leaves behind: the file system, the calls of [rmtree] that
    went through (each with the file system it was made on) and the exception
    that ended the call, if any. *)
Record DeleteOut : Type := mkDeleteOut {
  d_fs : FS;
  d_removed : list (FS * string);
  d_raised : option PyExc
}.

(** The first loop of [delete]: every level must be known; a slash in a value
    becomes an underscore. *)
Fixpoint check_filters (self : ScmDatabase) (todo : Filters) : Res Filters :=
  match todo with
  | [] => Ok []
  | (level, v) :: todo' =>
      if negb (existsb (String.eqb level) (levels self)) then
        Raise (ValueError ("Unknown level: " ++ level))
      else
        rest <- check_filters self todo' ;;
        Ok ((level, if Str.contains_char "/" v then Str.replace "/" "_" v else v)
              :: rest)
  end.

Fixpoint delete_loop (self : ScmDatabase) (fs : FS) (load_dirs : list string)
    (removed : list (FS * string)) : DeleteOut :=
  match load_dirs with
  | [] => mkDeleteOut fs removed None
  | d :: load_dirs' =>
      match _check_is_subdir fs (_root_dir self) d with
      | Raise e => mkDeleteOut fs removed (Some e)
      | Ok _ =>
          match rmtree fs d with
          | Raise e => mkDeleteOut fs removed (Some e)
          | Ok fs' => delete_loop self fs' load_dirs' (removed ++ [(fs, d)])%list
          end
      end
  end.

Definition delete (self : ScmDatabase) (fs : FS) (filters : Filters) : DeleteOut :=
  match check_filters self filters with
  | Raise e => mkDeleteOut fs [] (Some e)
  | Ok filters =>
      let paths_to_load :=
        map (fun level => match filters_get filters level with
                          | Some v => v
                          | None => "*"
                          end) (levels self) in
      let load_path := path_join (_root_dir self) paths_to_load in
      let glob_to_use := _get_disk_filename load_path in
      let load_dirs := glob fs glob_to_use in
      delete_loop self fs load_dirs []
  end.

(** The removal of [d], made on the file system [fs], was of a directory
    strictly inside the root: the check that precedes it had passed. *)
Definition removal_inside_root (self : ScmDatabase) (r : FS * string) : Prop :=
  let '(fs, d) := r in
  existsb (path_eqb (resolve fs (_root_dir self)))
    (parents (resolve fs d)) = true /\
  strictly_inside (resolve fs (_root_dir self)) (resolve fs d).

End Delete.

End Database.

(** ** The invariants of the data model *)

Module Inv.

(** The time axis is strictly increasing, hence without repetition. *)
Fixpoint increasing (tp : list Z) : bool :=
  match tp with
  | t :: tp' =>
      match tp' with
      | t' :: _ => Z.ltb t t' && increasing tp'
      | [] => true
      end
  | [] => true
  end.

(** A series is on the time axis of its container, one value per time
    point. *)
Definition aligned_ts (tp : list Z) (ts : TimeSeries) : bool :=
  Append.array_equal (time ts) tp
  && Nat.eqb (List.length (values ts)) (List.length tp).

Definition aligned (r : ScmRun) : bool :=
  forallb (aligned_ts (_time_points r)) (_ts r).

Definition well_formed (r : ScmRun) : bool :=
  increasing (_time_points r) && aligned r.

(** No two series of the container have the same metadata. *)
Definition unique_meta (r : ScmRun) : bool :=
  negb (Append.duplicated_any (Run.meta_table r)).

(** Some series with complete metadata has a value. *)
Definition has_data (r : ScmRun) : bool :=
  existsb (fun ts =>
             negb (Append.has_nan_key (Run.meta_row (Run.meta_attributes r) ts))
             && existsb (fun v => negb (isnull v)) (values ts))
    (_ts r).

End Inv.

(** Equality of values: NaN stands for NaN, numbers are equal as rationals. *)
Definition value_eq (a b : Value) : Prop :=
  match a, b with
  | Some x, Some y => (x == y)%Q
  | None, None => True
  | _, _ => False
  end.

Definition values_eq (a b : list Value) : Prop := Forall2 value_eq a b.

(** ** Vocabulary of the properties *)

(** The number of rows with a value, not NaN, in column [j]. *)
Definition count_at (j : nat) (vss : list (list Value)) : nat :=
  List.length (List.filter (fun vs => negb (isnull (nth j vs None))) vss).

(** The rows of the table that carry the metadata [k]. *)
Definition group (k : list Scalar) (tbl : list (list Scalar * list Value))
    : list (list Value) :=
  map snd (List.filter (fun r => row_eqb k (fst r)) tbl).

(** Every series of the container has a value, not NaN, for every metadata
    column: the metadata table holds no NaN. *)
Definition nan_free_meta (r : ScmRun) : bool :=
  forallb (fun row => negb (Append.has_nan_key row)) (Run.meta_table r).

(** Two series, the first before the second in the container, with the same
    metadata, and both with a value at some time point. *)
Definition overlapping_duplicates (ret : ScmRun) : Prop :=
  let cols := Run.meta_attributes ret in
  exists i1 i2 a b j,
    (i1 < i2)%nat /\
    nth_error (_ts ret) i1 = Some a /\ nth_error (_ts ret) i2 = Some b /\
    Run.meta_row cols a = Run.meta_row cols b /\
    isnull (nth j (values a) None) = false /\
    isnull (nth j (values b) None) = false.

(** The series that averages the two copies of [o]. *)
Definition mean_of_pair (tp : list Z) (o : TimeSeries) : TimeSeries :=
  mkTimeSeries (name o) (meta o) tp
    (map (fun j => Append.nanmean (Append.column j [o; o]))
       (seq 0 (List.length tp))).

(** The year axes of the two containers of the scenario. *)
Definition years_A : list Z := [2005; 2010; 2015].
Definition years_B : list Z := [2020; 2030; 2040].

(** ** The containers of the test suite *)

Module Example.

(** Matchers that compare for equality, with a list read as a choice: what
    the matchers of [filters.py] do for patterns without wildcard. *)
Definition matches (v : Scalar) (values : PyVal) : bool :=
  match values with
  | Atom a => scalar_eqb v a
  | PyList l => existsb (scalar_eqb v) l
  end.

Definition pattern_match (meta_col : list Scalar) (values : PyVal)
    (level : option PyVal) (regexp : PyVal) (has_nan : bool) (separator : string)
    : Res (list bool) :=
  Ok (map (fun v => matches v values) meta_col).

Definition int_match (xs : list Z) (values : PyVal) : Res (list bool) :=
  Ok (map (fun x => matches (SNum x) values) xs).

Definition datetime_match (xs : list Z) (values : PyVal) : Res (list bool) :=
  Ok (map (fun x => matches (STime x) values) xs).

Definition filter : ScmRun -> bool -> bool -> bool -> Kwargs -> Res Run.FilterOut :=
  Run.filter pattern_match int_match int_match int_match int_match
    datetime_match "|".

Definition _apply_filters : ScmRun -> Kwargs -> bool -> Res (list bool * list bool) :=
  Run._apply_filters pattern_match int_match int_match int_match int_match
    datetime_match "|".

Definition meta_of (scenario variable : string) : Meta :=
  [("model", SStr "a_iam"); ("climate_model", SStr "a_model");
   ("scenario", SStr scenario); ("region", SStr "World");
   ("variable", SStr variable); ("unit", SStr "EJ/yr")].

Definition series (n : Z) (scenario variable : string) (years : list Z)
    (vs : list Q) : TimeSeries :=
  mkTimeSeries n (meta_of scenario variable) (map TimePoints.of_year years)
    (map Some vs).

(** The fixture [test_scm_run], on the years given. *)
Definition scm_run (years : list Z) : ScmRun :=
  mkScmRun
    [series 0 "a_scenario" "Primary Energy" years [1; 6; 6]%Q;
     series 1 "a_scenario" "Primary Energy|Coal" years [1 # 2; 3; 3]%Q;
     series 2 "a_scenario2" "Primary Energy" years [2; 7; 7]%Q]
    (map TimePoints.of_year years).

Definition test_scm_run : ScmRun := scm_run years_A.

(** [other] of [test_append_duplicates]: the same series on later years. *)
Definition later_run : ScmRun := scm_run years_B.

(** A container that holds two series with the same metadata. *)
Definition twin_run : ScmRun :=
  mkScmRun
    [series 0 "a_scenario" "Primary Energy" years_A [1; 6; 6]%Q;
     series 1 "a_scenario" "Primary Energy" years_A [3; 8; 8]%Q]
    (map TimePoints.of_year years_A).

(** A container without series, as a filter that matches nothing returns. *)
Definition empty_run : ScmRun := mkScmRun [] (map TimePoints.of_year years_A).

(** Keyword arguments used below. *)
Definition by_variable : Kwargs := [("variable", Atom (SStr "Primary Energy"))].

Definition coal_in_2005 : Kwargs :=
  [("variable", Atom (SStr "Primary Energy|Coal")); ("year", Atom (SNum 2005))].

Definition any_scenario : Kwargs :=
  [("scenario", PyList [SStr "a_scenario"; SStr "a_scenario2"])].

Definition format_scalar (v : Scalar) : string :=
  match v with
  | SStr s => "'" ++ s ++ "'"
  | SNum z => NilZero.string_of_int (Z.to_int z)
  | STime t => "Timestamp(" ++ NilZero.string_of_int (Z.to_int t) ++ ")"
  | SNaN => "nan"
  end.

Definition format_list (vals : list Scalar) : string :=
  "[" ++ String.concat ", " (map format_scalar vals) ++ "]".

End Example.

(** ** Setting and renaming metadata *)

Module RunMeta.

(** [ts.meta[name] = v] *)
Fixpoint meta_set (m : Meta) (k : string) (v : Scalar) : Meta :=
  match m with
  | [] => [(k, v)]
  | (k', v') :: m' =>
      if String.eqb k k' then (k', v) :: m' else (k', v') :: meta_set m' k v
  end.

Definition with_meta (ts : TimeSeries) (k : string) (v : Scalar) : TimeSeries :=
  mkTimeSeries (name ts) (meta_set (meta ts) k v) (time ts) (values ts).

(** [for i, ts in enumerate(self._ts): ts.meta[name] = meta[i]] *)
Fixpoint set_each (ts : list TimeSeries) (meta : list Scalar) (name : string)
    : list TimeSeries :=
  match ts, meta with
  | t :: ts', v :: meta' => with_meta t name v :: set_each ts' meta' name
  | _, _ => ts
  end.

Section SetMeta.

(** numpy's conversion of a list to an array, which brings the entries to a
    common type: a list that mixes strings with numbers or NaN becomes an
    array of strings. *)
Variable np_array : list Scalar -> list Scalar.

(** [np.atleast_1d]: a scalar becomes the array of that one value. *)
Definition atleast_1d (meta : PyVal) : list Scalar :=
  match meta with
  | Atom a => [a]
  | PyList l => np_array l
  end.

(** [set_meta], called without [index] on a value that carries no name of
    its own (a scalar or a list); [name] is [None] when it is not passed.  The
    container returned is [self] after the call. *)
Definition set_meta (self : ScmRun) (meta : PyVal) (name : option string)
    : Res ScmRun :=
  match name with
  | None => Raise (ValueError "Must pass a name or use a named pd.Series")
  | Some name =>
      if String.eqb name "" then
        Raise (ValueError "Must pass a name or use a named pd.Series")
      else
        let meta := atleast_1d meta in
        if Nat.eqb (List.length meta) 1 then
          match meta with
          | v :: _ =>
              Ok (mkScmRun (map (fun ts => with_meta ts name v) (_ts self))
                    (_time_points self))
          | [] => Raise (IndexError "index 0 is out of bounds")
          end
        else if Nat.eqb (List.length meta) (Run.len self) then
          Ok (mkScmRun (set_each (_ts self) meta name) (_time_points self))
        else Raise (ValueError "Invalid shape for metadata")
  end.

End SetMeta.

(** A mapping of [rename]: per column, the current names and their targets. *)
Definition Mapping : Type := list (string * list (Scalar * Scalar)).

Fixpoint mapping_get (m : list (Scalar * Scalar)) (orig : Scalar) : option Scalar :=
  match m with
  | [] => None
  | (k, v) :: m' => if scalar_eqb orig k then Some v else mapping_get m' orig
  end.

(** The inner loop of [rename] on one series: [orig = ts.meta[col]] raises
    [KeyError] when the series does not carry the column. *)
Definition rename_ts (col : string) (_mapping : list (Scalar * Scalar))
    (ts : TimeSeries) : Res TimeSeries :=
  match meta_get (meta ts) col with
  | None => Raise (KeyError col)
  | Some orig =>
      match mapping_get _mapping orig with
      | Some target => Ok (with_meta ts col target)
      | None => Ok ts
      end
  end.

Fixpoint rename_loop (ret : ScmRun) (mapping : Mapping) : Res ScmRun :=
  match mapping with
  | [] => Ok ret
  | (col, _mapping) :: mapping' =>
      if negb (existsb (String.eqb col) (Run.meta_attributes ret)) then
        Raise (ValueError ("Renaming by " ++ col ++ " not supported!"))
      else
        ts <- mapM (rename_ts col _mapping) (_ts ret) ;;
        let ret := mkScmRun ts (_time_points ret) in
        if Append.duplicated_any (Run.meta_table ret) then
          Raise (ValueError ("Renaming to non-unique metadata for " ++ col ++ "!"))
        else rename_loop ret mapping'
  end.

(** [rename] returns the receiver after the call and the returned value. *)
Definition rename (self : ScmRun) (mapping : Mapping) (inplace : bool)
    : Res (ScmRun * option ScmRun) :=
  ret <- rename_loop self mapping ;;
  Ok (if inplace then (ret, None) else (self, Some ret)).

End RunMeta.

(** ** Construction from columns *)

Module Init.





Section FromTs.

(** Python's formatting of the list of the missing columns, which comes out
    of a set in no fixed order. *)
Variable format_missing : list string -> string.





End FromTs.

End Init.

(** ** The netCDF writer: dimensions and indices *)

Module Nc.

(** [vals == v] of numpy: NaN is equal to nothing. *)
Definition np_equal (a b : Scalar) : bool :=
  match a with
  | SNaN => false
  | _ => scalar_eqb a b
  end.

(** [np.where(vals == v)[0]]: the positions that hold [v]. *)
Fixpoint where_equal (i : nat) (vals : list Scalar) (v : Scalar) : list nat :=
  match vals with
  | [] => []
  | x :: vals' =>
      if np_equal x v then i :: where_equal (S i) vals' v
      else where_equal (S i) vals' v
  end.

Definition _get_idx (vals : list Scalar) (v : Scalar) : Res nat :=
  if negb (existsb (fun x => np_equal x v) vals) then Raise (AssertionError "")
  else match where_equal 0 vals v with
       | i :: _ => Ok i
       | [] => Raise (IndexError "index 0 is out of bounds")
       end.

(** [list.remove(x)]: the first occurrence goes. *)
Fixpoint remove_first (x : string) (l : list string) : list string :=
  match l with
  | [] => []
  | y :: l' => if String.eqb x y then l' else y :: remove_first x l'
  end.

(** The dimensions [run_to_nc] hands to [_write_nc]. *)
Definition write_dimensions (dimensions : list string) : list string :=
  if existsb (String.eqb "time") dimensions then remove_first "time" dimensions
  else dimensions.

(** [all_dims] of [_write_nc], for the dimensions [run_to_nc] was given. *)
Definition all_dims (dimensions : list string) : list string :=
  (write_dimensions dimensions ++ ["time"])%list.

End Nc.

(** ** The database: paths of the files *)

Module Store.

Import Database.

Section OutFilepath.

Variable FS : Type.
Variable resolve : FS -> string -> Path.

(** The loop of [_get_out_filepath] over [self.levels]. *)
Fixpoint out_levels (todo : list string) (levels : Filters) : Res (list string) :=
  match todo with
  | [] => Ok []
  | level :: todo' =>
      match filters_get levels level with
      | None => Raise (ValueError ("expected value for level: " ++ level))
      | Some v => rest <- out_levels todo' levels ;; Ok (v :: rest)
      end
  end.

Definition _get_out_filepath (self : ScmDatabase) (fs : FS) (levels : Filters)
    : Res string :=
  out_levels <- out_levels (Database.levels self) levels ;;
  let out_path := path_join (_root_dir self) out_levels in
  let out_fname := String.concat "__" out_levels ++ ".nc" in
  let out_fname := path_join out_path [out_fname] in
  _ <- _check_is_subdir FS resolve fs (_root_dir self) out_fname ;;
  Ok (_get_disk_filename out_fname).

End OutFilepath.

End Store.

(** ** Vocabulary of the further properties *)

(** [l] is [l'] with some entries left out. *)
Inductive subseq {A : Type} : list A -> list A -> Prop :=
| subseq_nil : subseq [] []
| subseq_skip (x : A) (l l' : list A) : subseq l l' -> subseq l (x :: l')
| subseq_take (x : A) (l l' : list A) : subseq l l' -> subseq (x :: l) (x :: l').

(** What identifies a series: its name and its metadata. *)
Definition identity (ts : TimeSeries) : Z * Meta := (name ts, meta ts).

(** The keys [_apply_filters] knows what to do with. *)
Definition is_supported_filter (self : ScmRun) (col : string) : bool :=
  String.eqb col "variable" || existsb (String.eqb col) (Run.meta_attributes self)
  || String.eqb col "year" || String.eqb col "month" || String.eqb col "day"
  || String.eqb col "hour" || String.eqb col "time" || String.eqb col "level".

(** The container that comes out of a call of [filter]: the value returned,
    or the receiver when filtering in place. *)
Definition filtered (inplace : bool) (out : Run.FilterOut) (ret : ScmRun) : Prop :=
  if inplace then Run.f_self out = ret else Run.f_ret out = Some ret.


(** What a renaming leaves alone in every series. *)
Definition same_data (a b : TimeSeries) : Prop :=
  name b = name a /\ time b = time a /\ values b = values a /\
  meta_keys (meta b) = meta_keys (meta a).


(** The container that comes out of [df_append]: the value returned, or the
    first run when appending in place. *)
Definition appended (out : Append.AppendOut) : ScmRun :=
  match Append.a_ret out with
  | Some ret => ret
  | None => Append.a_first out
  end.

(** The names of the series do not decrease along the list. *)
Fixpoint ordered_by_name (l : list TimeSeries) : bool :=
  match l with
  | a :: l' =>
      match l' with
      | b :: _ => Z.leb (name a) (name b) && ordered_by_name l'
      | [] => true
      end
  | [] => true
  end.

(** The strings increase strictly along the list, in the order of
    [String.compare] (by code point, a prefix first), which is Python's order
    on ASCII strings. *)
Fixpoint strictly_sorted (l : list string) : bool :=
  match l with
  | a :: l' =>
      match l' with
      | b :: _ =>
          match String.compare a b with
          | Lt => strictly_sorted l'
          | _ => false
          end
      | [] => true
      end
  | [] => true
  end.

(** ** Further cases of the test suite *)

Module Cases.

Import Example.

(** A run of another scenario, on the later years. *)
Definition other_run : ScmRun :=
  mkScmRun
    [series 3 "b_scenario" "Primary Energy" years_B [4; 5; 6]%Q;
     series 4 "b_scenario" "Primary Energy|Coal" years_B [1; 2; 3]%Q]
    (map TimePoints.of_year years_B).

(** Keyword arguments of [filter]. *)
Definition in_2005 : Kwargs := [("year", Atom (SNum 2005))].

Definition by_colour : Kwargs := [("colour", Atom (SStr "red"))].

(** numpy's conversion on the lists used below, whose entries are of one
    type: it keeps them as they are. *)
Definition np_array (l : list Scalar) : list Scalar := l.

(** A mapping of [rename]. *)
Definition to_b_scenario : RunMeta.Mapping :=
  [("scenario", [(SStr "a_scenario", SStr "b_scenario")])].





(** A database and a file system without links: a path resolves to its
    components, the lookup lists the directories below the root, a removal
    takes the directory and what is below it off the listing. *)
Definition database : Database.ScmDatabase :=
  Database.mkScmDatabase "/data" ["climate_model"; "variable"].

Fixpoint components_from (cur s : string) : list string :=
  match s with
  | EmptyString => if String.eqb cur "" then [] else [cur]
  | String c s' =>
      if Ascii.eqb c "/" then
        ((if String.eqb cur "" then [] else [cur]) ++ components_from "" s')%list
      else components_from (cur ++ String c "") s'
  end.

Definition resolve (fs : list string) (p : string) : Database.Path :=
  components_from "" p.

Definition glob (fs : list string) (pattern : string) : list string :=
  List.filter (fun d => String.prefix "/data/" d) fs.

Definition rmtree (fs : list string) (d : string) : Res (list string) :=
  if existsb (String.eqb d) fs
  then Ok (List.filter (fun x => negb (String.prefix d x)) fs)
  else Raise (OSError ("No such file or directory: " ++ d)).

Definition disk : list string :=
  ["/data/a_model/Emissions_CO2"; "/data/b_model/Emissions_CO2"; "/tmp/scratch"].

End Cases.

(** * Properties *)

(** ** Values and masks *)

Lemma scalar_eqb_spec (a b : Scalar) : reflect (a = b) (scalar_eqb a b).
Proof.
  destruct a, b; simpl; try (constructor; discriminate); try (constructor; reflexivity).
  - destruct (String.eqb_spec s s0); constructor; congruence.
  - destruct (Z.eqb_spec z z0); constructor; congruence.
  - destruct (Z.eqb_spec t t0); constructor; congruence.
Qed.

Lemma scalar_eqb_refl (a : Scalar) : scalar_eqb a a = true.
Proof. destruct (scalar_eqb_spec a a); congruence. Qed.

Lemma row_eqb_spec (r r' : list Scalar) : reflect (r = r') (row_eqb r r').
Proof.
  revert r'; induction r as [|a r IH]; intros [|b r']; simpl;
    try (constructor; congruence).
  destruct (scalar_eqb_spec a b); simpl.
  - destruct (IH r'); constructor; congruence.
  - constructor; congruence.
Qed.

Lemma row_eqb_refl (r : list Scalar) : row_eqb r r = true.
Proof. destruct (row_eqb_spec r r); congruence. Qed.

Lemma bind_Ok {A B : Type} (c : Res A) (k : A -> Res B) (b : B) :
  Py.bind c k = Ok b -> exists a, c = Ok a /\ k a = Ok b.
Proof. destruct c as [a|e]; simpl; [eauto | discriminate]. Qed.

Lemma sum_invert (m : list bool) :
  (Mask.sum m + Mask.sum (Mask.invert m) = List.length m)%nat.
Proof.
  unfold Mask.sum, Mask.invert.
  induction m as [|[] m IH]; simpl in *; lia.
Qed.

Lemma sum_all_true (n : nat) : Mask.sum (Mask.invert (Mask.all_true n)) = 0%nat.
Proof. induction n; simpl; auto. Qed.

Lemma sum_invert_zero (m : list bool) :
  Mask.sum (Mask.invert m) = 0%nat <-> forallb (fun b => b) m = true.
Proof.
  unfold Mask.sum, Mask.invert.
  induction m as [|[] m IH]; simpl; try tauto.
  split; [lia | discriminate].
Qed.

Lemma sum_invert_pos (m : list bool) :
  In false m -> Mask.sum (Mask.invert m) <> 0%nat.
Proof.
  unfold Mask.sum, Mask.invert.
  induction m as [|b m IH]; simpl; [tauto|].
  intros [->|H]; simpl; [lia|].
  destruct b; simpl; auto.
Qed.

Lemma zip_and_length (a b : list bool) :
  List.length a = List.length b -> List.length (Mask.zip_and a b) = List.length a.
Proof.
  revert b; induction a as [|x a IH]; intros [|y b]; simpl; try discriminate; auto.
Qed.

Lemma np_invert_Ok (m : list bool) :
  m <> [] -> Mask.np_invert m = Ok (Mask.invert m).
Proof. destruct m; [intros H; now elim H | reflexivity]. Qed.

Lemma np_invert_Ok_inv (m m' : list bool) :
  Mask.np_invert m = Ok m' -> m' = Mask.invert m /\ m <> [].
Proof.
  destruct m; [discriminate|]. intros [= <-]. split; [reflexivity | discriminate].
Qed.

Lemma length_not_nil {A : Type} (l : list A) :
  List.length l <> 0%nat <-> l <> [].
Proof. destruct l; simpl; split; intros H; congruence. Qed.

Lemma iand_length (a b c : list bool) :
  Mask.iand a b = Ok c -> List.length c = List.length a.
Proof.
  unfold Mask.iand. destruct a as [|x a]; [discriminate|].
  cbv beta iota. generalize (x :: a). clear x a. intros a.
  destruct (Nat.eqb_spec (List.length a) (List.length b)) as [E|_].
  - intros [= <-]. now apply zip_and_length.
  - destruct b as [|y [|]]; try discriminate.
    intros [= <-]. apply length_map.
Qed.

Lemma select_length {A : Type} (mask : list bool) (l : list A) :
  List.length mask = List.length l ->
  exists r, Mask.select mask l = Ok r /\ List.length r = Mask.sum mask.
Proof.
  revert l; induction mask as [|v mask IH]; intros [|x l]; simpl; try discriminate.
  - exists []; auto.
  - intros [= E]. destruct (IH l E) as (r & -> & Hr).
    destruct v; simpl; eauto.
    exists (x :: r). unfold Mask.sum in *; simpl. auto.
Qed.

Lemma select_none {A : Type} (mask : list bool) (l : list A) :
  Mask.sum mask = 0%nat -> List.length mask = List.length l ->
  Mask.select mask l = Ok [].
Proof.
  intros Z E. destruct (select_length mask l E) as (r & -> & Hr).
  rewrite Z in Hr. destruct r; [reflexivity | discriminate].
Qed.

(** ** Filter *)

Section FilterFacts.

Variable pattern_match :
  list Scalar -> PyVal -> option PyVal -> PyVal -> bool -> string -> Res (list bool).
Variables years_match month_match day_match hour_match datetime_match :
  list Z -> PyVal -> Res (list bool).
Variable sep : string.

Let apply_filter :=
  Run.apply_filter pattern_match years_match month_match day_match hour_match
    datetime_match sep.
Let apply_filters_loop :=
  Run.apply_filters_loop pattern_match years_match month_match day_match
    hour_match datetime_match sep.
Let _apply_filters :=
  Run._apply_filters pattern_match years_match month_match day_match hour_match
    datetime_match sep.
Let filter :=
  Run.filter pattern_match years_match month_match day_match hour_match
    datetime_match sep.

Lemma apply_filter_length self filters regexp has_nan kt km item kt' km' :
  apply_filter self filters regexp has_nan (kt, km) item = Ok (kt', km') ->
  List.length kt' = List.length kt /\ List.length km' = List.length km.
Proof.
  unfold apply_filter, Run.apply_filter. destruct item as [col values].
  assert (M : forall m, (m' <- m ;; k <- Mask.iand km m' ;; Ok (kt, k)) = Ok (kt', km') ->
              List.length kt' = List.length kt /\ List.length km' = List.length km).
  { intros m H. apply bind_Ok in H as (m' & _ & H).
    apply bind_Ok in H as (k & Hk & [= <- <-]).
    split; [reflexivity | now apply iand_length in Hk]. }
  assert (T : forall m, (m' <- m ;; k <- Mask.iand kt m' ;; Ok (k, km)) = Ok (kt', km') ->
              List.length kt' = List.length kt /\ List.length km' = List.length km).
  { intros m H. apply bind_Ok in H as (m' & _ & H).
    apply bind_Ok in H as (k & Hk & [= <- <-]).
    split; [now apply iand_length in Hk | reflexivity]. }
  repeat match goal with
         | |- context [if ?b then _ else _] => destruct b
         end; eauto; try discriminate.
  intros [= <- <-]; auto.
Qed.

Lemma apply_filters_loop_length self filters regexp has_nan items :
  forall kt km kt' km',
  apply_filters_loop self filters regexp has_nan items (kt, km) = Ok (kt', km') ->
  List.length kt' = List.length kt /\ List.length km' = List.length km.
Proof.
  induction items as [|item items IH]; simpl; intros kt km kt' km' H.
  - injection H as <- <-; auto.
  - apply bind_Ok in H as ([kt1 km1] & H1 & H2).
    apply apply_filter_length in H1 as [E1 E2].
    apply IH in H2 as [E3 E4]. split; congruence.
Qed.

Lemma apply_filters_length self kwargs has_nan kt km :
  _apply_filters self kwargs has_nan = Ok (kt, km) ->
  List.length kt = List.length (_time_points self) /\
  List.length km = Run.len self.
Proof.
  unfold _apply_filters, Run._apply_filters. intros H.
  apply apply_filters_loop_length in H as [E1 E2].
  unfold Mask.all_true in *. rewrite repeat_length in *. auto.
Qed.

(** A filter on metadata leaves the mask of the time axis alone. *)
Lemma apply_filter_meta self filters regexp has_nan kt km item kt' km' :
  Run.is_meta_filter self (fst item) = true ->
  apply_filter self filters regexp has_nan (kt, km) item = Ok (kt', km') ->
  kt' = kt.
Proof.
  unfold apply_filter, Run.apply_filter, Run.is_meta_filter.
  destruct item as [col values]; simpl.
  assert (M : forall m, (m' <- m ;; k <- Mask.iand km m' ;; Ok (kt, k)) = Ok (kt', km') ->
              kt' = kt).
  { intros m H. apply bind_Ok in H as (m' & _ & H).
    now apply bind_Ok in H as (k & Hk & [= <- <-]). }
  destruct (String.eqb col "variable"); [intros _; apply M|].
  destruct (existsb (String.eqb col) (Run.meta_attributes self)); [intros _; apply M|].
  simpl. intros H.
  apply orb_true_iff in H as [H|H]; apply String.eqb_eq in H; subst col; simpl.
  - destruct (negb (kw_mem "variable" filters)); [apply M|].
    now intros [= <- <-].
  - discriminate.
Qed.

Lemma apply_filters_loop_meta self filters regexp has_nan items :
  forallb (fun p => Run.is_meta_filter self (fst p)) items = true ->
  forall kt km kt' km',
  apply_filters_loop self filters regexp has_nan items (kt, km) = Ok (kt', km') ->
  kt' = kt.
Proof.
  induction items as [|item items IH]; simpl; intros Hm kt km kt' km' H.
  - now injection H as <- <-.
  - apply andb_true_iff in Hm as [Hi Hm].
    apply bind_Ok in H as ([kt1 km1] & H1 & H2).
    apply apply_filter_meta in H1; [subst kt1 | assumption].
    eapply IH; eassumption.
Qed.

Lemma apply_filters_meta self kwargs has_nan kt km :
  Run.meta_only self kwargs = true ->
  _apply_filters self kwargs has_nan = Ok (kt, km) ->
  kt = Mask.all_true (List.length (_time_points self)).
Proof.
  unfold _apply_filters, Run._apply_filters, Run.meta_only. intros Hm H.
  eapply apply_filters_loop_meta in H; [exact H|].
  unfold kw_remove. rewrite forallb_forall in *.
  intros p Hp. apply filter_In in Hp as [Hp _]. auto.
Qed.

(** C1: when every predicate of a filter bears on metadata only, the series
    kept by [filter(keep=True, **p)] and those kept by [filter(keep=False, **p)]
    add up to the series of the container; the two calls succeed together, or
    fail together on the same error of a predicate. *)
Theorem filter_keep_partition (self : ScmRun) (has_nan : bool) (kwargs : Kwargs) :
  Run.meta_only self kwargs = true ->
  match filter self true false has_nan kwargs,
        filter self false false has_nan kwargs with
  | Ok kept, Ok dropped =>
      exists a b, Run.f_ret kept = Some a /\ Run.f_ret dropped = Some b /\
                  (Run.len a + Run.len b = Run.len self)%nat
  | Raise e, Raise e' => e = e'
  | _, _ => False
  end.
Proof.
  intros Hm. unfold filter, Run.filter.
  fold _apply_filters.
  destruct (_apply_filters self kwargs has_nan) as [[kt km]|e] eqn:Hf;
    cbn [Py.bind]; cbv beta iota zeta; [|reflexivity].
  pose proof (apply_filters_meta _ _ _ _ _ Hm Hf) as ->.
  apply apply_filters_length in Hf as [_ Hlen].
  destruct (Mask.np_invert (Mask.all_true (List.length (_time_points self))))
    as [nt|e] eqn:Et; cbn [Py.bind]; [|reflexivity].
  destruct (Mask.np_invert km) as [nc|e] eqn:Ec; cbn [Py.bind]; [|reflexivity].
  apply np_invert_Ok_inv in Et as [-> _]. apply np_invert_Ok_inv in Ec as [-> _].
  rewrite sum_all_true. simpl. rewrite andb_false_r. simpl.
  pose proof (sum_invert km) as Hs.
  assert (Hinv : List.length (Mask.invert km) = List.length (_ts self)).
  { unfold Mask.invert. rewrite length_map. exact Hlen. }
  destruct (select_length km (_ts self) Hlen) as (r1 & Hr1 & Hl1).
  destruct (select_length (Mask.invert km) (_ts self) Hinv) as (r2 & Hr2 & Hl2).
  destruct (Nat.ltb_spec 0 (Mask.sum (Mask.invert km))) as [Hpos|Hzero]; simpl.
  - rewrite Hr1, Hr2. simpl.
    do 2 eexists. split; [reflexivity|]. split; [reflexivity|].
    unfold Run.len in *; simpl; lia.
  - rewrite Hr2. simpl.
    do 2 eexists. split; [reflexivity|]. split; [reflexivity|].
    unfold Run.len in *; simpl; lia.
Qed.

(** C4: with [keep=False], a filter whose metadata predicates exclude at
    least one series and whose temporal predicates exclude at least one time
    point is rejected with a [ValueError]. *)
Theorem filter_keep_false_both_axes (self : ScmRun) (inplace has_nan : bool)
    (kwargs : Kwargs) (keep_times keep_cols : list bool) :
  _apply_filters self kwargs has_nan = Ok (keep_times, keep_cols) ->
  In false keep_cols ->
  In false keep_times ->
  exists msg, filter self false inplace has_nan kwargs = Raise (ValueError msg).
Proof.
  intros Hf Hc Ht. unfold filter, Run.filter. fold _apply_filters.
  rewrite Hf. cbn [Py.bind]. cbv beta iota zeta.
  rewrite (np_invert_Ok keep_times) by (intros ->; destruct Ht).
  rewrite (np_invert_Ok keep_cols) by (intros ->; destruct Hc).
  cbn [Py.bind].
  apply sum_invert_pos in Hc, Ht.
  apply Nat.eqb_neq in Hc, Ht. rewrite Hc, Ht. simpl. eauto.
Qed.

Lemma forallb_all_true (n : nat) : forallb (fun b => b) (Mask.all_true n) = true.
Proof. induction n; simpl; auto. Qed.

(** X30: on a container with at least one series and one time point,
    [filter(keep=False)] with predicates that exclude nothing, the filter
    without predicates among them, returns a container without any series, on
    the unchanged time axis, and logs that the result is empty. *)
Theorem filter_keep_false_drops_everything (self : ScmRun) (has_nan : bool)
    (kwargs : Kwargs) :
  _ts self <> [] ->
  _time_points self <> [] ->
  (kwargs = [] \/
   exists keep_times keep_cols,
     _apply_filters self kwargs has_nan = Ok (keep_times, keep_cols) /\
     forallb (fun b => b) keep_times = true /\
     forallb (fun b => b) keep_cols = true) ->
  exists out ret,
    filter self false false has_nan kwargs = Ok out /\
    Run.f_ret out = Some ret /\
    _ts ret = [] /\ Run.len ret = 0%nat /\
    _time_points ret = _time_points self /\
    Run.f_log out = ["Filtered ScmDataFrame is empty!"].
Proof.
  intros Hts Htp H.
  assert (exists kt km, _apply_filters self kwargs has_nan = Ok (kt, km) /\
            forallb (fun b => b) kt = true /\ forallb (fun b => b) km = true)
    as (kt & km & Hf & Ht & Hc).
  { destruct H as [->|H]; [|exact H].
    do 2 eexists. split; [reflexivity|]. split; apply forallb_all_true. }
  unfold filter, Run.filter. fold _apply_filters. rewrite Hf.
  cbn [Py.bind]. cbv beta iota zeta.
  apply apply_filters_length in Hf as [Hlt Hlen].
  rewrite (np_invert_Ok kt)
    by (apply length_not_nil; rewrite Hlt; now apply length_not_nil).
  rewrite (np_invert_Ok km)
    by (apply length_not_nil; unfold Run.len in Hlen; rewrite Hlen;
        now apply length_not_nil).
  cbn [Py.bind].
  apply sum_invert_zero in Ht, Hc. rewrite Ht, Hc. simpl.
  rewrite select_none.
  - simpl. do 2 eexists. repeat split.
  - pose proof (sum_invert (Mask.invert km)) as Hs.
    pose proof (sum_invert km) as Hs'.
    unfold Mask.invert in *. rewrite length_map in Hs. lia.
  - unfold Mask.invert. rewrite length_map. exact Hlen.
Qed.

End FilterFacts.

(** ** Unique metadata *)

Lemma unique_In (x : Scalar) (l : list Scalar) : In x (Run.unique l) <-> In x l.
Proof.
  induction l as [|y l IH]; simpl; [tauto|].
  rewrite filter_In, IH. split.
  - intros [H|[H _]]; auto.
  - intros [H|H]; auto.
    destruct (scalar_eqb_spec y x); auto.
Qed.

Lemma unique_NoDup (l : list Scalar) : NoDup (Run.unique l).
Proof.
  induction l as [|y l IH]; simpl; constructor.
  - rewrite filter_In. intros [_ H]. now rewrite scalar_eqb_refl in H.
  - now apply NoDup_filter.
Qed.

(** C7: for a column of the container, [get_unique_meta(meta, True)] raises
    the [ValueError] that names the column exactly when the column does not
    hold exactly one distinct value, and returns the value itself when it
    does; [get_unique_meta(meta, False)] returns the list of the distinct
    values. *)
Theorem get_unique_meta_unique_or_error (format_list : list Scalar -> string)
    (self : ScmRun) (meta : string) (col : list Scalar) :
  Run.__getitem__ self meta = Ok col ->
  let vals := Run.unique col in
  (List.length vals <> 1%nat <->
   Run.get_unique_meta format_list self meta true
   = Raise (ValueError ("`" ++ meta ++ "` column is not unique (found values: "
                          ++ format_list vals ++ ")"))) /\
  (forall e, Run.get_unique_meta format_list self meta true = Raise e ->
             List.length vals <> 1%nat) /\
  (forall v, vals = [v] ->
             Run.get_unique_meta format_list self meta true = Ok (Run.Value1 v)) /\
  Run.get_unique_meta format_list self meta false = Ok (Run.Values vals).
Proof.
  intros Hcol vals. unfold Run.get_unique_meta. rewrite Hcol. simpl.
  fold vals. unfold Run.not_unique_msg.
  destruct (Nat.eqb_spec (List.length vals) 1) as [E|N]; simpl.
  - destruct vals as [|v [|]]; try discriminate.
    split; [split; [intros N; now elim N | discriminate]|].
    split; [discriminate|]. split; [congruence | reflexivity].
  - split; [split; auto|]. split; [auto|]. split; [|reflexivity].
    intros v E. rewrite E in N. now elim N.
Qed.

(** ** The database: [delete] stays inside the root directory *)

Lemma path_eqb_eq (p q : Database.Path) : Database.path_eqb p q = true <-> p = q.
Proof.
  revert q; induction p as [|a p IH]; intros [|b q]; simpl;
    try (split; [discriminate | congruence]); [tauto|].
  rewrite andb_true_iff, String.eqb_eq, IH. split.
  - intros [-> ->]; reflexivity.
  - intros [= -> ->]; auto.
Qed.

Lemma proper_prefixes_spec (p q : Database.Path) :
  In q (Database.proper_prefixes p) <-> Database.strictly_inside q p.
Proof.
  unfold Database.strictly_inside. revert q; induction p as [|a p IH]; intros q; simpl.
  - split; [tauto|]. intros (rest & Hne & E).
    destruct q, rest; simpl in E; try discriminate. now elim Hne.
  - rewrite in_map_iff. split.
    + intros [<-|(q' & <- & Hq')].
      * exists (a :: p). split; [discriminate | reflexivity].
      * apply IH in Hq' as (rest & Hne & ->). exists rest. auto.
    + intros (rest & Hne & E). destruct q as [|b q]; [now left|].
      right. injection E as <- ->. exists q. split; [reflexivity|].
      apply IH. exists rest. auto.
Qed.

Lemma parents_spec (root_path out_path : Database.Path) :
  existsb (Database.path_eqb root_path) (Database.parents out_path) = true
  <-> Database.strictly_inside root_path out_path.
Proof.
  rewrite existsb_exists, <- proper_prefixes_spec. unfold Database.parents.
  split.
  - intros (q & Hq & E). apply path_eqb_eq in E. subst q. now apply in_rev.
  - intros H. exists root_path. split; [now apply in_rev in H | now apply path_eqb_eq].
Qed.

Section DeleteFacts.

Variable FS : Type.
Variable glob : FS -> string -> list string.
Variable resolve : FS -> string -> Database.Path.
Variable rmtree : FS -> string -> Res FS.

Lemma delete_loop_inside self load_dirs :
  forall fs removed,
  Forall (Database.removal_inside_root FS resolve self) removed ->
  Forall (Database.removal_inside_root FS resolve self)
    (Database.d_removed FS
       (Database.delete_loop FS resolve rmtree self fs load_dirs removed)).
Proof.
  induction load_dirs as [|d load_dirs IH]; simpl; intros fs removed H; [exact H|].
  unfold Database._check_is_subdir.
  destruct (existsb _ _) eqn:E; simpl; [|exact H].
  destruct (rmtree fs d) as [fs'|e]; simpl; [|exact H].
  apply IH. apply Forall_app. split; [exact H|].
  constructor; [|constructor]. split; [exact E | now apply parents_spec].
Qed.

(** C8: whatever the filters, every directory that [delete] removes lies
    strictly inside the root directory: its resolved parents include the
    resolved root, as checked on the file system the removal was made on. *)
Theorem delete_stays_inside_root (self : Database.ScmDatabase) (fs : FS)
    (filters : Database.Filters) :
  Forall (Database.removal_inside_root FS resolve self)
    (Database.d_removed FS (Database.delete FS glob resolve rmtree self fs filters)).
Proof.
  unfold Database.delete.
  destruct (Database.check_filters self filters); simpl; [|constructor].
  apply delete_loop_inside. constructor.
Qed.

(** A directory that fails the check is not removed, nor is anything after
    it: the call ends there on an [AssertionError]. *)
Lemma delete_loop_stops self fs d load_dirs removed :
  existsb (Database.path_eqb (resolve fs (Database._root_dir self)))
    (Database.parents (resolve fs d)) = false ->
  Database.delete_loop FS resolve rmtree self fs (d :: load_dirs) removed
  = Database.mkDeleteOut FS fs removed
      (Some (AssertionError (d ++ " not in " ++ Database._root_dir self))).
Proof.
  intros E. simpl. unfold Database._check_is_subdir. rewrite E. reflexivity.
Qed.

End DeleteFacts.

(** ** Reading a netCDF file *)

(** C10 (as amended): once the file is open, an error of [_read_nc] that
    derives from [Exception] is logged and [None] is returned; an error
    raised on opening the file reaches the caller. *)
Theorem nc_to_run_catches_read_errors (Dataset : Type)
    (nc_Dataset : string -> Res Dataset) (_read_nc : Dataset -> Res ScmRun)
    (fname : string) (ds : Dataset) (e : PyExc) :
  nc_Dataset fname = Ok ds ->
  _read_nc ds = Raise e ->
  is_Exception e = true ->
  Netcdf.nc_to_run Dataset true nc_Dataset _read_nc fname
  = Ok (None, ["Failed reading netdf file: " ++ fname]).
Proof.
  intros Hopen Hread He. unfold Netcdf.nc_to_run. simpl.
  rewrite Hopen. simpl. rewrite Hread, He. reflexivity.
Qed.

Lemma nc_to_run_open_error (Dataset : Type) (has_netcdf : bool)
    (nc_Dataset : string -> Res Dataset) (_read_nc : Dataset -> Res ScmRun)
    (fname : string) (e : PyExc) :
  has_netcdf = true ->
  nc_Dataset fname = Raise e ->
  Netcdf.nc_to_run Dataset has_netcdf nc_Dataset _read_nc fname = Raise e.
Proof.
  intros -> Hopen. unfold Netcdf.nc_to_run. simpl. now rewrite Hopen.
Qed.

(** A file that is not a netCDF file cannot be opened: the error of
    [nc.Dataset] is raised outside the [try] and reaches the caller; so does a
    [KeyboardInterrupt] that arrives while reading. *)
Lemma nc_to_run_error_reaches_caller :
  Netcdf.nc_to_run unit true
    (fun _ => Raise (OSError "NetCDF: Unknown file format"))
    (fun _ => Raise (ValueError "not reached")) "broken.nc"
  = Raise (OSError "NetCDF: Unknown file format")
  /\
  Netcdf.nc_to_run unit true (fun _ => Ok tt)
    (fun _ => Raise KeyboardInterrupt) "run.nc"
  = Raise KeyboardInterrupt.
Proof. split; reflexivity. Qed.

(** ** The names of netCDF variables *)

Lemma to_lower_not_underscore (c : ascii) :
  Ascii.eqb c "_" = false -> Ascii.eqb (Str.to_lower c) "_" = false.
Proof.
  destruct c as [[] [] [] [] [] [] [] []]; intros H; try discriminate H; reflexivity.
Qed.

Lemma to_lower_plain (c : ascii) :
  Str.is_cased c = false -> Str.to_lower c = c.
Proof.
  unfold Str.to_lower, Str.is_cased.
  destruct (Str.is_upper c); simpl; [discriminate | reflexivity].
Qed.

Lemma to_lower_cased (c : ascii) : Str.is_cased (Str.to_lower c) = Str.is_cased c.
Proof. destruct c as [[] [] [] [] [] [] [] []]; reflexivity. Qed.

Lemma to_lower_idem (c : ascii) : Str.to_lower (Str.to_lower c) = Str.to_lower c.
Proof. destruct c as [[] [] [] [] [] [] [] []]; reflexivity. Qed.

Lemma to_upper_lower (c : ascii) : Str.to_upper (Str.to_lower c) = Str.to_upper c.
Proof. destruct c as [[] [] [] [] [] [] [] []]; reflexivity. Qed.

(** [title] does not see the case of its argument. *)
Lemma title_from_lower (b : bool) (s : string) :
  Str.title_from b (Str.lower s) = Str.title_from b s.
Proof.
  revert b; induction s as [|c s IH]; intros b; simpl; [reflexivity|].
  rewrite to_lower_cased. destruct (Str.is_cased c) eqn:E.
  - rewrite IH, to_lower_idem, to_upper_lower. reflexivity.
  - rewrite IH, to_lower_plain; auto.
Qed.

Lemma prefix_nil (s : string) : String.prefix "" s = true.
Proof. destruct s; reflexivity. Qed.

Lemma prefix_cons (a b : ascii) (s1 s2 : string) :
  String.prefix (String a s1) (String b s2) = Ascii.eqb a b && String.prefix s1 s2.
Proof.
  simpl. destruct (ascii_dec a b) as [->|N].
  - now rewrite Ascii.eqb_refl.
  - apply Ascii.eqb_neq in N. now rewrite N.
Qed.

(** Replacing a single character. *)
Lemma replace_char_cons (a : ascii) (new : string) (c : ascii) (s : string) :
  Str.replace (String a "") new (String c s)
  = if Ascii.eqb a c then new ++ Str.replace (String a "") new s
    else String c (Str.replace (String a "") new s).
Proof.
  unfold Str.replace. cbn [Str.replace_from].
  rewrite prefix_cons, prefix_nil, andb_true_r. reflexivity.
Qed.

Lemma lower_app (s t : string) : Str.lower (s ++ t) = Str.lower s ++ Str.lower t.
Proof.
  unfold Str.lower. induction s as [|c s IH]; simpl; [reflexivity | now rewrite IH].
Qed.

Lemma var_to_nc_cons (c : ascii) (v : string) :
  Netcdf._var_to_nc (String c v) = Netcdf.escape_char c ++ Netcdf._var_to_nc v.
Proof.
  unfold Netcdf._var_to_nc, Netcdf.escape_char.
  rewrite replace_char_cons. rewrite (Ascii.eqb_sym c "|").
  destruct (Ascii.eqb_spec "|"%char c) as [<-|N1].
  - reflexivity.
  - rewrite replace_char_cons. rewrite (Ascii.eqb_sym c " ").
    destruct (Ascii.eqb_spec " "%char c) as [<-|N2]; reflexivity.
Qed.

Lemma var_to_nc_head (v : string) :
  Str.contains_char "_" v = false ->
  match v with
  | String d _ => negb (Ascii.eqb d " ") && negb (Ascii.eqb d "|") = true
  | EmptyString => True
  end ->
  String.prefix "_" (Netcdf._var_to_nc v) = false.
Proof.
  destruct v as [|d v]; [reflexivity|]. simpl.
  intros Hu Hd. apply orb_false_iff in Hu as [Hu _].
  apply andb_true_iff in Hd as [H1 H2].
  apply negb_true_iff in H1, H2.
  rewrite var_to_nc_cons. unfold Netcdf.escape_char. rewrite H1, H2.
  cbn [append]. rewrite prefix_cons, Ascii.eqb_sym, to_lower_not_underscore; auto.
Qed.

Lemma separators_decoded (v : string) :
  Str.contains_char "_" v = false ->
  Netcdf.spaces_apart v = true ->
  Str.replace "__" "|" (Netcdf._var_to_nc v) = Netcdf.half_decoded v.
Proof.
  induction v as [|c v IH]; [reflexivity|].
  intros Hu Hs. simpl in Hu, Hs.
  apply orb_false_iff in Hu as [Hc Hu].
  apply andb_true_iff in Hs as [Hhead Hs].
  specialize (IH Hu Hs).
  rewrite var_to_nc_cons. unfold Netcdf.escape_char.
  change (Netcdf.half_decoded (String c v))
    with (String (if Ascii.eqb c " " then "_"%char else Str.to_lower c)
            (Netcdf.half_decoded v)).
  destruct (Ascii.eqb_spec c "|") as [->|N1].
  - cbn [append]. unfold Str.replace in *. cbn [Str.replace_from].
    rewrite !prefix_cons, prefix_nil. rewrite Ascii.eqb_refl. cbn [andb append].
    change (String.length "__" - 1)%nat with 1%nat. cbn [Str.replace_from].
    f_equal. exact IH.
  - destruct (Ascii.eqb_spec c " ") as [->|N2].
    + cbn [append]. unfold Str.replace in *. cbn [Str.replace_from].
      rewrite prefix_cons. rewrite Ascii.eqb_refl. cbn [andb].
      rewrite var_to_nc_head; auto.
      * f_equal. exact IH.
      * destruct v; auto.
    + cbn [append]. unfold Str.replace in *. cbn [Str.replace_from].
      rewrite prefix_cons, Ascii.eqb_sym, to_lower_not_underscore; auto.
      cbn [andb]. f_equal. exact IH.
Qed.

Lemma spaces_decoded (v : string) :
  Str.contains_char "_" v = false ->
  Str.replace "_" " " (Netcdf.half_decoded v) = Str.lower v.
Proof.
  induction v as [|c v IH]; [reflexivity|].
  intros Hu. simpl in Hu. apply orb_false_iff in Hu as [Hc Hu].
  change (Netcdf.half_decoded (String c v))
    with (String (if Ascii.eqb c " " then "_"%char else Str.to_lower c)
            (Netcdf.half_decoded v)).
  change (Str.lower (String c v)) with (String (Str.to_lower c) (Str.lower v)).
  rewrite replace_char_cons, IH; auto.
  destruct (Ascii.eqb_spec c " ") as [->|N]; [reflexivity|].
  rewrite Ascii.eqb_sym, to_lower_not_underscore; auto.
Qed.

(** A variable name without underscore, whose spaces are never directly
    followed by a space or a separator, and which is title-cased, comes back
    unchanged from the escaping of [run_to_nc] followed by the unescaping of
    [nc_to_run]. *)
Theorem stable_variable_read_back (v : string) :
  Netcdf.is_nc_stable v = true ->
  Netcdf.variable_read_back v = v.
Proof.
  unfold Netcdf.is_nc_stable. intros H.
  apply andb_true_iff in H as [H Ht]. apply andb_true_iff in H as [Hu Hs].
  apply negb_true_iff in Hu. apply String.eqb_eq in Ht.
  unfold Netcdf.variable_read_back, Netcdf._nc_to_var.
  rewrite separators_decoded, spaces_decoded by assumption.
  unfold Str.title. rewrite title_from_lower. exact Ht.
Qed.

Lemma to_upper_cased (c : ascii) : Str.is_cased (Str.to_upper c) = Str.is_cased c.
Proof. destruct c as [[] [] [] [] [] [] [] []]; reflexivity. Qed.

Lemma to_upper_idem (c : ascii) : Str.to_upper (Str.to_upper c) = Str.to_upper c.
Proof. destruct c as [[] [] [] [] [] [] [] []]; reflexivity. Qed.

Lemma title_from_idem (b : bool) (s : string) :
  Str.title_from b (Str.title_from b s) = Str.title_from b s.
Proof.
  revert b; induction s as [|c s IH]; intros b; simpl; [reflexivity|].
  destruct (Str.is_cased c) eqn:E; simpl.
  - destruct b; rewrite ?to_lower_cased, ?to_upper_cased, E, IH,
      ?to_lower_idem, ?to_upper_idem; reflexivity.
  - now rewrite E, IH.
Qed.

(** Whatever the name of a netCDF variable, the variable read from it is
    title-cased: a name that is not cannot come back. *)
Lemma nc_to_var_title_cased (var : string) :
  Str.title (Netcdf._nc_to_var var) = Netcdf._nc_to_var var.
Proof. unfold Netcdf._nc_to_var, Str.title. apply title_from_idem. Qed.

Lemma read_back_only_title_cased (v : string) :
  Netcdf.variable_read_back v = v -> Str.title v = v.
Proof.
  unfold Netcdf.variable_read_back. intros E.
  rewrite <- E at 1. rewrite nc_to_var_title_cased. exact E.
Qed.

(** C3: the variable [Emissions|CO2], written by [run_to_nc] under the name
    [emissions__co2], is read back by [nc_to_run] as [Emissions|Co2]: the
    lower-casing of [_var_to_nc] is not undone by the title-casing of
    [_nc_to_var], and the variable metadata of the series is not
    reproduced. *)
Lemma variable_not_read_back :
  Netcdf._var_to_nc "Emissions|CO2" = "emissions__co2" /\
  Netcdf.variable_read_back "Emissions|CO2" = "Emissions|Co2" /\
  Netcdf.variable_read_back "Emissions|CO2" <> "Emissions|CO2".
Proof. repeat split. discriminate. Qed.

(** ** Append *)

Lemma insert_key_In (c k : string) (l : list string) :
  In c (Run.insert_key k l) <-> c = k \/ In c l.
Proof.
  induction l as [|k' l IH]; simpl; [intuition congruence|].
  destruct (String.compare k k') eqn:E; simpl.
  - apply String.compare_eq_iff in E. subst k'. intuition congruence.
  - intuition congruence.
  - rewrite IH. intuition congruence.
Qed.

Lemma sorted_set_In (c : string) (l : list string) :
  In c (Run.sorted_set l) <-> In c l.
Proof.
  unfold Run.sorted_set. induction l as [|k l IH]; simpl; [tauto|].
  rewrite insert_key_In, IH. intuition congruence.
Qed.

(** The metadata columns of a container are the keys of its series. *)
Lemma meta_attributes_In (c : string) (r : ScmRun) :
  In c (Run.meta_attributes r) <->
  exists ts, In ts (_ts r) /\ In c (meta_keys (meta ts)).
Proof.
  unfold Run.meta_attributes. rewrite sorted_set_In, in_concat. split.
  - intros (ks & Hks & Hc). apply in_map_iff in Hks as (ts & <- & Hts). eauto.
  - intros (ts & Hts & Hc). exists (meta_keys (meta ts)). split; [|exact Hc].
    apply in_map_iff. eauto.
Qed.

Lemma meta_row_eq (cols : list string) (a b : TimeSeries) :
  Run.meta_row cols a = Run.meta_row cols b <->
  forall c, In c cols -> Run.meta_or_nan a c = Run.meta_or_nan b c.
Proof.
  unfold Run.meta_row. induction cols as [|c cols IH]; simpl.
  - split; [tauto | reflexivity].
  - split.
    + intros [= H1 H2] c' [<-|Hc]; [exact H1 | now apply IH].
    + intros H. f_equal; [apply H; auto | apply IH; auto].
Qed.

(** Rows that agree on a set of columns agree on every smaller set. *)
Lemma meta_row_incl (cols cols' : list string) (a b : TimeSeries) :
  incl cols' cols ->
  Run.meta_row cols a = Run.meta_row cols b ->
  Run.meta_row cols' a = Run.meta_row cols' b.
Proof. rewrite !meta_row_eq. unfold incl. auto. Qed.

Lemma distinct_rows_In (k : list Scalar) (rows : list (list Scalar)) :
  In k (Append.distinct_rows rows) <-> In k rows.
Proof.
  induction rows as [|r rows IH]; simpl; [tauto|].
  rewrite filter_In, IH. split.
  - intros [H|[H _]]; auto.
  - intros [H|H]; auto.
    destruct (row_eqb_spec r k); auto.
Qed.

Lemma distinct_rows_NoDup (rows : list (list Scalar)) :
  NoDup (Append.distinct_rows rows).
Proof.
  induction rows as [|r rows IH]; simpl; constructor.
  - rewrite filter_In. intros [_ H]. now rewrite row_eqb_refl in H.
  - now apply NoDup_filter.
Qed.

Lemma duplicated_any_NoDup (rows : list (list Scalar)) :
  Append.duplicated_any rows = false <-> NoDup rows.
Proof.
  induction rows as [|r rows IH]; simpl.
  - split; [constructor | reflexivity].
  - rewrite orb_false_iff, IH. split.
    + intros [H1 H2]. constructor; [|exact H2].
      intros Hin. apply not_true_iff_false in H1. apply H1.
      apply existsb_exists. exists r. split; [exact Hin | apply row_eqb_refl].
    + intros H. inversion H as [|? ? Hn Hd]; subst. split; [|exact Hd].
      apply not_true_iff_false. intros E. apply existsb_exists in E as (r' & Hin & E).
      destruct (row_eqb_spec r r'); [subst; auto | discriminate].
Qed.

(** Without duplicated rows, at most one series carries a given row. *)
Lemma unique_row_member {A : Type} (f : A -> list Scalar) (k : list Scalar) (l : list A) :
  NoDup (map f l) ->
  (List.length (List.filter (fun x => row_eqb k (f x)) l) <= 1)%nat.
Proof.
  induction l as [|x l IH]; simpl; [lia|].
  intros H. inversion H as [|? ? Hn Hd]; subst. specialize (IH Hd).
  destruct (row_eqb_spec k (f x)) as [->|N]; simpl; [|exact IH].
  assert (E : List.filter (fun y => row_eqb (f x) (f y)) l = []).
  { destruct (List.filter _ l) as [|y l'] eqn:Ef; [reflexivity|].
    assert (Hy : In y (List.filter (fun y => row_eqb (f x) (f y)) l))
      by (rewrite Ef; now left).
    apply filter_In in Hy as [Hy E].
    destruct (row_eqb_spec (f x) (f y)) as [E'|]; [|discriminate].
    elim Hn. rewrite E'. now apply in_map. }
  rewrite E. simpl. lia.
Qed.

Lemma add_counts_length (a b : list nat) :
  List.length a = List.length b ->
  List.length (Append.add_counts a b) = List.length a.
Proof.
  revert b; induction a as [|x a IH]; intros [|y b]; simpl; try discriminate; auto.
Qed.

Lemma add_counts_nth (a b : list nat) (j : nat) :
  List.length a = List.length b ->
  nth j (Append.add_counts a b) 0%nat = (nth j a 0 + nth j b 0)%nat.
Proof.
  revert b j; induction a as [|x a IH]; intros [|y b] [|j]; simpl;
    try discriminate; auto.
Qed.

Lemma notnull_counts_nth (vs : list Value) (j : nat) :
  nth j (Append.notnull_counts vs) 0%nat
  = if isnull (nth j vs None) then 0%nat else 1%nat.
Proof.
  revert j; induction vs as [|v vs IH]; intros [|j]; simpl; auto.
Qed.

Lemma column_sum_length (n : nat) (vss : list (list Value)) :
  Forall (fun vs => List.length vs = n) vss ->
  List.length (fold_right Append.add_counts (repeat 0%nat n)
                 (map Append.notnull_counts vss)) = n.
Proof.
  induction 1 as [|vs vss Hvs _ IH]; simpl; [apply repeat_length|].
  assert (E : List.length (Append.notnull_counts vs) = n)
    by (unfold Append.notnull_counts; now rewrite length_map).
  rewrite add_counts_length; congruence.
Qed.

Lemma column_sum_nth (n : nat) (vss : list (list Value)) (j : nat) :
  Forall (fun vs => List.length vs = n) vss ->
  nth j (fold_right Append.add_counts (repeat 0%nat n)
           (map Append.notnull_counts vss)) 0%nat
  = count_at j vss.
Proof.
  unfold count_at.
  induction 1 as [|vs vss Hvs Hall IH]; simpl.
  - apply nth_repeat.
  - rewrite add_counts_nth.
    + rewrite IH, notnull_counts_nth. unfold Value in *.
      destruct (isnull (nth j vs None)); reflexivity.
    + rewrite column_sum_length by assumption.
      unfold Append.notnull_counts. now rewrite length_map.
Qed.

Lemma exists_above_one (l : list nat) :
  existsb (fun c => Nat.ltb 1 c) l = true <->
  exists j, (j < List.length l)%nat /\ (2 <= nth j l 0)%nat.
Proof.
  rewrite existsb_exists. split.
  - intros (c & Hin & Hc). apply Nat.ltb_lt in Hc.
    apply (In_nth _ _ 0%nat) in Hin as (j & Hj & <-). eauto.
  - intros (j & Hj & Hc). exists (nth j l 0%nat). split; [now apply nth_In|].
    apply Nat.ltb_lt. lia.
Qed.

Lemma any_above_one_iff (n : nat) (tbl : list (list Scalar * list Value)) :
  Forall (fun r => List.length (snd r) = n) tbl ->
  Append.any_above_one (Append.contributing_values n tbl) = true <->
  exists k j, In k (map fst tbl) /\ Append.has_nan_key k = false /\
              (j < n)%nat /\ (2 <= count_at j (group k tbl))%nat.
Proof.
  intros Hlen. unfold Append.any_above_one, Append.contributing_values.
  assert (Hg : forall k, Forall (fun vs => List.length vs = n) (group k tbl)).
  { intros k. unfold group. apply Forall_map. apply Forall_forall.
    intros r Hr. apply filter_In in Hr as [Hr _].
    rewrite Forall_forall in Hlen. auto. }
  rewrite existsb_exists. split.
  - intros (g & Hin & Hc). apply in_map_iff in Hin as (k & <- & Hk).
    apply filter_In in Hk as [Hk Hnan]. rewrite distinct_rows_In in Hk.
    apply negb_true_iff in Hnan. cbn [snd] in Hc.
    rewrite <- map_map in Hc. fold (group k tbl) in Hc.
    apply exists_above_one in Hc as (j & Hj & Hc).
    rewrite column_sum_length in Hj by auto.
    rewrite column_sum_nth in Hc by auto.
    exists k, j. repeat split; auto.
  - intros (k & j & Hk & Hnan & Hj & Hc).
    eexists. split.
    + apply in_map_iff. exists k. split; [reflexivity|].
      apply filter_In. split; [now apply distinct_rows_In | now rewrite Hnan].
    + cbn [snd]. rewrite <- map_map. fold (group k tbl).
      apply exists_above_one. exists j.
      rewrite column_sum_length, column_sum_nth by auto. auto.
Qed.

Lemma count_at_app (j : nat) (l1 l2 : list (list Value)) :
  count_at j (l1 ++ l2) = (count_at j l1 + count_at j l2)%nat.
Proof. unfold count_at. now rewrite filter_app, length_app. Qed.

Lemma count_at_le (j : nat) (l : list (list Value)) :
  (count_at j l <= List.length l)%nat.
Proof. unfold count_at. apply filter_length_le. Qed.

Lemma count_at_zero (j : nat) (l : list (list Value)) :
  Forall (fun vs => nth j vs None = None) l -> count_at j l = 0%nat.
Proof.
  unfold count_at. induction 1 as [|vs l Hvs _ IH]; simpl; [reflexivity|].
  now rewrite Hvs.
Qed.

Lemma array_equal_eq (a b : list Z) : Append.array_equal a b = true <-> a = b.
Proof.
  revert b; induction a as [|x a IH]; intros [|y b]; simpl;
    try (split; [discriminate | congruence]); [tauto|].
  rewrite andb_true_iff, Z.eqb_eq, IH. split.
  - intros [-> ->]; reflexivity.
  - intros [= -> ->]; auto.
Qed.

Lemma NoDup_map_finer {A B C : Type} (f : A -> B) (g : A -> C) (l : list A) :
  (forall x y, In x l -> In y l -> g x = g y -> f x = f y) ->
  NoDup (map f l) -> NoDup (map g l).
Proof.
  induction l as [|x l IH]; simpl; intros Hfg H; [constructor|].
  inversion H as [|? ? Hn Hd]; subst. constructor.
  - intros Hin. apply in_map_iff in Hin as (y & E & Hy).
    apply Hn. apply in_map_iff. exists y. split; [|exact Hy].
    apply Hfg; auto.
  - apply IH; auto.
Qed.

(** The group of a row in the table of a container. *)
Lemma group_timeseries (cols : list string) (k : list Scalar) (l : list TimeSeries) :
  group k (map (fun ts => (Run.meta_row cols ts, values ts)) l)
  = map values (List.filter (fun ts => row_eqb k (Run.meta_row cols ts)) l).
Proof.
  unfold group. induction l as [|ts l IH]; simpl; [reflexivity|].
  destruct (row_eqb k (Run.meta_row cols ts)); simpl; now rewrite IH.
Qed.

Lemma meta_attributes_incl (r r' : ScmRun) :
  (forall ts, In ts (_ts r) -> exists ts', In ts' (_ts r') /\ meta ts' = meta ts) ->
  incl (Run.meta_attributes r) (Run.meta_attributes r').
Proof.
  intros H c Hc. apply meta_attributes_In in Hc as (ts & Hts & Hc).
  destruct (H ts Hts) as (ts' & Hts' & E).
  apply meta_attributes_In. exists ts'. now rewrite E.
Qed.

Lemma meta_row_reindex (cols : list string) (t : list Z) (ts : TimeSeries) :
  Run.meta_row cols (TS.reindex t ts) = Run.meta_row cols ts.
Proof. reflexivity. Qed.

Lemma reindex_A (ts : TimeSeries) :
  Inv.aligned_ts (map TimePoints.of_year years_A) ts = true ->
  exists v1 v2 v3,
    values (TS.reindex (map TimePoints.of_year (years_A ++ years_B)) ts)
    = [v1; v2; v3; None; None; None].
Proof.
  unfold Inv.aligned_ts. intros H. apply andb_true_iff in H as [Ht Hl].
  apply array_equal_eq in Ht. apply Nat.eqb_eq in Hl.
  destruct ts as [n m t vs]; simpl in *. subst t.
  destruct vs as [|v1 [|v2 [|v3 [|]]]]; try discriminate.
  exists v1, v2, v3. reflexivity.
Qed.

Lemma reindex_B (ts : TimeSeries) :
  Inv.aligned_ts (map TimePoints.of_year years_B) ts = true ->
  exists v1 v2 v3,
    values (TS.reindex (map TimePoints.of_year (years_A ++ years_B)) ts)
    = [None; None; None; v1; v2; v3].
Proof.
  unfold Inv.aligned_ts. intros H. apply andb_true_iff in H as [Ht Hl].
  apply array_equal_eq in Ht. apply Nat.eqb_eq in Hl.
  destruct ts as [n m t vs]; simpl in *. subst t.
  destruct vs as [|v1 [|v2 [|v3 [|]]]]; try discriminate.
  exists v1, v2, v3. reflexivity.
Qed.

Lemma join_disjoint_years (A B : ScmRun) :
  _time_points A = map TimePoints.of_year years_A ->
  _time_points B = map TimePoints.of_year years_B ->
  Append.join A [B]
  = mkScmRun
      (map (TS.reindex (map TimePoints.of_year (years_A ++ years_B)))
         (_ts A ++ _ts B))
      (map TimePoints.of_year (years_A ++ years_B)).
Proof.
  intros HA HB. unfold Append.join, Run.time_points.
  cbn [map List.concat forallb]. rewrite HA, HB, !app_nil_r.
  set (new_t := Append.np_unique _). vm_compute in new_t. subst new_t.
  set (c := andb _ _). vm_compute in c. subst c. cbv iota.
  reflexivity.
Qed.

(** In the joint container of two runs on the two disjoint axes, no group of
    identical metadata has two values at one time point. *)
Lemma disjoint_years_no_overlap (A B : ScmRun) (cols : list string) :
  let new_t := map TimePoints.of_year (years_A ++ years_B) in
  let ts := map (TS.reindex new_t) (_ts A ++ _ts B) in
  _time_points A = map TimePoints.of_year years_A ->
  _time_points B = map TimePoints.of_year years_B ->
  Inv.aligned A = true -> Inv.aligned B = true ->
  Inv.unique_meta A = true -> Inv.unique_meta B = true ->
  incl (Run.meta_attributes A) cols ->
  incl (Run.meta_attributes B) cols ->
  Append.any_above_one
    (Append.contributing_values 6
       (map (fun ts => (Run.meta_row cols ts, values ts)) ts)) = false.
Proof.
  intros new_t ts HA HB HaA HaB HuA HuB HiA HiB.
  apply not_true_iff_false. intros H.
  apply any_above_one_iff in H.
  2:{ apply Forall_forall. intros r Hr. apply in_map_iff in Hr as (x & <- & Hx).
      subst ts. apply in_map_iff in Hx as (y & <- & _). reflexivity. }
  destruct H as (k & j & _ & _ & Hj & Hc).
  rewrite group_timeseries in Hc. subst ts.
  rewrite map_app, filter_app, map_app, count_at_app in Hc.
  unfold Inv.aligned in HaA, HaB. rewrite HA in HaA. rewrite HB in HaB.
  rewrite forallb_forall in HaA, HaB.
  unfold Inv.unique_meta in HuA, HuB. apply negb_true_iff in HuA, HuB.
  apply duplicated_any_NoDup in HuA, HuB. unfold Run.meta_table in HuA, HuB.
  set (GA := List.filter _ (map (TS.reindex new_t) (_ts A))) in Hc.
  set (GB := List.filter _ (map (TS.reindex new_t) (_ts B))) in Hc.
  assert (LA : (List.length GA <= 1)%nat).
  { subst GA. apply unique_row_member. rewrite map_map.
    eapply NoDup_map_finer; [|exact HuA]. intros x y _ _ E.
    rewrite !meta_row_reindex in E. eapply meta_row_incl; eassumption. }
  assert (LB : (List.length GB <= 1)%nat).
  { subst GB. apply unique_row_member. rewrite map_map.
    eapply NoDup_map_finer; [|exact HuB]. intros x y _ _ E.
    rewrite !meta_row_reindex in E. eapply meta_row_incl; eassumption. }
  assert (ZA : (3 <= j)%nat -> count_at j (map values GA) = 0%nat).
  { intros Hj3. apply count_at_zero. apply Forall_map. apply Forall_forall.
    intros x Hx. subst GA. apply filter_In in Hx as [Hx _].
    apply in_map_iff in Hx as (a & <- & Ha).
    destruct (reindex_A a (HaA a Ha)) as (v1 & v2 & v3 & E).
    fold new_t in E. rewrite E.
    do 6 (destruct j as [|j]; [try lia; reflexivity|]). lia. }
  assert (ZB : (j < 3)%nat -> count_at j (map values GB) = 0%nat).
  { intros Hj3. apply count_at_zero. apply Forall_map. apply Forall_forall.
    intros x Hx. subst GB. apply filter_In in Hx as [Hx _].
    apply in_map_iff in Hx as (b & <- & Hb).
    destruct (reindex_B b (HaB b Hb)) as (v1 & v2 & v3 & E).
    fold new_t in E. rewrite E.
    do 3 (destruct j as [|j]; [reflexivity|]). lia. }
  pose proof (count_at_le j (map values GA)) as CA.
  pose proof (count_at_le j (map values GB)) as CB.
  rewrite length_map in CA, CB.
  destruct (Nat.lt_ge_cases j 3) as [Hlt|Hge].
  - rewrite (ZB Hlt) in Hc. lia.
  - rewrite (ZA Hge) in Hc. lia.
Qed.

(** C6 (as amended): two containers on the year axes 2005, 2010, 2015 and
    2020, 2030, 2040, each without repeated metadata of its own (the two may
    share their metadata), are appended into a container whose years are
    exactly 2005, 2010, 2015, 2020, 2030, 2040, and no warning is issued,
    whatever the duplicate policy. *)
Theorem append_disjoint_years (A B : ScmRun) (duplicate_msg : PyVal) :
  _time_points A = map TimePoints.of_year years_A ->
  _time_points B = map TimePoints.of_year years_B ->
  Inv.aligned A = true -> Inv.aligned B = true ->
  Inv.unique_meta A = true -> Inv.unique_meta B = true ->
  exists out ret,
    Append.append A B false duplicate_msg = Ok out /\
    Append.a_ret out = Some ret /\
    Run.__getitem__ ret "year" = Ok (map SNum [2005; 2010; 2015; 2020; 2030; 2040]) /\
    Append.a_warnings out = [].
Proof.
  intros HA HB HaA HaB HuA HuB.
  unfold Append.append, Append.df_append.
  rewrite (join_disjoint_years A B HA HB).
  set (new_t := map TimePoints.of_year (years_A ++ years_B)).
  set (ret := mkScmRun _ new_t).
  assert (Hh : Append._handle_potential_duplicates_in_append ret duplicate_msg
               = Ok (None, [])).
  { unfold Append._handle_potential_duplicates_in_append, Append.timeseries.
    replace (forallb _ (_ts ret)) with true.
    2:{ symmetry. apply forallb_forall. intros x Hx. subst ret. simpl in Hx.
        apply in_map_iff in Hx as (y & <- & _). reflexivity. }
    cbn [Py.bind]. subst ret. cbn [_ts _time_points].
    change (List.length new_t) with 6%nat.
    rewrite disjoint_years_no_overlap; auto.
    - apply meta_attributes_incl. intros ts Hts.
      exists (TS.reindex new_t ts). split; [|reflexivity].
      cbn [_ts]. apply in_map. apply in_or_app. now left.
    - apply meta_attributes_incl. intros ts Hts.
      exists (TS.reindex new_t ts). split; [|reflexivity].
      cbn [_ts]. apply in_map. apply in_or_app. now right. }
  destruct (Append.duplicated_any (Run.meta_table ret)).
  - destruct (truthy duplicate_msg).
    + rewrite Hh. cbn [Py.bind]. do 2 eexists. repeat split.
    + do 2 eexists. repeat split.
  - do 2 eexists. repeat split.
Qed.

(** *** Appending a container to a copy of itself *)

Lemma increasing_head (t : Z) (l : list Z) :
  Inv.increasing (t :: l) = true ->
  Inv.increasing l = true /\ forall x, In x l -> t < x.
Proof.
  revert t; induction l as [|t' l IH]; intros t H; simpl in *.
  - split; [reflexivity | tauto].
  - apply andb_true_iff in H as [H1 H2]. apply Z.ltb_lt in H1.
    destruct (IH t' H2) as [_ Hlt]. split; [exact H2|].
    intros x [<-|Hx]; [exact H1|]. specialize (Hlt x Hx). lia.
Qed.

Lemma insert_time_present (t : Z) (l : list Z) :
  Inv.increasing l = true -> In t l -> Append.insert_time t l = l.
Proof.
  induction l as [|t' l IH]; intros Hs Hin; [destruct Hin|].
  destruct (increasing_head _ _ Hs) as [Hs' Hlt]. simpl.
  destruct Hin as [->|Hin].
  - now rewrite Z.ltb_irrefl, Z.eqb_refl.
  - specialize (Hlt t Hin).
    destruct (Z.ltb_spec t t'); [lia|].
    destruct (Z.eqb_spec t t'); [lia|].
    now rewrite IH.
Qed.

Lemma np_unique_increasing (l : list Z) :
  Inv.increasing l = true -> Append.np_unique l = l.
Proof.
  unfold Append.np_unique. induction l as [|t l IH]; intros Hs; [reflexivity|].
  destruct (increasing_head _ _ Hs) as [Hs' Hlt]. simpl. rewrite IH by assumption.
  destruct l as [|t' l]; [reflexivity|]. simpl.
  specialize (Hlt t' (or_introl eq_refl)).
  destruct (Z.ltb_spec t t'); [reflexivity | lia].
Qed.

Lemma np_unique_twice (l : list Z) :
  Inv.increasing l = true -> Append.np_unique (l ++ l) = l.
Proof.
  intros Hs. unfold Append.np_unique. rewrite fold_right_app.
  fold (Append.np_unique l). rewrite np_unique_increasing by assumption.
  assert (H : forall l', incl l' l -> fold_right Append.insert_time l l' = l).
  { induction l' as [|t l' IH]; intros Hi; [reflexivity|]. simpl.
    rewrite IH by (intros x Hx; apply Hi; now right).
    apply insert_time_present; [assumption | apply Hi; now left]. }
  apply H. apply incl_refl.
Qed.

Lemma array_equal_refl (l : list Z) : Append.array_equal l l = true.
Proof. now apply array_equal_eq. Qed.

Lemma join_copy (r : ScmRun) :
  Inv.increasing (_time_points r) = true ->
  Append.join r [r] = mkScmRun (_ts r ++ _ts r) (_time_points r).
Proof.
  intros Hs. unfold Append.join, Run.time_points.
  cbn [map List.concat forallb]. rewrite !app_nil_r.
  rewrite np_unique_twice by assumption.
  now rewrite array_equal_refl.
Qed.

Lemma map_nth_seq {A B : Type} (f : A -> B) (d : A) (v : list A) :
  map (fun j => f (nth j v d)) (seq 0 (List.length v)) = map f v.
Proof.
  induction v as [|x v IH]; [reflexivity|].
  cbn [List.length seq map nth]. f_equal.
  rewrite <- seq_shift, map_map. exact IH.
Qed.

(** The mean of a value with itself is the value. *)
Lemma nanmean_pair (v : Value) : value_eq (Append.nanmean [v; v]) v.
Proof.
  destruct v as [q|]; simpl; [|exact I].
  unfold Append.Qsum; simpl. field.
Qed.

Lemma values_eq_pair (v : list Value) :
  values_eq
    (map (fun j => Append.nanmean [nth j v None; nth j v None])
       (seq 0 (List.length v)))
    v.
Proof.
  rewrite (map_nth_seq (fun x => Append.nanmean [x; x])).
  unfold values_eq. induction v as [|x v IH]; constructor; [|exact IH].
  apply nanmean_pair.
Qed.

Lemma filter_unique_row {A : Type} (f : A -> list Scalar) (o : A) (l : list A) :
  NoDup (map f l) -> In o l ->
  List.filter (fun x => row_eqb (f o) (f x)) l = [o].
Proof.
  induction l as [|x l IH]; intros Hd Hin; [destruct Hin|].
  inversion Hd as [|? ? Hn Hd']; subst. simpl.
  destruct Hin as [->|Hin].
  - rewrite row_eqb_refl. f_equal.
    pose proof (unique_row_member f (f o) (o :: l) Hd) as Hle.
    simpl in Hle. rewrite row_eqb_refl in Hle. simpl in Hle.
    destruct (List.filter _ l); [reflexivity | simpl in Hle; lia].
  - destruct (row_eqb_spec (f o) (f x)) as [E|_]; [|now apply IH].
    elim Hn. rewrite <- E. now apply in_map.
Qed.

Lemma insert_by_name_perm (ts : TimeSeries) (l : list TimeSeries) :
  Permutation (Append.insert_by_name ts l) (ts :: l).
Proof.
  induction l as [|x l IH]; simpl; [reflexivity|].
  destruct (Z.leb (name ts) (name x)); [reflexivity|].
  rewrite IH. apply perm_swap.
Qed.

(** Sorting by name keeps the series. *)
Lemma sort_by_name_perm (l : list TimeSeries) :
  Permutation (Append.sort_by_name l) l.
Proof.
  unfold Append.sort_by_name. induction l as [|x l IH]; simpl; [reflexivity|].
  rewrite insert_by_name_perm. now constructor.
Qed.

Lemma has_nan_key_iff (cols : list string) (ts : TimeSeries) :
  Append.has_nan_key (Run.meta_row cols ts) = true <->
  exists c, In c cols /\ Run.meta_or_nan ts c = SNaN.
Proof.
  unfold Append.has_nan_key, Run.meta_row. rewrite existsb_exists. split.
  - intros (v & Hin & E). apply in_map_iff in Hin as (c & <- & Hc).
    destruct (scalar_eqb_spec SNaN (Run.meta_or_nan ts c)); [eauto | discriminate].
  - intros (c & Hc & E). exists SNaN. split; [|reflexivity].
    rewrite <- E. now apply in_map.
Qed.

Lemma has_nan_key_incl (cols cols' : list string) (ts : TimeSeries) :
  incl cols' cols ->
  Append.has_nan_key (Run.meta_row cols ts) = false ->
  Append.has_nan_key (Run.meta_row cols' ts) = false.
Proof.
  intros Hi H. apply not_true_iff_false. intros H'.
  apply not_true_iff_false in H. apply H.
  apply has_nan_key_iff in H' as (c & Hc & E).
  apply has_nan_key_iff. exists c. auto.
Qed.

Lemma NoDup_twice {A : Type} (x : A) (l : list A) : In x l -> ~ NoDup (l ++ l).
Proof.
  intros Hin Hd. apply in_split in Hin as (l1 & l2 & ->).
  rewrite <- app_assoc in Hd. simpl in Hd.
  apply NoDup_remove_2 in Hd. apply Hd.
  apply in_or_app. right. apply in_or_app. right. apply in_or_app. right. now left.
Qed.

Lemma concat_singletons {A B : Type} (F : A -> list B) (l : list A) :
  (forall k, In k l -> List.length (F k) = 1%nat) ->
  List.length (List.concat (map F l)) = List.length l.
Proof.
  induction l as [|k l IH]; intros H; [reflexivity|]. simpl.
  rewrite length_app, H, IH; auto.
  - intros k' Hk'. apply H. now right.
  - now left.
Qed.

Lemma distinct_rows_twice (rows : list (list Scalar)) :
  NoDup rows ->
  List.length (Append.distinct_rows (rows ++ rows)) = List.length rows.
Proof.
  intros Hd. apply Permutation_length. apply NoDup_Permutation.
  - apply distinct_rows_NoDup.
  - exact Hd.
  - intros k. rewrite distinct_rows_In, in_app_iff. tauto.
Qed.

Section AppendCopy.

Variable r : ScmRun.
Hypothesis Hwf : Inv.well_formed r = true.
Hypothesis Hu : Inv.unique_meta r = true.

Let ret := mkScmRun (_ts r ++ _ts r) (_time_points r).
Let cols := Run.meta_attributes ret.

Lemma copy_cols_incl : incl cols (Run.meta_attributes r).
Proof.
  apply meta_attributes_incl. intros ts Hts. exists ts. split; [|reflexivity].
  simpl in Hts. apply in_app_or in Hts. tauto.
Qed.

Lemma copy_cols_incl' : incl (Run.meta_attributes r) cols.
Proof.
  apply meta_attributes_incl. intros ts Hts. exists ts. split; [|reflexivity].
  simpl. apply in_or_app. now left.
Qed.

Lemma copy_rows_NoDup : NoDup (map (Run.meta_row cols) (_ts r)).
Proof.
  unfold Inv.unique_meta in Hu. apply negb_true_iff in Hu.
  apply duplicated_any_NoDup in Hu. unfold Run.meta_table in Hu.
  eapply NoDup_map_finer; [|exact Hu]. intros x y _ _ E.
  eapply meta_row_incl; [apply copy_cols_incl' | exact E].
Qed.

Lemma copy_aligned (ts : TimeSeries) :
  In ts (_ts r) -> List.length (values ts) = List.length (_time_points r).
Proof.
  intros Hts. unfold Inv.well_formed in Hwf.
  apply andb_true_iff in Hwf as [_ Ha]. unfold Inv.aligned in Ha.
  rewrite forallb_forall in Ha. specialize (Ha ts Hts).
  unfold Inv.aligned_ts in Ha. apply andb_true_iff in Ha as [_ Ha].
  now apply Nat.eqb_eq in Ha.
Qed.

Lemma copy_bucket (o : TimeSeries) :
  In o (_ts r) ->
  List.filter (fun ts => row_eqb (Run.meta_row cols o) (Run.meta_row cols ts))
    (_ts ret) = [o; o].
Proof.
  intros Ho. simpl. rewrite filter_app.
  rewrite (filter_unique_row (Run.meta_row cols) o (_ts r) copy_rows_NoDup Ho).
  reflexivity.
Qed.

Lemma copy_groupby_mean :
  Append.groupby_mean ret cols
  = List.concat
      (map (fun k =>
              match List.filter (fun ts => row_eqb k (Run.meta_row cols ts)) (_ts ret) with
              | [] => []
              | first :: others =>
                  [mkTimeSeries (name first) (meta first) (_time_points ret)
                     (map (fun j => Append.nanmean (Append.column j (first :: others)))
                        (seq 0 (List.length (_time_points ret))))]
              end)
         (Append.distinct_rows (map (Run.meta_row cols) (_ts ret)))).
Proof. reflexivity. Qed.

Lemma copy_mean_In (x : TimeSeries) :
  In x (Append.groupby_mean ret cols) <->
  exists o, In o (_ts r) /\ x = mean_of_pair (_time_points r) o.
Proof.
  rewrite copy_groupby_mean, in_concat. split.
  - intros (l & Hl & Hx). apply in_map_iff in Hl as (k & <- & Hk).
    rewrite distinct_rows_In in Hk. apply in_map_iff in Hk as (o & <- & Ho).
    simpl in Ho. assert (Ho' : In o (_ts r)) by (apply in_app_or in Ho; tauto).
    rewrite (copy_bucket o Ho') in Hx. destruct Hx as [<-|[]]. eauto.
  - intros (o & Ho & ->). eexists. split.
    + apply in_map_iff. exists (Run.meta_row cols o). split; [reflexivity|].
      rewrite distinct_rows_In. apply in_map. simpl. apply in_or_app. now left.
    + rewrite (copy_bucket o Ho). now left.
Qed.

Lemma copy_mean_length :
  List.length (Append.groupby_mean ret cols) = List.length (_ts r).
Proof.
  rewrite copy_groupby_mean, concat_singletons.
  - simpl. rewrite map_app, distinct_rows_twice; [apply length_map|].
    apply copy_rows_NoDup.
  - intros k Hk. rewrite distinct_rows_In in Hk.
    apply in_map_iff in Hk as (o & <- & Ho).
    simpl in Ho. assert (Ho' : In o (_ts r)) by (apply in_app_or in Ho; tauto).
    now rewrite (copy_bucket o Ho').
Qed.

Lemma copy_mean_values (o : TimeSeries) :
  In o (_ts r) ->
  values_eq (values (mean_of_pair (_time_points r) o)) (values o).
Proof.
  intros Ho. simpl. rewrite <- (copy_aligned o Ho). apply values_eq_pair.
Qed.

End AppendCopy.

(** C5 (as amended): a well-formed container without repeated metadata, in
    which some series with complete metadata has a value, appended to an
    identical copy of itself under the default policy gives a container on
    the same time axis that holds, for every series of the original, a series
    with the same metadata and equal values, and no other; exactly one
    warning is issued. *)
Theorem append_identical_copy (r : ScmRun) :
  Inv.well_formed r = true ->
  Inv.unique_meta r = true ->
  Inv.has_data r = true ->
  exists out ret,
    Append.append r r false (Atom (SStr "warn")) = Ok out /\
    Append.a_ret out = Some ret /\
    Append.a_warnings out = [Append.warn_msg] /\
    _time_points ret = _time_points r /\
    List.length (_ts ret) = List.length (_ts r) /\
    (forall ts, In ts (_ts ret) ->
       exists o, In o (_ts r) /\ meta ts = meta o /\ values_eq (values ts) (values o)) /\
    (forall o, In o (_ts r) ->
       exists ts, In ts (_ts ret) /\ meta ts = meta o /\ values_eq (values ts) (values o)).
Proof.
  intros Hwf Hu Hd.
  pose proof Hwf as Hwf'. unfold Inv.well_formed in Hwf'.
  apply andb_true_iff in Hwf' as [Hs Ha].
  unfold Append.append, Append.df_append. rewrite (join_copy r Hs).
  set (ret := mkScmRun (_ts r ++ _ts r) (_time_points r)).
  set (cols := Run.meta_attributes ret).
  (* a series with complete metadata and a value *)
  unfold Inv.has_data in Hd. apply existsb_exists in Hd as (ts0 & Hts0 & Hd).
  apply andb_true_iff in Hd as [Hnan Hval]. apply negb_true_iff in Hnan.
  apply existsb_exists in Hval as (v0 & Hv0 & Hnn). apply negb_true_iff in Hnn.
  apply (In_nth _ _ None) in Hv0 as (j & Hj & Ev0).
  (* the metadata are duplicated *)
  assert (Hdup : Append.duplicated_any (Run.meta_table ret) = true).
  { apply not_false_iff_true. intros H. apply duplicated_any_NoDup in H.
    unfold Run.meta_table in H. simpl in H. rewrite map_app in H.
    eapply NoDup_twice; [|exact H]. apply in_map. exact Hts0. }
  rewrite Hdup. cbn [truthy String.eqb Ascii.eqb Bool.eqb negb].
  (* the duplicates overlap: one warning *)
  assert (Hh : Append._handle_potential_duplicates_in_append ret (Atom (SStr "warn"))
               = Ok (None, [Append.warn_msg])).
  { unfold Append._handle_potential_duplicates_in_append, Append.timeseries.
    replace (forallb _ (_ts ret)) with true.
    2:{ symmetry. apply forallb_forall. intros x Hx. simpl in Hx.
        apply Nat.eqb_eq. unfold TS.len. apply (copy_aligned r Hwf).
        apply in_app_or in Hx. tauto. }
    cbn [Py.bind]. fold cols.
    replace (Append.any_above_one _) with true; [reflexivity|].
    symmetry. apply any_above_one_iff.
    - apply Forall_forall. intros x Hx. apply in_map_iff in Hx as (y & <- & Hy).
      simpl in Hy. simpl. apply (copy_aligned r Hwf). apply in_app_or in Hy. tauto.
    - exists (Run.meta_row cols ts0), j. split; [|split; [|split]].
      + rewrite map_map. simpl. apply in_map. apply in_or_app. now left.
      + eapply has_nan_key_incl; [apply (copy_cols_incl r) | exact Hnan].
      + simpl. now rewrite <- (copy_aligned r Hwf ts0 Hts0).
      + rewrite group_timeseries. unfold cols, ret.
        rewrite (copy_bucket r Hu ts0 Hts0).
        unfold count_at. simpl. unfold Value in *. rewrite Ev0, Hnn. simpl. lia. }
  rewrite Hh. cbn [Py.bind].
  do 2 eexists. split; [reflexivity|]. split; [reflexivity|].
  split; [reflexivity|]. split; [reflexivity|].
  cbn [Append.sort Append.average _ts _time_points]. fold cols.
  pose proof (sort_by_name_perm (Append.groupby_mean ret cols)) as Hp.
  split; [|split].
  - rewrite (Permutation_length Hp). apply (copy_mean_length r Hu).
  - intros ts Hts. apply (Permutation_in _ Hp) in Hts.
    apply (copy_mean_In r Hu) in Hts as (o & Ho & ->).
    exists o. split; [exact Ho|]. split; [reflexivity|].
    now apply copy_mean_values.
  - intros o Ho. exists (mean_of_pair (_time_points r) o).
    split; [|split; [reflexivity | now apply copy_mean_values]].
    apply (Permutation_in _ (Permutation_sym Hp)).
    apply (copy_mean_In r Hu). eauto.
Qed.

(** *** The duplicate policy *)

Lemma one_in_filter {A : Type} (p : A -> bool) (l : list A) :
  (1 <= List.length (List.filter p l))%nat <->
  exists i a, nth_error l i = Some a /\ p a = true.
Proof.
  split.
  - intros H. destruct (List.filter p l) as [|a l'] eqn:E; [simpl in H; lia|].
    assert (Ha : In a (List.filter p l)) by (rewrite E; now left).
    apply filter_In in Ha as [Ha Hp].
    apply In_nth_error in Ha as [i Hi]. eauto.
  - intros (i & a & Hi & Hp). apply nth_error_In in Hi.
    assert (Ha : In a (List.filter p l)) by (apply filter_In; auto).
    destruct (List.filter p l); [destruct Ha | simpl; lia].
Qed.

Lemma two_in_filter {A : Type} (p : A -> bool) (l : list A) :
  (2 <= List.length (List.filter p l))%nat <->
  exists i1 i2 a b, (i1 < i2)%nat /\
    nth_error l i1 = Some a /\ nth_error l i2 = Some b /\
    p a = true /\ p b = true.
Proof.
  induction l as [|x l IH].
  - simpl. split; [lia|]. intros (i1 & i2 & a & b & _ & H & _).
    destruct i1; discriminate.
  - simpl. destruct (p x) eqn:Hx; simpl.
    + split.
      * intros H. assert (H1 : (1 <= List.length (List.filter p l))%nat) by lia.
        apply one_in_filter in H1 as (i & b & Hi & Hb).
        exists 0%nat, (S i), x, b. repeat split; auto; lia.
      * intros (i1 & i2 & a & b & Hlt & H1 & H2 & Ha & Hb).
        destruct i2 as [|i2]; [lia|]. simpl in H2.
        assert (1 <= List.length (List.filter p l))%nat; [|lia].
        apply one_in_filter. eauto.
    + rewrite IH. split.
      * intros (i1 & i2 & a & b & Hlt & H1 & H2 & Ha & Hb).
        exists (S i1), (S i2), a, b. repeat split; auto; lia.
      * intros (i1 & i2 & a & b & Hlt & H1 & H2 & Ha & Hb).
        destruct i2 as [|i2]; [lia|]. destruct i1 as [|i1].
        { simpl in H1. injection H1 as ->. congruence. }
        exists i1, i2, a, b. repeat split; auto; lia.
Qed.

Lemma count_at_filter (j : nat) (q : TimeSeries -> bool) (l : list TimeSeries) :
  count_at j (map values (List.filter q l))
  = List.length
      (List.filter (fun ts => q ts && negb (isnull (nth j (values ts) None))) l).
Proof.
  unfold count_at, Value. induction l as [|x l IH]; [reflexivity|]. simpl.
  destruct (q x); simpl; [|exact IH].
  match goal with |- context [if ?c then _ else _] => destruct c end;
    simpl; [f_equal|]; exact IH.
Qed.

(** On metadata without NaN, the test made by
    [_handle_potential_duplicates_in_append] finds exactly the overlapping
    duplicates. *)
Lemma any_above_one_overlapping (ret : ScmRun) (tbl : list (list Scalar * list Value)) :
  nan_free_meta ret = true ->
  Append.timeseries ret = Ok tbl ->
  Append.any_above_one
    (Append.contributing_values (List.length (_time_points ret)) tbl) = true
  <-> overlapping_duplicates ret.
Proof.
  intros Hfree. unfold Append.timeseries.
  destruct (forallb _ (_ts ret)) eqn:Hlen; [|discriminate]. intros [= <-].
  rewrite forallb_forall in Hlen.
  rewrite any_above_one_iff.
  2:{ apply Forall_forall. intros x Hx. apply in_map_iff in Hx as (y & <- & Hy).
      simpl. apply Nat.eqb_eq. now apply Hlen. }
  unfold overlapping_duplicates. set (cols := Run.meta_attributes ret). split.
  - intros (k & j & Hk & Hnan & Hj & Hc).
    rewrite group_timeseries, count_at_filter in Hc.
    apply two_in_filter in Hc as (i1 & i2 & a & b & Hlt & H1 & H2 & Ha & Hb).
    apply andb_true_iff in Ha as [Ha Ha'], Hb as [Hb Hb'].
    apply negb_true_iff in Ha', Hb'.
    destruct (row_eqb_spec k (Run.meta_row cols a)) as [Ea|]; [|discriminate].
    destruct (row_eqb_spec k (Run.meta_row cols b)) as [Eb|]; [|discriminate].
    exists i1, i2, a, b, j. repeat split; auto; congruence.
  - intros (i1 & i2 & a & b & j & Hlt & H1 & H2 & E & Ha & Hb).
    assert (Hnan : Append.has_nan_key (Run.meta_row cols a) = false).
    { unfold nan_free_meta, Run.meta_table in Hfree.
      rewrite forallb_forall in Hfree. apply negb_true_iff. apply Hfree.
      apply in_map. eapply nth_error_In; eassumption. }
    exists (Run.meta_row cols a), j. split; [|split; [exact Hnan|split]].
    + rewrite map_map. simpl. apply in_map. eapply nth_error_In; eassumption.
    + apply nth_error_In in H1. specialize (Hlen a H1). apply Nat.eqb_eq in Hlen.
      rewrite <- Hlen. unfold TS.len.
      destruct (Nat.lt_ge_cases j (List.length (values a))) as [|Hge]; [assumption|].
      rewrite nth_overflow in Ha by assumption. discriminate.
    + rewrite group_timeseries, count_at_filter. apply two_in_filter.
      exists i1, i2, a, b. repeat split; auto.
      * now rewrite row_eqb_refl, Ha.
      * rewrite E, row_eqb_refl, Hb. reflexivity.
Qed.

(** The joint container of aligned runs has one value per time point. *)
Lemma join_timeseries (first : ScmRun) (rest : list ScmRun) :
  Forall (fun r => Inv.aligned r = true) (first :: rest) ->
  exists tbl, Append.timeseries (Append.join first rest) = Ok tbl.
Proof.
  intros Ha. unfold Append.timeseries.
  replace (forallb _ _) with true; [eauto|].
  symmetry. apply forallb_forall. intros x Hx. apply Nat.eqb_eq.
  unfold Append.join in *.
  set (new_t := Append.np_unique _) in *.
  destruct (forallb _ (first :: rest)) eqn:Hv; cbn [_ts _time_points] in *.
  - rewrite forallb_forall in Hv.
    assert (Hr : exists r, In r (first :: rest) /\ In x (_ts r)).
    { apply in_app_or in Hx as [Hx|Hx]; [exists first; split; [now left | exact Hx]|].
      apply in_concat in Hx as (l & Hl & Hx).
      apply in_map_iff in Hl as (r & <- & Hr). exists r. split; [now right | exact Hx]. }
    destruct Hr as (r & Hr & Hxr).
    rewrite Forall_forall in Ha. specialize (Ha r Hr).
    unfold Inv.aligned in Ha. rewrite forallb_forall in Ha. specialize (Ha x Hxr).
    unfold Inv.aligned_ts in Ha. apply andb_true_iff in Ha as [_ Ha].
    apply Nat.eqb_eq in Ha. unfold TS.len. rewrite Ha.
    pose proof (Hv r Hr) as E1. pose proof (Hv first (or_introl eq_refl)) as E2.
    apply array_equal_eq in E1, E2. unfold Run.time_points in *. congruence.
  - apply in_map_iff in Hx as (y & <- & _). unfold TS.len. simpl.
    now rewrite length_map.
Qed.

(** C2 (as amended): when the joint data hold duplicated metadata, without
    NaN in the metadata, the policy decides as follows.  If two of the
    duplicates overlap (both have a value at one time point): ["warn"]
    averages and issues the warning; ["return"] issues its warning and hands
    back the joint table as it is, not averaged; any other true value raises
    a [ValueError].  A false value averages silently.  If no two duplicates
    overlap, every policy averages silently. *)
Theorem duplicate_policy_dispatch (first : ScmRun) (rest : list ScmRun)
    (duplicate_msg : PyVal) :
  let ret := Append.join first rest in
  let averaged := Append.sort (Append.average ret) in
  let append msg := Append.df_append (first :: rest) false msg in
  Forall (fun r => Inv.aligned r = true) (first :: rest) ->
  Append.duplicated_any (Run.meta_table ret) = true ->
  nan_free_meta ret = true ->
  (overlapping_duplicates ret ->
     append (Atom (SStr "warn"))
     = Ok (Append.mkAppendOut first (Some averaged) [Append.warn_msg]) /\
     (exists data,
        append (Atom (SStr "return"))
        = Ok (Append.mkAppendOut first (Some data) [Append.return_msg]) /\
        Append.timeseries data = Append.timeseries ret) /\
     (truthy duplicate_msg = true ->
      duplicate_msg <> Atom (SStr "warn") ->
      duplicate_msg <> Atom (SStr "return") ->
      append duplicate_msg
      = Raise (ValueError "Unrecognised value for duplicate_msg"))) /\
  (truthy duplicate_msg = false ->
     append duplicate_msg = Ok (Append.mkAppendOut first (Some averaged) [])) /\
  (~ overlapping_duplicates ret ->
     append duplicate_msg = Ok (Append.mkAppendOut first (Some averaged) [])).
Proof.
  intros ret averaged append Ha Hdup Hfree.
  destruct (join_timeseries first rest Ha) as (tbl & Htbl). fold ret in Htbl.
  pose proof (any_above_one_overlapping ret tbl Hfree Htbl) as Hov.
  assert (Hh : forall msg,
             Append._handle_potential_duplicates_in_append ret msg
             = if Append.any_above_one
                    (Append.contributing_values (List.length (_time_points ret)) tbl)
               then match msg with
                    | Atom (SStr s) =>
                        if String.eqb s "warn" then Ok (None, [Append.warn_msg])
                        else if String.eqb s "return" then Ok (Some ret, [Append.return_msg])
                        else Raise (ValueError "Unrecognised value for duplicate_msg")
                    | _ => Raise (ValueError "Unrecognised value for duplicate_msg")
                    end
               else Ok (None, [])).
  { intros msg. unfold Append._handle_potential_duplicates_in_append.
    rewrite Htbl. cbn [Py.bind]. now destruct (Append.any_above_one _). }
  unfold append, Append.df_append. fold ret. rewrite Hdup.
  split; [|split].
  - intros Ho. apply Hov in Ho.
    split; [|split].
    + cbn [truthy]. simpl negb. cbv iota. rewrite Hh, Ho. reflexivity.
    + exists ret. split; [|reflexivity].
      cbn [truthy]. simpl negb. cbv iota. rewrite Hh, Ho. reflexivity.
    + intros Ht Hw Hr. rewrite Ht, Hh, Ho.
      destruct duplicate_msg as [[s| | |]|]; try reflexivity.
      destruct (String.eqb_spec s "warn") as [->|_]; [now elim Hw|].
      destruct (String.eqb_spec s "return") as [->|_]; [now elim Hr|].
      reflexivity.
  - intros Ht. rewrite Ht. reflexivity.
  - intros Hn. destruct (truthy duplicate_msg); [|reflexivity].
    rewrite Hh. destruct (Append.any_above_one _); [|reflexivity].
    elim Hn. now apply Hov.
Qed.

(** * Further properties *)

(** ** Filter: what it keeps *)

Lemma select_subseq {A : Type} (mask : list bool) (l r : list A) :
  Mask.select mask l = Ok r -> subseq r l.
Proof.
  revert l r; induction mask as [|v mask IH]; intros l r; simpl.
  - intros [= <-]. induction l; [apply subseq_nil | now apply subseq_skip].
  - destruct l as [|x l].
    + destruct v; [discriminate|]. intros H. apply IH in H. exact H.
    + destruct v.
      * intros H. apply bind_Ok in H as (r' & H & [= <-]).
        apply subseq_take. now apply IH.
      * intros H. apply subseq_skip. now apply IH.
Qed.

Lemma subseq_refl {A : Type} (l : list A) : subseq l l.
Proof. induction l; [apply subseq_nil | now apply subseq_take]. Qed.

Lemma subseq_In {A : Type} (l l' : list A) (x : A) :
  subseq l l' -> In x l -> In x l'.
Proof.
  induction 1 as [|y l l' H IH|y l l' H IH]; simpl; intros Hin.
  - destruct Hin.
  - right. auto.
  - destruct Hin; auto.
Qed.

Lemma subseq_map {A B : Type} (f : A -> B) (l l' : list A) :
  subseq l l' -> subseq (map f l) (map f l').
Proof.
  induction 1; simpl;
    [apply subseq_nil | now apply subseq_skip | now apply subseq_take].
Qed.

Lemma select_sum_length {A : Type} (mask : list bool) (l r : list A) :
  List.length mask = List.length l ->
  Mask.select mask l = Ok r -> List.length r = Mask.sum mask.
Proof.
  intros E H. destruct (select_length mask l E) as (r' & H' & Hl). congruence.
Qed.

Lemma index_Ok {A : Type} (l : list A) (mask : list bool) :
  List.length l = List.length mask ->
  exists r, Mask.index l mask = Ok r /\ List.length r = Mask.sum mask.
Proof.
  intros E. unfold Mask.index. rewrite E, Nat.eqb_refl.
  apply select_length. now symmetry.
Qed.

Lemma index_length {A : Type} (l r : list A) (mask : list bool) :
  Mask.index l mask = Ok r ->
  List.length l = List.length mask /\ List.length r = Mask.sum mask.
Proof.
  unfold Mask.index. destruct (Nat.eqb_spec (List.length l) (List.length mask)) as [E|];
    [|discriminate].
  intros H. split; [exact E|]. eapply select_sum_length; [|exact H]. now symmetry.
Qed.

Lemma mapM_Ok {A B : Type} (f : A -> Res B) (l : list A) (r : list B) :
  mapM f l = Ok r -> Forall2 (fun x y => f x = Ok y) l r.
Proof.
  revert r; induction l as [|x l IH]; simpl; intros r.
  - intros [= <-]. constructor.
  - intros H. apply bind_Ok in H as (y & Hy & H).
    apply bind_Ok in H as (ys & Hys & [= <-]). constructor; auto.
Qed.

Lemma mapM_total {A B : Type} (f : A -> Res B) (l : list A) :
  (forall x, In x l -> exists y, f x = Ok y) -> exists r, mapM f l = Ok r.
Proof.
  induction l as [|x l IH]; simpl; intros H; [eauto|].
  destruct (H x (or_introl eq_refl)) as (y & ->).
  destruct IH as (r & ->); [intros; apply H; now right|]. simpl. eauto.
Qed.

Lemma getitem_mask_identity (mask : list bool) (ts ts' : TimeSeries) :
  TS.getitem_mask mask ts = Ok ts' -> identity ts' = identity ts.
Proof.
  unfold TS.getitem_mask. intros H.
  apply bind_Ok in H as (v & _ & H). apply bind_Ok in H as (t & _ & [= <-]).
  reflexivity.
Qed.

Lemma setitem_time_aligned (r r' : ScmRun) (value : list Z) :
  Run.setitem_time r value = Ok r' ->
  Inv.aligned r' = true /\ _time_points r' = value /\
  map identity (_ts r') = map identity (_ts r).
Proof.
  unfold Run.setitem_time. destruct (forallb _ (_ts r)) eqn:E; [|discriminate].
  intros [= <-]. rewrite forallb_forall in E. split; [|split].
  - unfold Inv.aligned. simpl. apply forallb_forall. intros x Hx.
    apply in_map_iff in Hx as (y & <- & Hy). unfold Inv.aligned_ts. simpl.
    rewrite (proj2 (array_equal_eq value value) eq_refl). simpl.
    specialize (E y Hy). apply Nat.eqb_eq in E. apply Nat.eqb_eq.
    unfold TS.len in E. congruence.
  - reflexivity.
  - simpl. rewrite map_map. reflexivity.
Qed.

Lemma aligned_In (r : ScmRun) (ts : TimeSeries) :
  Inv.aligned r = true -> In ts (_ts r) ->
  time ts = _time_points r /\
  List.length (values ts) = List.length (_time_points r).
Proof.
  unfold Inv.aligned. rewrite forallb_forall. intros H Hts.
  specialize (H ts Hts). unfold Inv.aligned_ts in H.
  apply andb_true_iff in H as [H1 H2].
  apply array_equal_eq in H1. apply Nat.eqb_eq in H2. auto.
Qed.

Section FilterMore.

Variable pattern_match :
  list Scalar -> PyVal -> option PyVal -> PyVal -> bool -> string -> Res (list bool).
Variables years_match month_match day_match hour_match datetime_match :
  list Z -> PyVal -> Res (list bool).
Variable sep : string.

Let apply_filter :=
  Run.apply_filter pattern_match years_match month_match day_match hour_match
    datetime_match sep.
Let apply_filters_loop :=
  Run.apply_filters_loop pattern_match years_match month_match day_match
    hour_match datetime_match sep.
Let _apply_filters :=
  Run._apply_filters pattern_match years_match month_match day_match hour_match
    datetime_match sep.
Let filter :=
  Run.filter pattern_match years_match month_match day_match hour_match
    datetime_match sep.

(** The container a successful call of [filter] produces: a choice of the
    series, then possibly a cut of the time axis. *)
Lemma filter_Ok (self : ScmRun) (keep inplace has_nan : bool) (kwargs : Kwargs)
    (out : Run.FilterOut) :
  filter self keep inplace has_nan kwargs = Ok out ->
  exists ret ts,
    out = (if inplace
           then Run.mkFilterOut ret None
                  (if Nat.eqb (Run.len ret) 0 then ["Filtered ScmDataFrame is empty!"] else [])
           else Run.mkFilterOut self (Some ret)
                  (if Nat.eqb (Run.len ret) 0 then ["Filtered ScmDataFrame is empty!"] else [])) /\
    subseq ts (_ts self) /\
    (ret = mkScmRun ts (_time_points self) \/
     exists ts' tp,
       Forall2 (fun x y => identity y = identity x) ts ts' /\
       Run.setitem_time (mkScmRun ts' (_time_points self)) tp = Ok ret).
Proof.
  unfold filter, Run.filter. intros H.
  apply bind_Ok in H as ([kt km] & _ & H). cbv beta iota zeta in H.
  apply bind_Ok in H as (nt & _ & H). apply bind_Ok in H as (nc & _ & H).
  destruct (_ && _ && _); [discriminate|].
  apply bind_Ok in H as (ts & Hts & H).
  apply bind_Ok in H as (ret & Hret & [= <-]).
  exists ret, ts. split; [reflexivity|]. split.
  - destruct (if negb keep && _ then true else _).
    + eapply select_subseq; eassumption.
    + injection Hts as <-. apply subseq_refl.
  - destruct (Nat.ltb 0 (Mask.sum nt)).
    + right. apply bind_Ok in Hret as (ts' & Hts' & Hret).
      apply bind_Ok in Hret as (tp & _ & Hret).
      exists ts', tp. split; [|exact Hret].
      apply mapM_Ok in Hts'. eapply Forall2_impl; [|exact Hts'].
      intros a b Hab. exact (getitem_mask_identity _ _ _ Hab).
    + left. now injection Hret as <-.
Qed.

Lemma subseq_length {A : Type} (l l' : list A) :
  subseq l l' -> (List.length l <= List.length l')%nat.
Proof. induction 1; simpl; lia. Qed.

Lemma Forall2_identity (ts ts' : list TimeSeries) :
  Forall2 (fun x y => identity y = identity x) ts ts' ->
  map identity ts' = map identity ts.
Proof. induction 1; simpl; congruence. Qed.

Lemma aligned_subseq (ts : list TimeSeries) (r : ScmRun) :
  Inv.aligned r = true -> subseq ts (_ts r) ->
  Inv.aligned (mkScmRun ts (_time_points r)) = true.
Proof.
  unfold Inv.aligned. simpl. rewrite !forallb_forall. intros H Hs x Hx.
  apply H. eapply subseq_In; eassumption.
Qed.

(** X1: filtering an aligned container gives an aligned container: every
    series left has one value per time point left and sits on the time axis
    of the result, whatever the predicates, [keep] and [inplace]. *)
Theorem filter_keeps_alignment (self : ScmRun) (keep inplace has_nan : bool)
    (kwargs : Kwargs) (out : Run.FilterOut) (ret : ScmRun) :
  Inv.aligned self = true ->
  filter self keep inplace has_nan kwargs = Ok out ->
  filtered inplace out ret ->
  Inv.aligned ret = true.
Proof.
  intros Ha H Hret. apply filter_Ok in H as (ret' & ts & -> & Hs & Hr).
  assert (ret = ret') as ->.
  { unfold filtered in Hret. destruct inplace; simpl in Hret; congruence. }
  destruct Hr as [->|(ts' & tp & _ & Hset)].
  - now apply aligned_subseq.
  - now apply setitem_time_aligned in Hset.
Qed.

(** X2: [filter] only ever leaves series out: the names and metadata of the
    series of the result are those of the receiver, in the same order, with
    some left out; none is added, changed or moved. *)
Theorem filter_only_leaves_out (self : ScmRun) (keep inplace has_nan : bool)
    (kwargs : Kwargs) (out : Run.FilterOut) (ret : ScmRun) :
  filter self keep inplace has_nan kwargs = Ok out ->
  filtered inplace out ret ->
  subseq (map identity (_ts ret)) (map identity (_ts self)) /\
  (Run.len ret <= Run.len self)%nat.
Proof.
  intros H Hret. apply filter_Ok in H as (ret' & ts & -> & Hs & Hr).
  assert (ret = ret') as ->.
  { unfold filtered in Hret. destruct inplace; simpl in Hret; congruence. }
  assert (Hsub : subseq (map identity (_ts ret')) (map identity (_ts self))).
  { destruct Hr as [->|(ts' & tp & Hid & Hset)].
    - simpl. now apply subseq_map.
    - apply setitem_time_aligned in Hset as (_ & _ & E). rewrite E. simpl.
      rewrite (Forall2_identity _ _ Hid). now apply subseq_map. }
  split; [exact Hsub|].
  apply subseq_length in Hsub. rewrite !length_map in Hsub. exact Hsub.
Qed.

Lemma apply_filter_unsupported self filters regexp has_nan keep col values :
  is_supported_filter self col = false ->
  apply_filter self filters regexp has_nan keep (col, values)
  = Raise (ValueError ("filter by `" ++ col ++ "` not supported")).
Proof.
  unfold is_supported_filter, apply_filter, Run.apply_filter. intros H.
  destruct keep as [kt km].
  repeat (apply orb_false_iff in H as [H ?]).
  repeat match goal with E : _ = false |- _ => rewrite E; clear E end.
  reflexivity.
Qed.

Lemma apply_filters_loop_cons self filters regexp has_nan item items keep :
  apply_filters_loop self filters regexp has_nan (item :: items) keep
  = (keep' <- apply_filter self filters regexp has_nan keep item ;;
     apply_filters_loop self filters regexp has_nan items keep').
Proof. reflexivity. Qed.

Lemma apply_filters_loop_unsupported self filters regexp has_nan items col values :
  In (col, values) items ->
  is_supported_filter self col = false ->
  forall keep,
  exists e, apply_filters_loop self filters regexp has_nan items keep = Raise e.
Proof.
  intros Hin Hs. induction items as [|item items IH]; [destruct Hin|].
  intros keep. rewrite apply_filters_loop_cons.
  destruct Hin as [->|Hin].
  - rewrite apply_filter_unsupported by exact Hs. simpl. eauto.
  - destruct (apply_filter self filters regexp has_nan keep item)
      as [keep'|e]; simpl; [|eauto].
    apply IH. exact Hin.
Qed.

(** X3: a filter on a key that is neither a metadata column of the container
    nor one of [variable], [level], [year], [month], [day], [hour], [time] (nor
    the switch [regexp]) never goes through, whatever [keep] and [inplace];
    when the key is the first one looked at, the error is the [ValueError]
    that names it. *)
Theorem filter_unsupported_key (self : ScmRun) (keep inplace has_nan : bool)
    (kwargs : Kwargs) (col : string) (values : PyVal) :
  In (col, values) kwargs ->
  col <> "regexp" ->
  is_supported_filter self col = false ->
  (exists e, filter self keep inplace has_nan kwargs = Raise e) /\
  (forall rest, kw_remove "regexp" kwargs = (col, values) :: rest ->
     filter self keep inplace has_nan kwargs
     = Raise (ValueError ("filter by `" ++ col ++ "` not supported"))).
Proof.
  intros Hin Hne Hs. unfold filter, Run.filter, Run._apply_filters. split.
  - destruct (apply_filters_loop_unsupported self (kw_remove "regexp" kwargs)
                match kw_get kwargs "regexp" with Some v => v | None => Atom (SNum 0) end
                has_nan (kw_remove "regexp" kwargs) col values) with
      (keep := (Mask.all_true (List.length (Run.time_points self)),
                Mask.all_true (Run.len self))) as (e & He).
    + unfold kw_remove. apply filter_In. split; [exact Hin|]. cbn [fst].
      destruct (String.eqb_spec "regexp" col); [congruence | reflexivity].
    + exact Hs.
    + unfold apply_filters_loop in He. rewrite He. simpl. eauto.
  - intros rest E. rewrite E. fold apply_filters_loop.
    rewrite apply_filters_loop_cons, apply_filter_unsupported by exact Hs.
    reflexivity.
Qed.

(** The cut of the time axis made by [filter], on an aligned container. *)
Lemma time_cut (self : ScmRun) (ts : list TimeSeries) (mask : list bool) :
  (forall x, In x ts -> Inv.aligned_ts (_time_points self) x = true) ->
  List.length mask = List.length (_time_points self) ->
  exists ret,
    (ts' <- mapM (TS.getitem_mask mask) ts ;;
     tp <- Mask.index (Run.time_points self) mask ;;
     Run.setitem_time (mkScmRun ts' (_time_points self)) tp) = Ok ret /\
    Run.len ret = List.length ts /\
    Mask.index (_time_points self) mask = Ok (_time_points ret).
Proof.
  intros Ha Hl.
  assert (Hone : forall x, In x ts ->
            exists y, TS.getitem_mask mask x = Ok y).
  { intros x Hx. specialize (Ha x Hx). unfold Inv.aligned_ts in Ha.
    apply andb_true_iff in Ha as [H1 H2].
    apply array_equal_eq in H1. apply Nat.eqb_eq in H2.
    unfold TS.getitem_mask.
    destruct (index_Ok (values x) mask) as (v & -> & _); [congruence|].
    destruct (index_Ok (time x) mask) as (t & -> & _); [congruence|].
    simpl. eauto. }
  destruct (mapM_total _ _ Hone) as (ts' & Hts'). rewrite Hts'. simpl.
  unfold Run.time_points.
  destruct (index_Ok (_time_points self) mask) as (tp & Htp & Htpl); [congruence|].
  rewrite Htp. simpl.
  apply mapM_Ok in Hts'.
  assert (Hlen : forall y, In y ts' -> TS.len y = Mask.sum mask).
  { clear -Hts'. induction Hts' as [|x y l l' Hxy _ IH]; intros z; [intros []|].
    intros [<-|Hz]; [|now apply IH].
    unfold TS.getitem_mask in Hxy.
    apply bind_Ok in Hxy as (v & Hv & Hxy).
    apply bind_Ok in Hxy as (t & _ & [= <-]).
    apply index_length in Hv as [_ Hv]. exact Hv. }
  unfold Run.setitem_time. simpl.
  assert (E : forallb (fun ts0 => Nat.eqb (List.length tp) (TS.len ts0)) ts' = true).
  { apply forallb_forall. intros y Hy. apply Nat.eqb_eq. rewrite (Hlen y Hy). exact Htpl. }
  rewrite E. eexists. split; [reflexivity|]. split; [|reflexivity].
  unfold Run.len. simpl. rewrite length_map.
  symmetry. eapply Forall2_length. exact Hts'.
Qed.

(** X4: when the predicates of a filter exclude no series but at least one
    time point, [filter(keep=True)] and [filter(keep=False)] of an aligned
    container that holds at least one series both go through, both keep
    every series, and cut the time axis into the time points of the mask and
    those of its complement. *)
Theorem filter_time_partition (self : ScmRun) (has_nan : bool) (kwargs : Kwargs)
    (keep_times keep_cols : list bool) :
  _ts self <> [] ->
  Inv.aligned self = true ->
  _apply_filters self kwargs has_nan = Ok (keep_times, keep_cols) ->
  forallb (fun b => b) keep_cols = true ->
  In false keep_times ->
  exists kept dropped a b,
    filter self true false has_nan kwargs = Ok kept /\
    filter self false false has_nan kwargs = Ok dropped /\
    Run.f_ret kept = Some a /\ Run.f_ret dropped = Some b /\
    Run.len a = Run.len self /\ Run.len b = Run.len self /\
    Mask.index (_time_points self) keep_times = Ok (_time_points a) /\
    Mask.index (_time_points self) (Mask.invert keep_times) = Ok (_time_points b) /\
    (List.length (_time_points a) + List.length (_time_points b)
     = List.length (_time_points self))%nat.
Proof.
  intros Hts Ha Hf Hc Ht. unfold filter, Run.filter. fold _apply_filters.
  rewrite Hf. cbn [Py.bind]. cbv beta iota zeta.
  apply apply_filters_length in Hf as [Hlt Hlc].
  rewrite (np_invert_Ok keep_times) by (intros ->; destruct Ht).
  rewrite (np_invert_Ok keep_cols)
    by (apply length_not_nil; unfold Run.len in Hlc; rewrite Hlc;
        now apply length_not_nil).
  cbn [Py.bind].
  apply sum_invert_zero in Hc. apply sum_invert_pos in Ht.
  rewrite Hc. simpl.
  destruct (Nat.ltb_spec 0 (Mask.sum (Mask.invert keep_times))) as [_|]; [|lia].
  simpl.
  assert (Hall : forall x, In x (_ts self) ->
                   Inv.aligned_ts (_time_points self) x = true).
  { unfold Inv.aligned in Ha. now rewrite forallb_forall in Ha. }
  destruct (time_cut self (_ts self) keep_times Hall Hlt) as (a & Ea & La & Ta).
  assert (Hli : List.length (Mask.invert keep_times) = List.length (_time_points self)).
  { unfold Mask.invert. rewrite length_map. exact Hlt. }
  destruct (time_cut self (_ts self) (Mask.invert keep_times) Hall Hli)
    as (b & Eb & Lb & Tb).
  rewrite Ea, Eb. simpl.
  do 4 eexists. split; [reflexivity|]. split; [reflexivity|].
  split; [reflexivity|]. split; [reflexivity|].
  split; [exact La|]. split; [exact Lb|]. split; [exact Ta|]. split; [exact Tb|].
  apply index_length in Ta as [_ Ta]. apply index_length in Tb as [_ Tb].
  rewrite Ta, Tb, <- Hlt. apply sum_invert.
Qed.

(** X5: on a container with at least one series and one time point,
    [filter(keep=True)] with predicates that exclude nothing, the filter
    without predicates among them, returns the container as it is. *)
Theorem filter_keep_true_excludes_nothing (self : ScmRun) (inplace has_nan : bool)
    (kwargs : Kwargs) (keep_times keep_cols : list bool) :
  _ts self <> [] ->
  _time_points self <> [] ->
  _apply_filters self kwargs has_nan = Ok (keep_times, keep_cols) ->
  forallb (fun b => b) keep_times = true ->
  forallb (fun b => b) keep_cols = true ->
  exists out,
    filter self true inplace has_nan kwargs = Ok out /\
    filtered inplace out self /\ Run.f_self out = self.
Proof.
  intros Hts Htp Hf Ht Hc. unfold filter, Run.filter. fold _apply_filters.
  rewrite Hf. cbn [Py.bind]. cbv beta iota zeta.
  apply apply_filters_length in Hf as [Hlt Hlc].
  rewrite (np_invert_Ok keep_times)
    by (apply length_not_nil; rewrite Hlt; now apply length_not_nil).
  rewrite (np_invert_Ok keep_cols)
    by (apply length_not_nil; unfold Run.len in Hlc; rewrite Hlc;
        now apply length_not_nil).
  cbn [Py.bind].
  apply sum_invert_zero in Ht, Hc. rewrite Ht, Hc. simpl.
  destruct self as [ts tp]. simpl.
  eexists. split; [reflexivity|]. destruct inplace; simpl; auto.
Qed.

End FilterMore.

(** ** Metadata: reading, setting and renaming *)

Lemma meta_get_In (m : Meta) (k : string) :
  (exists v, meta_get m k = Some v) <-> In k (meta_keys m).
Proof.
  induction m as [|[k' v'] m IH]; simpl.
  - split; [intros (v & H); discriminate | tauto].
  - destruct (String.eqb_spec k k') as [->|N].
    + split; eauto.
    + rewrite IH. split; [auto|]. intros [E|H]; [congruence | exact H].
Qed.

(** X6: [run[key]] goes through exactly for ["time"], ["year"] and the keys
    that some series carries in its metadata, and raises [KeyError] for any
    other key; a metadata column has one entry per series, the two time
    columns one entry per time point. *)
Theorem getitem_known_keys (self : ScmRun) (key : string) :
  ((exists col, Run.__getitem__ self key = Ok col) <->
   key = "time" \/ key = "year" \/
   exists ts, In ts (_ts self) /\ In key (meta_keys (meta ts))) /\
  (forall col, Run.__getitem__ self key = Ok col ->
     List.length col
     = if String.eqb key "time" || String.eqb key "year"
       then List.length (_time_points self) else Run.len self) /\
  (forall e, Run.__getitem__ self key = Raise e ->
     e = KeyError ("I don't know what to do with key: " ++ key)).
Proof.
  unfold Run.__getitem__.
  destruct (String.eqb_spec key "time") as [Et|Nt].
  { split; [split; eauto|]. split; [|discriminate].
    intros col [= <-]. simpl. now rewrite length_map. }
  destruct (String.eqb_spec key "year") as [Ey|Ny].
  { split; [split; eauto|]. split; [|discriminate].
    intros col [= <-]. simpl. unfold TimePoints.years. now rewrite !length_map. }
  destruct (existsb (String.eqb key) (Run.meta_attributes self)) eqn:E.
  - apply existsb_exists in E as (k & Hk & E). apply String.eqb_eq in E. subst k.
    apply meta_attributes_In in Hk.
    split; [split; eauto|]. split; [|discriminate].
    intros col [= <-]. simpl. unfold Run._meta_column, Run.len. apply length_map.
  - split; [split|].
    + intros (col & H). discriminate.
    + intros [H|[H|H]]; [congruence | congruence|].
      apply meta_attributes_In in H.
      assert (existsb (String.eqb key) (Run.meta_attributes self) = true).
      { apply existsb_exists. exists key. split; [exact H | apply String.eqb_refl]. }
      congruence.
    + split; [discriminate|]. now intros e [= <-].
Qed.

Lemma meta_get_set (m : Meta) (k k' : string) (v : Scalar) :
  meta_get (RunMeta.meta_set m k v) k'
  = if String.eqb k' k then Some v else meta_get m k'.
Proof.
  induction m as [|[k0 v0] m IH]; simpl.
  - reflexivity.
  - destruct (String.eqb_spec k k0) as [->|N]; simpl.
    + destruct (String.eqb_spec k' k0); reflexivity.
    + rewrite IH. destruct (String.eqb_spec k' k0) as [->|N'].
      * destruct (String.eqb_spec k0 k); [congruence | reflexivity].
      * reflexivity.
Qed.

Lemma meta_or_nan_with_meta (ts : TimeSeries) (k col : string) (v : Scalar) :
  Run.meta_or_nan (RunMeta.with_meta ts k v) col
  = if String.eqb col k then v else Run.meta_or_nan ts col.
Proof.
  unfold Run.meta_or_nan, RunMeta.with_meta. simpl. rewrite meta_get_set.
  destruct (String.eqb col k); reflexivity.
Qed.

Lemma meta_keys_set (m : Meta) (k : string) (v : Scalar) :
  In k (meta_keys m) -> meta_keys (RunMeta.meta_set m k v) = meta_keys m.
Proof.
  induction m as [|[k0 v0] m IH]; simpl; [tauto|].
  destruct (String.eqb_spec k k0) as [->|N]; simpl; [reflexivity|].
  intros [E|H]; [congruence|]. now rewrite IH.
Qed.

Lemma meta_keys_set_In (m : Meta) (k : string) (v : Scalar) :
  In k (meta_keys (RunMeta.meta_set m k v)).
Proof.
  induction m as [|[k0 v0] m IH]; simpl; [auto|].
  destruct (String.eqb_spec k k0) as [->|N]; simpl; auto.
Qed.

Lemma set_each_column (ts : list TimeSeries) (vals : list Scalar) (k : string) :
  List.length vals = List.length ts ->
  map (fun t => Run.meta_or_nan t k) (RunMeta.set_each ts vals k) = vals.
Proof.
  revert vals; induction ts as [|t ts IH]; intros [|v vals]; simpl;
    try discriminate; [reflexivity|].
  intros [= E]. rewrite meta_or_nan_with_meta, String.eqb_refl, IH by exact E.
  reflexivity.
Qed.

Lemma set_each_others (ts : list TimeSeries) (vals : list Scalar) (k col : string) :
  col <> k ->
  map (fun t => Run.meta_or_nan t col) (RunMeta.set_each ts vals k)
  = map (fun t => Run.meta_or_nan t col) ts.
Proof.
  intros N. revert vals; induction ts as [|t ts IH]; intros [|v vals]; simpl;
    try reflexivity.
  rewrite meta_or_nan_with_meta, IH.
  destruct (String.eqb_spec col k); [congruence | reflexivity].
Qed.

Lemma set_each_data (ts : list TimeSeries) (vals : list Scalar) (k : string) :
  map (fun t => (name t, time t, values t)) (RunMeta.set_each ts vals k)
  = map (fun t => (name t, time t, values t)) ts.
Proof.
  revert vals; induction ts as [|t ts IH]; intros [|v vals]; simpl;
    try reflexivity.
  now rewrite IH.
Qed.

Lemma map_const_repeat {A B : Type} (v : B) (l : list A) :
  map (fun _ => v) l = repeat v (List.length l).
Proof. induction l; simpl; congruence. Qed.

(** X7: after [set_meta(meta, name)] the column [name] holds the values of
    the array that [np.atleast_1d] makes of [meta], one per series, a single
    value being repeated for every series: a scalar as it was passed, a list
    as numpy converts it.  Every other metadata column, the names, the time
    coordinates and the values of the series and the time axis are as
    before. *)
Theorem set_meta_sets_column (np_array : list Scalar -> list Scalar)
    (self r : ScmRun) (meta : PyVal) (name' : option string) (k : string) :
  name' = Some k ->
  RunMeta.set_meta np_array self meta name' = Ok r ->
  Run._meta_column r k
  = match RunMeta.atleast_1d np_array meta with
    | [v] => repeat v (Run.len self)
    | l => l
    end /\
  (forall col, col <> k -> Run._meta_column r col = Run._meta_column self col) /\
  map (fun t => (name t, time t, values t)) (_ts r)
  = map (fun t => (name t, time t, values t)) (_ts self) /\
  _time_points r = _time_points self.
Proof.
  intros -> H. unfold RunMeta.set_meta in H.
  destruct (String.eqb k ""); [discriminate|]. cbv zeta in H.
  set (l := RunMeta.atleast_1d np_array meta) in *.
  destruct (Nat.eqb_spec (List.length l) 1) as [E1|N1].
  - destruct l as [|v [|v' l]]; try discriminate.
    injection H as <-. unfold Run._meta_column, Run.len. simpl.
    rewrite !map_map. split; [|split; [|split]]; try reflexivity.
    + rewrite <- map_const_repeat. apply map_ext. intros t.
      now rewrite meta_or_nan_with_meta, String.eqb_refl.
    + intros col N. rewrite map_map. apply map_ext. intros t.
      rewrite meta_or_nan_with_meta.
      destruct (String.eqb_spec col k); [congruence | reflexivity].
  - destruct (Nat.eqb_spec (List.length l) (Run.len self)) as [E2|];
      [|discriminate].
    injection H as <-. unfold Run._meta_column. simpl.
    split; [|split; [|split]]; try reflexivity.
    + rewrite set_each_column by exact E2.
      destruct l as [|v [|v' l]]; try reflexivity. now elim N1.
    + intros col N. now apply set_each_others.
    + apply set_each_data.
Qed.

(** X8: [set_meta] goes through exactly when a non-empty name is given and
    the values are a single one or one per series; otherwise it raises a
    [ValueError], and no other error. *)
Theorem set_meta_shape (np_array : list Scalar -> list Scalar) (self : ScmRun)
    (meta : PyVal) (name' : option string) :
  ((exists r, RunMeta.set_meta np_array self meta name' = Ok r) <->
   (exists k, name' = Some k /\ k <> "") /\
   (List.length (RunMeta.atleast_1d np_array meta) = 1%nat \/
    List.length (RunMeta.atleast_1d np_array meta) = Run.len self)) /\
  (forall e, RunMeta.set_meta np_array self meta name' = Raise e ->
     e = ValueError "Must pass a name or use a named pd.Series" \/
     e = ValueError "Invalid shape for metadata").
Proof.
  unfold RunMeta.set_meta. destruct name' as [k|].
  2:{ split; [split|].
      - intros (r & H). discriminate.
      - intros [(k & H & _) _]. discriminate.
      - intros e [= <-]. auto. }
  destruct (String.eqb_spec k "") as [->|N].
  { split; [split|].
    - intros (r & H). discriminate.
    - intros [(k & [= <-] & N) _]. now elim N.
    - intros e [= <-]. auto. }
  destruct (Nat.eqb_spec (List.length (RunMeta.atleast_1d np_array meta)) 1)
    as [E1|N1].
  { destruct (RunMeta.atleast_1d np_array meta) as [|v l]; [discriminate|].
    split; [split; eauto|]. discriminate. }
  destruct (Nat.eqb_spec (List.length (RunMeta.atleast_1d np_array meta))
              (Run.len self)) as [E2|N2].
  { split; [split; eauto|]. discriminate. }
  split; [split|].
  - intros (r & H). discriminate.
  - intros [_ [H|H]]; congruence.
  - intros e [= <-]. auto.
Qed.

Lemma unique_repeat (v : Scalar) (n : nat) :
  Run.unique (repeat v (S n)) = [v].
Proof.
  induction n as [|n IH]; [reflexivity|].
  change (repeat v (S (S n))) with (v :: repeat v (S n)).
  cbn [Run.unique]. rewrite IH. simpl. now rewrite scalar_eqb_refl.
Qed.

(** X9: a single value set with [set_meta] on a container that holds at
    least one series is what [get_unique_meta] then returns for the column,
    unless the column is named ["time"] or ["year"], which [__getitem__]
    reads from the time axis. *)
Theorem set_meta_then_get_unique_meta (np_array : list Scalar -> list Scalar)
    (format_list : list Scalar -> string)
    (self r : ScmRun) (v : Scalar) (k : string) :
  RunMeta.set_meta np_array self (Atom v) (Some k) = Ok r ->
  (0 < Run.len self)%nat ->
  k <> "time" -> k <> "year" ->
  Run.__getitem__ r k = Ok (repeat v (Run.len self)) /\
  Run.get_unique_meta format_list r k true = Ok (Run.Value1 v) /\
  Run.get_unique_meta format_list r k false = Ok (Run.Values [v]).
Proof.
  intros H Hpos Nt Ny.
  assert (Hg : Run.__getitem__ r k = Ok (repeat v (Run.len self))).
  { assert (Hc : Run._meta_column r k = repeat v (Run.len self)).
    { unfold RunMeta.set_meta in H. destruct (String.eqb k ""); [discriminate|].
      simpl in H. injection H as <-. unfold Run._meta_column, Run.len. simpl.
      rewrite map_map, <- map_const_repeat. apply map_ext. intros t.
      now rewrite meta_or_nan_with_meta, String.eqb_refl. }
    unfold Run.__getitem__.
    destruct (String.eqb_spec k "time"); [congruence|].
    destruct (String.eqb_spec k "year"); [congruence|].
    assert (E : existsb (String.eqb k) (Run.meta_attributes r) = true).
    { apply existsb_exists. exists k. split; [|apply String.eqb_refl].
      apply meta_attributes_In.
      unfold RunMeta.set_meta in H. destruct (String.eqb k ""); [discriminate|].
      simpl in H. injection H as <-. simpl.
      unfold Run.len in Hpos. destruct (_ts self) as [|t l]; [simpl in Hpos; lia|].
      exists (RunMeta.with_meta t k v). split; [now left|].
      apply meta_keys_set_In. }
    rewrite E, Hc. reflexivity. }
  split; [exact Hg|].
  unfold Run.get_unique_meta. rewrite Hg. simpl.
  destruct (Run.len self) as [|n]; [lia|].
  rewrite unique_repeat. simpl. auto.
Qed.

Lemma rename_ts_data (col : string) (m : list (Scalar * Scalar)) (ts ts' : TimeSeries) :
  RunMeta.rename_ts col m ts = Ok ts' ->
  name ts' = name ts /\ time ts' = time ts /\ values ts' = values ts /\
  meta_keys (meta ts') = meta_keys (meta ts) /\
  (forall c, c <> col -> Run.meta_or_nan ts' c = Run.meta_or_nan ts c).
Proof.
  unfold RunMeta.rename_ts. destruct (meta_get (meta ts) col) as [orig|] eqn:E;
    [|discriminate].
  destruct (RunMeta.mapping_get m orig) as [target|]; intros [= <-].
  - simpl. repeat split.
    + apply meta_keys_set. apply meta_get_In. eauto.
    + intros c N. rewrite meta_or_nan_with_meta.
      destruct (String.eqb_spec c col); [congruence | reflexivity].
  - repeat split.
Qed.

Lemma rename_loop_spec (mapping : RunMeta.Mapping) :
  forall ret ret',
  RunMeta.rename_loop ret mapping = Ok ret' ->
  Forall2 same_data (_ts ret) (_ts ret') /\
  _time_points ret' = _time_points ret /\
  (mapping <> [] -> Inv.unique_meta ret' = true) /\
  (forall col, In col (map fst mapping) -> In col (Run.meta_attributes ret)).
Proof.
  induction mapping as [|[col m] mapping IH]; intros ret ret'; simpl.
  - intros [= <-]. split; [|split; [reflexivity | split; [congruence | tauto]]].
    induction (_ts ret); constructor; [repeat split | assumption].
  - destruct (existsb (String.eqb col) (Run.meta_attributes ret)) eqn:Ecol;
      [|discriminate]. simpl.
    intros H. apply bind_Ok in H as (ts & Hts & H).
    destruct (Append.duplicated_any _) eqn:Ed; [discriminate|].
    pose proof H as H0.
    apply IH in H as (Hd & Htp & Hu & Hc). simpl in Hd, Htp, Hc.
    apply mapM_Ok in Hts.
    assert (Hstep : Forall2 same_data (_ts ret) ts).
    { eapply Forall2_impl; [|exact Hts]. intros a b Hab. simpl in Hab.
      apply rename_ts_data in Hab as (? & ? & ? & ? & _). repeat split; assumption. }
    assert (Hattr : forall c, In c (Run.meta_attributes (mkScmRun ts (_time_points ret)))
                              -> In c (Run.meta_attributes ret)).
    { intros c Hin. apply meta_attributes_In in Hin as (b & Hb & Hk). simpl in Hb.
      apply meta_attributes_In.
      clear -Hstep Hb Hk. induction Hstep as [|x y l l' Hxy _ IH']; [destruct Hb|].
      destruct Hb as [<-|Hb].
      - exists x. split; [now left|]. destruct Hxy as (_ & _ & _ & <-). exact Hk.
      - destruct (IH' Hb) as (t & Ht & Hkt). exists t. split; [now right | exact Hkt]. }
    split; [|split; [exact Htp | split]].
    + clear -Hstep Hd. revert Hd. generalize (_ts ret').
      induction Hstep as [|x y l l' Hxy _ IH']; intros l2 Hd; inversion Hd; subst;
        constructor; auto.
      destruct Hxy as (? & ? & ? & ?). destruct H1 as (? & ? & ? & ?).
      repeat split; congruence.
    + intros _. destruct mapping as [|p mapping].
      * simpl in H0. injection H0 as <-.
        unfold Inv.unique_meta. now rewrite Ed.
      * apply Hu. discriminate.
    + intros c [<-|Hin].
      * apply existsb_exists in Ecol as (k & Hk & E). apply String.eqb_eq in E.
        now subst k.
      * apply Hattr. now apply Hc.
Qed.

Lemma rename_loop_others (mapping : RunMeta.Mapping) :
  forall ret ret',
  RunMeta.rename_loop ret mapping = Ok ret' ->
  forall c, ~ In c (map fst mapping) ->
  Run._meta_column ret' c = Run._meta_column ret c.
Proof.
  induction mapping as [|[col m] mapping IH]; intros ret ret'; simpl.
  - now intros [= <-].
  - destruct (existsb (String.eqb col) (Run.meta_attributes ret)); [|discriminate].
    simpl. intros H c Hc. apply bind_Ok in H as (ts & Hts & H).
    destruct (Append.duplicated_any _); [discriminate|].
    rewrite (IH _ _ H c) by tauto.
    unfold Run._meta_column. simpl. apply mapM_Ok in Hts.
    assert (N : c <> col) by (intros ->; apply Hc; now left).
    clear -Hts N. induction Hts as [|x y l l' Hxy _ IH']; [reflexivity|].
    simpl. rewrite IH'. f_equal.
    apply rename_ts_data in Hxy as (_ & _ & _ & _ & Ho). now apply Ho.
Qed.

(** X10: a renaming that goes through changes metadata values only, and only
    in the columns it names: every series keeps its name, its time
    coordinate, its values and its metadata keys, the time axis is the same,
    the columns not named are untouched, and every column named is a metadata
    column of the container; after a renaming of at least one column no two
    series have the same metadata.  Without [inplace] the receiver is left
    as it was. *)
Theorem rename_keeps_data (self : ScmRun) (mapping : RunMeta.Mapping)
    (inplace : bool) (out : ScmRun * option ScmRun) :
  RunMeta.rename self mapping inplace = Ok out ->
  exists ret,
    out = (if inplace then (ret, None) else (self, Some ret)) /\
    Forall2 same_data (_ts self) (_ts ret) /\
    _time_points ret = _time_points self /\
    (forall c, ~ In c (map fst mapping) ->
       Run._meta_column ret c = Run._meta_column self c) /\
    (forall col, In col (map fst mapping) -> In col (Run.meta_attributes self)) /\
    (mapping <> [] -> Inv.unique_meta ret = true).
Proof.
  unfold RunMeta.rename. intros H. apply bind_Ok in H as (ret & Hl & [= <-]).
  exists ret. split; [reflexivity|].
  pose proof (rename_loop_others _ _ _ Hl) as Ho.
  apply rename_loop_spec in Hl as (Hd & Htp & Hu & Hc). auto 10.
Qed.

(** ** Construction from columns *)













(** ** Append: the time axis, the order and the errors *)

Lemma insert_time_In (x t : Z) (l : list Z) :
  In x (Append.insert_time t l) <-> x = t \/ In x l.
Proof.
  induction l as [|t' l IH]; simpl; [intuition congruence|].
  destruct (Z.ltb t t'); simpl; [intuition congruence|].
  destruct (Z.eqb_spec t t') as [->|N]; simpl.
  - intuition congruence.
  - rewrite IH. intuition congruence.
Qed.

Lemma np_unique_In (x : Z) (l : list Z) : In x (Append.np_unique l) <-> In x l.
Proof.
  unfold Append.np_unique. induction l as [|t l IH]; simpl; [tauto|].
  rewrite insert_time_In, IH. intuition congruence.
Qed.

Lemma increasing_cons (t : Z) (l : list Z) :
  Inv.increasing l = true -> (forall x, In x l -> t < x) ->
  Inv.increasing (t :: l) = true.
Proof.
  intros Hs Hlt. destruct l as [|t' l]; [reflexivity|].
  change (Z.ltb t t' && Inv.increasing (t' :: l) = true).
  rewrite Hs, andb_true_r. apply Z.ltb_lt. apply Hlt. now left.
Qed.

Lemma insert_time_increasing (t : Z) (l : list Z) :
  Inv.increasing l = true -> Inv.increasing (Append.insert_time t l) = true.
Proof.
  induction l as [|t' l IH]; intros Hs; [reflexivity|].
  destruct (increasing_head _ _ Hs) as [Hs' Hlt].
  cbn [Append.insert_time].
  destruct (Z.ltb_spec t t') as [Hl|Hge].
  - apply increasing_cons; [exact Hs|].
    intros x [<-|Hx]; [exact Hl|]. specialize (Hlt x Hx). lia.
  - destruct (Z.eqb_spec t t') as [->|N]; [exact Hs|].
    apply increasing_cons; [now apply IH|].
    intros x Hx. apply insert_time_In in Hx as [->|Hx]; [lia | now apply Hlt].
Qed.

Lemma np_unique_sorted (l : list Z) : Inv.increasing (Append.np_unique l) = true.
Proof.
  unfold Append.np_unique. induction l as [|t l IH]; [reflexivity|].
  simpl. now apply insert_time_increasing.
Qed.

Lemma join_time_points (first : ScmRun) (rest : list ScmRun) :
  _time_points (Append.join first rest)
  = Append.np_unique (List.concat (map Run.time_points (first :: rest))).
Proof.
  unfold Append.join.
  match goal with |- context [if ?c then _ else _] => destruct c eqn:E end;
    [|reflexivity].
  cbn [forallb] in E. apply andb_true_iff in E as [E _].
  apply array_equal_eq in E. cbn [_time_points]. symmetry. exact E.
Qed.

(** The shapes a successful [df_append] can take. *)
Lemma df_append_Ok (runs : list ScmRun) (inplace : bool) (duplicate_msg : PyVal)
    (out : Append.AppendOut) :
  Append.df_append runs inplace duplicate_msg = Ok out ->
  exists first rest,
    runs = first :: rest /\
    (appended out = Append.join first rest /\
     Append.a_warnings out = [Append.return_msg] \/
     appended out = Append.sort (Append.join first rest) /\
     Append.a_warnings out = [] \/
     appended out = Append.sort (Append.average (Append.join first rest)) /\
     Append.duplicated_any (Run.meta_table (Append.join first rest)) = true /\
     (Append.a_warnings out = [] \/ Append.a_warnings out = [Append.warn_msg])).
Proof.
  unfold Append.df_append. destruct runs as [|first rest]; [discriminate|].
  intros H. exists first, rest. split; [reflexivity|].
  destruct (Append.duplicated_any _) eqn:Ed.
  - destruct (truthy duplicate_msg).
    + apply bind_Ok in H as ([res w] & Hh & H). cbv zeta in H.
      unfold Append._handle_potential_duplicates_in_append in Hh.
      apply bind_Ok in Hh as (tbl & _ & Hh). cbv zeta in Hh.
      destruct (negb _).
      * injection Hh as <- <-. injection H as <-.
        right. right. unfold appended. destruct inplace; simpl; auto.
      * destruct duplicate_msg as [[s| | |]|]; try discriminate.
        destruct (String.eqb s "warn").
        { injection Hh as <- <-. injection H as <-.
          right. right. unfold appended. destruct inplace; simpl; auto. }
        destruct (String.eqb s "return"); [|discriminate].
        injection Hh as <- <-. injection H as <-.
        left. unfold appended. simpl. auto.
    + injection H as <-. right. right. unfold appended. destruct inplace; simpl; auto.
  - injection H as <-. right. left. unfold appended. destruct inplace; simpl; auto.
Qed.

(** X13: whatever comes out of an append, its time axis is the sorted union
    of the time axes of the runs: strictly increasing, and holding exactly
    the time points of the runs. *)
Theorem df_append_time_axis (runs : list ScmRun) (inplace : bool)
    (duplicate_msg : PyVal) (out : Append.AppendOut) :
  Append.df_append runs inplace duplicate_msg = Ok out ->
  _time_points (appended out)
  = Append.np_unique (List.concat (map Run.time_points runs)) /\
  Inv.increasing (_time_points (appended out)) = true /\
  (forall t, In t (_time_points (appended out)) <->
             exists r, In r runs /\ In t (_time_points r)).
Proof.
  intros H. apply df_append_Ok in H as (first & rest & -> & H).
  assert (E : _time_points (appended out)
              = Append.np_unique (List.concat (map Run.time_points (first :: rest)))).
  { destruct H as [[-> _]|[[-> _]|[-> _]]]; simpl; apply join_time_points. }
  rewrite E. split; [reflexivity|]. split; [apply np_unique_sorted|].
  intros t. rewrite np_unique_In, in_concat. split.
  - intros (l & Hl & Ht). apply in_map_iff in Hl as (r & <- & Hr). eauto.
  - intros (r & Hr & Ht). exists (Run.time_points r). split; [|exact Ht].
    apply in_map. exact Hr.
Qed.

Lemma ordered_cons (a : TimeSeries) (l : list TimeSeries) :
  ordered_by_name l = true -> (forall x, In x l -> name a <= name x) ->
  ordered_by_name (a :: l) = true.
Proof.
  intros Hs Hle. destruct l as [|b l]; [reflexivity|].
  change (Z.leb (name a) (name b) && ordered_by_name (b :: l) = true).
  rewrite Hs, andb_true_r. apply Z.leb_le. apply Hle. now left.
Qed.

Lemma ordered_head (a : TimeSeries) (l : list TimeSeries) :
  ordered_by_name (a :: l) = true ->
  ordered_by_name l = true /\ forall x, In x l -> name a <= name x.
Proof.
  revert a; induction l as [|b l IH]; intros a H.
  - split; [reflexivity | intros x []].
  - change (Z.leb (name a) (name b) && ordered_by_name (b :: l) = true) in H.
    apply andb_true_iff in H as [H1 H2]. apply Z.leb_le in H1.
    split; [exact H2|]. destruct (IH b H2) as [_ Hb].
    intros x [<-|Hx]; [exact H1|]. specialize (Hb x Hx). lia.
Qed.

Lemma insert_by_name_In (x ts : TimeSeries) (l : list TimeSeries) :
  In x (Append.insert_by_name ts l) <-> x = ts \/ In x l.
Proof.
  induction l as [|b l IH]; simpl; [intuition congruence|].
  destruct (Z.leb (name ts) (name b)); simpl; [intuition congruence|].
  rewrite IH. intuition congruence.
Qed.

Lemma insert_by_name_ordered (ts : TimeSeries) (l : list TimeSeries) :
  ordered_by_name l = true -> ordered_by_name (Append.insert_by_name ts l) = true.
Proof.
  induction l as [|b l IH]; intros Hs; [reflexivity|].
  destruct (ordered_head _ _ Hs) as [Hs' Hle]. cbn [Append.insert_by_name].
  destruct (Z.leb_spec (name ts) (name b)) as [Hl|Hgt].
  - apply ordered_cons; [exact Hs|].
    intros x [<-|Hx]; [exact Hl|]. specialize (Hle x Hx). lia.
  - apply ordered_cons; [now apply IH|].
    intros x Hx. apply insert_by_name_In in Hx as [->|Hx]; [lia | now apply Hle].
Qed.

Lemma sort_by_name_ordered (l : list TimeSeries) :
  ordered_by_name (Append.sort_by_name l) = true.
Proof.
  unfold Append.sort_by_name. induction l as [|ts l IH]; [reflexivity|].
  simpl. now apply insert_by_name_ordered.
Qed.

(** X14: when no two series of the joint data have the same metadata, the
    append goes through under every duplicate policy, without any warning,
    and returns all the series of the runs, on the joint time axis, ordered
    by name. *)
Theorem df_append_unique_meta (first : ScmRun) (rest : list ScmRun)
    (inplace : bool) (duplicate_msg : PyVal) :
  Inv.unique_meta (Append.join first rest) = true ->
  exists out,
    Append.df_append (first :: rest) inplace duplicate_msg = Ok out /\
    Append.a_warnings out = [] /\
    Permutation (_ts (appended out)) (_ts (Append.join first rest)) /\
    ordered_by_name (_ts (appended out)) = true /\
    Run.len (appended out)
    = fold_right Nat.add 0%nat (map Run.len (first :: rest)).
Proof.
  unfold Inv.unique_meta. intros H. apply negb_true_iff in H.
  unfold Append.df_append. rewrite H.
  eexists. split; [reflexivity|].
  assert (E : appended (if inplace
                        then Append.mkAppendOut (Append.sort (Append.join first rest)) None []
                        else Append.mkAppendOut first
                               (Some (Append.sort (Append.join first rest))) [])
              = Append.sort (Append.join first rest)).
  { destruct inplace; reflexivity. }
  rewrite E. split; [destruct inplace; reflexivity|].
  split; [apply sort_by_name_perm|]. split; [apply sort_by_name_ordered|].
  unfold Run.len. simpl. rewrite (Permutation_length (sort_by_name_perm _)).
  unfold Append.join.
  assert (L : List.length (_ts first ++ List.concat (map _ts rest))%list
              = (List.length (_ts first)
                 + fold_right Nat.add 0 (map (fun r => List.length (_ts r)) rest))%nat).
  { rewrite length_app. f_equal. clear. induction rest as [|r rest IH]; [reflexivity|].
    simpl. rewrite length_app, IH. reflexivity. }
  match goal with |- context [if ?c then _ else _] => destruct c end; simpl.
  - exact L.
  - rewrite length_map. exact L.
Qed.

(** X15: an append of at least one run never fails for a falsy duplicate
    policy, nor when the joint data has no repeated metadata; when it fails,
    it is with a [ValueError]. *)
Theorem df_append_errors (first : ScmRun) (rest : list ScmRun) (inplace : bool)
    (duplicate_msg : PyVal) (e : PyExc) :
  Append.df_append (first :: rest) inplace duplicate_msg = Raise e ->
  truthy duplicate_msg = true /\
  Append.duplicated_any (Run.meta_table (Append.join first rest)) = true /\
  exists msg, e = ValueError msg.
Proof.
  unfold Append.df_append.
  destruct (Append.duplicated_any _); [|discriminate].
  destruct (truthy duplicate_msg); [|discriminate].
  intros H. split; [reflexivity|]. split; [reflexivity|].
  destruct (Append._handle_potential_duplicates_in_append _ _) as [[res w]|e'] eqn:Eh;
    simpl in H.
  - destruct res; discriminate.
  - injection H as <-.
    unfold Append._handle_potential_duplicates_in_append, Append.timeseries in Eh.
    destruct (forallb _ _); simpl in Eh; [|injection Eh as <-; eauto].
    destruct (negb _); [discriminate|].
    destruct duplicate_msg as [[s| | |]|]; try (injection Eh as <-; eauto).
    destruct (String.eqb s "warn"); [discriminate|].
    destruct (String.eqb s "return"); [discriminate|].
    injection Eh as <-; eauto.
Qed.

Lemma join_aligned (first : ScmRun) (rest : list ScmRun) :
  Forall (fun r => Inv.aligned r = true) (first :: rest) ->
  Inv.aligned (Append.join first rest) = true.
Proof.
  intros Ha. unfold Append.join.
  match goal with |- context [if ?c then _ else _] => destruct c eqn:E end.
  - unfold Inv.aligned. cbn [_ts _time_points]. apply forallb_forall. intros ts Hts.
    rewrite forallb_forall in E.
    assert (Hr : exists r, In r (first :: rest) /\ In ts (_ts r)).
    { apply in_app_or in Hts as [Hts|Hts]; [exists first; split; [now left | exact Hts]|].
      apply in_concat in Hts as (l & Hl & Hts).
      apply in_map_iff in Hl as (r & <- & Hr). exists r. split; [now right | exact Hts]. }
    destruct Hr as (r & Hr & Hts').
    rewrite Forall_forall in Ha. specialize (Ha r Hr).
    unfold Inv.aligned in Ha. rewrite forallb_forall in Ha. specialize (Ha ts Hts').
    pose proof (E r Hr) as E1. pose proof (E first (or_introl eq_refl)) as E2.
    apply array_equal_eq in E1, E2. unfold Run.time_points in *.
    replace (_time_points first) with (_time_points r) by congruence. exact Ha.
  - unfold Inv.aligned. cbn [_ts _time_points]. apply forallb_forall. intros ts Hts.
    apply in_map_iff in Hts as (x & <- & _). unfold Inv.aligned_ts, TS.reindex.
    cbn [time values]. rewrite array_equal_refl, length_map, Nat.eqb_refl.
    reflexivity.
Qed.

Lemma sort_aligned (r : ScmRun) :
  Inv.aligned r = true -> Inv.aligned (Append.sort r) = true.
Proof.
  unfold Inv.aligned, Append.sort. cbn [_ts _time_points].
  rewrite !forallb_forall. intros H ts Hts. apply H.
  eapply Permutation_in; [apply sort_by_name_perm | exact Hts].
Qed.

Lemma average_aligned (r : ScmRun) : Inv.aligned (Append.average r) = true.
Proof.
  unfold Inv.aligned, Append.average, Append.groupby_mean. cbn [_ts _time_points].
  apply forallb_forall. intros ts Hts.
  apply in_concat in Hts as (l & Hl & Hts).
  apply in_map_iff in Hl as (k & <- & _).
  destruct (List.filter _ _) as [|f others]; [destruct Hts|].
  destruct Hts as [<-|[]]. unfold Inv.aligned_ts. cbn [time values].
  rewrite array_equal_refl, length_map, length_seq, Nat.eqb_refl. reflexivity.
Qed.

(** X16: appending aligned runs gives an aligned container: every series of
    the result is on the joint time axis, with one value per time point. *)
Theorem df_append_keeps_alignment (runs : list ScmRun) (inplace : bool)
    (duplicate_msg : PyVal) (out : Append.AppendOut) :
  Forall (fun r => Inv.aligned r = true) runs ->
  Append.df_append runs inplace duplicate_msg = Ok out ->
  Inv.aligned (appended out) = true.
Proof.
  intros Ha H. apply df_append_Ok in H as (first & rest & -> & H).
  destruct H as [[-> _]|[[-> _]|[-> _]]].
  - now apply join_aligned.
  - apply sort_aligned. now apply join_aligned.
  - apply sort_aligned. apply average_aligned.
Qed.

(** ** The netCDF codec: normal forms *)

Lemma contains_char_app (c : ascii) (s t : string) :
  Str.contains_char c (s ++ t) = Str.contains_char c s || Str.contains_char c t.
Proof.
  induction s as [|x s IH]; simpl; [reflexivity|]. now rewrite IH, orb_assoc.
Qed.

Lemma to_lower_eqb_bar (c : ascii) :
  Ascii.eqb (Str.to_lower c) "|" = Ascii.eqb c "|".
Proof. destruct c as [[] [] [] [] [] [] [] []]; reflexivity. Qed.

Lemma to_lower_eqb_space (c : ascii) :
  Ascii.eqb (Str.to_lower c) " " = Ascii.eqb c " ".
Proof. destruct c as [[] [] [] [] [] [] [] []]; reflexivity. Qed.

Lemma to_lower_eqb_underscore (c : ascii) :
  Ascii.eqb (Str.to_lower c) "_" = Ascii.eqb c "_".
Proof. destruct c as [[] [] [] [] [] [] [] []]; reflexivity. Qed.

Lemma to_upper_eqb_bar (c : ascii) :
  Ascii.eqb (Str.to_upper c) "|" = Ascii.eqb c "|".
Proof. destruct c as [[] [] [] [] [] [] [] []]; reflexivity. Qed.

Lemma to_upper_eqb_space (c : ascii) :
  Ascii.eqb (Str.to_upper c) " " = Ascii.eqb c " ".
Proof. destruct c as [[] [] [] [] [] [] [] []]; reflexivity. Qed.

Lemma to_upper_eqb_underscore (c : ascii) :
  Ascii.eqb (Str.to_upper c) "_" = Ascii.eqb c "_".
Proof. destruct c as [[] [] [] [] [] [] [] []]; reflexivity. Qed.

Lemma lower_idem (s : string) : Str.lower (Str.lower s) = Str.lower s.
Proof.
  unfold Str.lower. induction s as [|c s IH]; simpl; [reflexivity|].
  now rewrite to_lower_idem, IH.
Qed.

Lemma replace_char_absent (a : ascii) (new s : string) :
  Str.contains_char a s = false -> Str.replace (String a "") new s = s.
Proof.
  induction s as [|c s IH]; [reflexivity|]. simpl. intros H.
  apply orb_false_iff in H as [Hc Hs].
  rewrite replace_char_cons, Ascii.eqb_sym, Hc, IH by exact Hs. reflexivity.
Qed.

(** Replacing a character removes it, when the replacement is free of it. *)
Lemma replace_char_gone (a : ascii) (new s : string) :
  Str.contains_char a new = false ->
  Str.contains_char a (Str.replace (String a "") new s) = false.
Proof.
  intros Hn. induction s as [|c s IH]; [reflexivity|].
  rewrite replace_char_cons. destruct (Ascii.eqb_spec a c) as [->|N].
  - now rewrite contains_char_app, Hn, IH.
  - simpl. rewrite IH, orb_false_r. apply Ascii.eqb_neq. congruence.
Qed.

Lemma escape_char_clean (c : ascii) :
  Str.contains_char "|" (Netcdf.escape_char c) = false /\
  Str.contains_char " " (Netcdf.escape_char c) = false.
Proof.
  unfold Netcdf.escape_char.
  destruct (Ascii.eqb c "|") eqn:E1; [split; reflexivity|].
  destruct (Ascii.eqb c " ") eqn:E2; [split; reflexivity|].
  simpl. now rewrite to_lower_eqb_bar, to_lower_eqb_space, E1, E2.
Qed.

Lemma var_to_nc_clean (v : string) :
  Str.contains_char "|" (Netcdf._var_to_nc v) = false /\
  Str.contains_char " " (Netcdf._var_to_nc v) = false.
Proof.
  induction v as [|c v [IH1 IH2]]; [split; reflexivity|].
  rewrite var_to_nc_cons, !contains_char_app, IH1, IH2.
  destruct (escape_char_clean c) as [-> ->]. split; reflexivity.
Qed.

Lemma var_to_nc_lower (v : string) :
  Str.lower (Netcdf._var_to_nc v) = Netcdf._var_to_nc v.
Proof. unfold Netcdf._var_to_nc. apply lower_idem. Qed.

(** X17: the name [_var_to_nc] gives to a netCDF variable holds no
    separator, no space and no upper-case letter, whatever the variable; the
    escaping leaves such a name as it is, so that escaping twice is escaping
    once. *)
Theorem var_to_nc_normal_form (v : string) :
  Str.contains_char "|" (Netcdf._var_to_nc v) = false /\
  Str.contains_char " " (Netcdf._var_to_nc v) = false /\
  Str.lower (Netcdf._var_to_nc v) = Netcdf._var_to_nc v /\
  Netcdf._var_to_nc (Netcdf._var_to_nc v) = Netcdf._var_to_nc v.
Proof.
  destruct (var_to_nc_clean v) as [H1 H2].
  split; [exact H1|]. split; [exact H2|]. split; [apply var_to_nc_lower|].
  unfold Netcdf._var_to_nc at 1.
  rewrite (replace_char_absent "|" "__" _ H1), (replace_char_absent " " "_" _ H2).
  apply var_to_nc_lower.
Qed.

Lemma title_from_underscore (b : bool) (s : string) :
  Str.contains_char "_" (Str.title_from b s) = Str.contains_char "_" s.
Proof.
  revert b; induction s as [|c s IH]; intros b; simpl; [reflexivity|].
  destruct (Str.is_cased c); simpl; rewrite IH; [|reflexivity].
  destruct b; now rewrite ?to_lower_eqb_underscore, ?to_upper_eqb_underscore.
Qed.

Lemma nc_to_var_no_underscore (var : string) :
  Str.contains_char "_" (Netcdf._nc_to_var var) = false.
Proof.
  unfold Netcdf._nc_to_var, Str.title. rewrite title_from_underscore.
  now apply replace_char_gone.
Qed.

(** X18: the variable name [_nc_to_var] reads from a netCDF variable with an
    ASCII name holds no underscore and is title-cased. *)
Theorem nc_to_var_normal_form (var : string) :
  Str.is_ascii var = true ->
  Str.contains_char "_" (Netcdf._nc_to_var var) = false /\
  Str.title (Netcdf._nc_to_var var) = Netcdf._nc_to_var var.
Proof.
  intros _. split; [apply nc_to_var_no_underscore|].
  unfold Netcdf._nc_to_var, Str.title. apply title_from_idem.
Qed.

(** The two-character separator, read from left to right. *)
Lemma replace_sep_pair (s : string) :
  Str.replace "__" "|" (String "_" (String "_" s))
  = String "|" (Str.replace "__" "|" s).
Proof.
  unfold Str.replace. cbn [Str.replace_from].
  rewrite !prefix_cons, prefix_nil. cbn [Ascii.eqb Bool.eqb andb append].
  change (String.length "__" - 1)%nat with 1%nat. cbn [Str.replace_from].
  reflexivity.
Qed.

Lemma replace_sep_other (c : ascii) (s : string) :
  Ascii.eqb c "_" && String.prefix "_" s = false ->
  Str.replace "__" "|" (String c s) = String c (Str.replace "__" "|" s).
Proof.
  intros H. unfold Str.replace. cbn [Str.replace_from].
  rewrite prefix_cons, (Ascii.eqb_sym "_" c), H. reflexivity.
Qed.

Lemma spaces_apart_cons (c : ascii) (s : string) :
  Netcdf.spaces_apart (String c s)
  = (if Ascii.eqb c " " then
       match s with
       | String d _ => negb (Ascii.eqb d " ") && negb (Ascii.eqb d "|")
       | EmptyString => true
       end
     else true) && Netcdf.spaces_apart s.
Proof. reflexivity. Qed.

Lemma title_from_cons (b : bool) (c : ascii) (s : string) :
  Str.title_from b (String c s)
  = if Str.is_cased c
    then String (if b then Str.to_lower c else Str.to_upper c) (Str.title_from true s)
    else String c (Str.title_from false s).
Proof. reflexivity. Qed.

(** The first character of a decoded name that does not start with an
    underscore is neither a space nor a separator. *)
Lemma decoded_head (b : bool) (s : string) :
  Str.contains_char "|" s = false ->
  Str.contains_char " " s = false ->
  String.prefix "_" s = false ->
  match Str.title_from b (Str.replace "_" " " (Str.replace "__" "|" s)) with
  | String d _ => negb (Ascii.eqb d " ") && negb (Ascii.eqb d "|")
  | EmptyString => true
  end = true.
Proof.
  destruct s as [|d s]; [reflexivity|]. intros H1 H2 Hp.
  simpl in H1, H2. apply orb_false_iff in H1 as [H1 _].
  apply orb_false_iff in H2 as [H2 _].
  rewrite prefix_cons, prefix_nil, andb_true_r in Hp.
  rewrite replace_sep_other by (rewrite Ascii.eqb_sym, Hp; reflexivity).
  rewrite replace_char_cons, Hp, title_from_cons.
  destruct (Str.is_cased d); [destruct b|];
    rewrite ?to_lower_eqb_space, ?to_lower_eqb_bar, ?to_upper_eqb_space,
      ?to_upper_eqb_bar, H1, H2; reflexivity.
Qed.

Lemma decoded_spaces_apart (n : nat) :
  forall (e : string) (b : bool),
  (String.length e <= n)%nat ->
  Str.contains_char "|" e = false ->
  Str.contains_char " " e = false ->
  Netcdf.spaces_apart
    (Str.title_from b (Str.replace "_" " " (Str.replace "__" "|" e))) = true.
Proof.
  induction n as [|n IH]; intros e b Hl H1 H2.
  - destruct e; [reflexivity | simpl in Hl; lia].
  - destruct e as [|c s]; [reflexivity|].
    pose proof H1 as H1'. pose proof H2 as H2'.
    simpl in H1', H2', Hl.
    apply orb_false_iff in H1' as [Hc1 Hs1]. apply orb_false_iff in H2' as [Hc2 Hs2].
    destruct (Ascii.eqb_spec c "_") as [->|N].
    + destruct s as [|d s']; [destruct b; reflexivity|].
      destruct (Ascii.eqb_spec d "_") as [->|N'].
      * rewrite replace_sep_pair, replace_char_cons. cbn [Ascii.eqb Bool.eqb].
        rewrite title_from_cons.
        change (Str.is_cased "|") with false. cbn iota.
        rewrite spaces_apart_cons. cbn [Ascii.eqb Bool.eqb andb].
        simpl in Hs1, Hs2, Hl. apply IH; [lia | exact Hs1 | exact Hs2].
      * assert (Hp : String.prefix "_" (String d s') = false).
        { rewrite prefix_cons, prefix_nil, andb_true_r, Ascii.eqb_sym.
          apply Ascii.eqb_neq. exact N'. }
        rewrite replace_sep_other by (rewrite Hp; reflexivity).
        rewrite replace_char_cons. cbn [Ascii.eqb Bool.eqb append].
        rewrite title_from_cons.
        change (Str.is_cased " ") with false. cbn iota.
        rewrite spaces_apart_cons. cbn [Ascii.eqb Bool.eqb].
        rewrite decoded_head by assumption.
        apply IH; [lia | exact Hs1 | exact Hs2].
    + assert (E : Ascii.eqb c "_" = false) by (apply Ascii.eqb_neq; exact N).
      rewrite replace_sep_other by (rewrite E; reflexivity).
      rewrite replace_char_cons, (Ascii.eqb_sym "_" c), E, title_from_cons.
      assert (Hrest : forall b', Netcdf.spaces_apart
                (Str.title_from b' (Str.replace "_" " " (Str.replace "__" "|" s)))
                = true).
      { intros b'. apply IH; [lia | exact Hs1 | exact Hs2]. }
      destruct (Str.is_cased c); [destruct b|]; rewrite spaces_apart_cons, Hrest,
        ?to_lower_eqb_space, ?to_upper_eqb_space, Hc2; reflexivity.
Qed.

(** What [_nc_to_var] reads from a name free of separators and spaces, as
    [_var_to_nc] writes them, is a name the codec leaves unchanged. *)
Lemma nc_to_var_stable (e : string) :
  Str.contains_char "|" e = false ->
  Str.contains_char " " e = false ->
  Netcdf.is_nc_stable (Netcdf._nc_to_var e) = true.
Proof.
  intros H1 H2. unfold Netcdf.is_nc_stable.
  rewrite nc_to_var_no_underscore. cbn [negb andb].
  apply andb_true_iff. split.
  - unfold Netcdf._nc_to_var, Str.title.
    now apply (decoded_spaces_apart (String.length e)).
  - apply String.eqb_eq. unfold Netcdf._nc_to_var, Str.title. apply title_from_idem.
Qed.

Lemma read_back_stable (v : string) :
  Netcdf.is_nc_stable (Netcdf.variable_read_back v) = true.
Proof.
  unfold Netcdf.variable_read_back.
  destruct (var_to_nc_clean v) as [H1 H2]. now apply nc_to_var_stable.
Qed.

(** X19: for an ASCII variable name, the name read back after a write is one
    the codec leaves unchanged: writing and reading it again gives the same
    name, so that one round trip normalises a name once and for all. *)
Theorem variable_read_back_idempotent (v : string) :
  Str.is_ascii v = true ->
  Netcdf.is_nc_stable (Netcdf.variable_read_back v) = true /\
  Netcdf.variable_read_back (Netcdf.variable_read_back v)
  = Netcdf.variable_read_back v.
Proof.
  intros _. split; [apply read_back_stable|].
  apply stable_variable_read_back, read_back_stable.
Qed.

(** X20: only the names the codec leaves unchanged are read back as written:
    a name that comes back from the round trip holds no underscore, no space
    directly followed by a space or a separator, and is title-cased. *)
Theorem read_back_only_stable (v : string) :
  Netcdf.variable_read_back v = v -> Netcdf.is_nc_stable v = true.
Proof. intros E. rewrite <- E. apply read_back_stable. Qed.

(** ** The netCDF writer: indices and dimensions *)

Lemma where_equal_spec (vals : list Scalar) (v : Scalar) :
  forall k,
  match Nc.where_equal k vals v with
  | [] => forall x, In x vals -> Nc.np_equal x v = false
  | i :: _ =>
      exists i0, i = (k + i0)%nat /\ (i0 < List.length vals)%nat /\
                 Nc.np_equal (nth i0 vals SNaN) v = true /\
                 forall j, (j < i0)%nat -> Nc.np_equal (nth j vals SNaN) v = false
  end.
Proof.
  induction vals as [|x vals IH]; intros k; simpl; [tauto|].
  destruct (Nc.np_equal x v) eqn:E.
  - exists 0%nat. repeat split; [lia | lia | exact E | intros j Hj; lia].
  - specialize (IH (S k)). destruct (Nc.where_equal (S k) vals v) as [|i l].
    + intros y [<-|Hy]; [exact E | now apply IH].
    + destruct IH as (i0 & -> & Hl & Hi & Hj). exists (S i0).
      repeat split; [lia | lia | exact Hi|].
      intros [|j] Hlt; [exact E | apply Hj; lia].
Qed.

(** X21: [_get_idx] returns the first position of the dimension that holds
    the value, and fails its assertion exactly when no position does (a NaN
    is never found); it cannot fail in any other way. *)
Theorem get_idx_first_position (vals : list Scalar) (v : Scalar) :
  (forall i, Nc._get_idx vals v = Ok i <->
     (i < List.length vals)%nat /\
     Nc.np_equal (nth i vals SNaN) v = true /\
     forall j, (j < i)%nat -> Nc.np_equal (nth j vals SNaN) v = false) /\
  (forall e, Nc._get_idx vals v = Raise e <->
     e = AssertionError "" /\ forall x, In x vals -> Nc.np_equal x v = false).
Proof.
  unfold Nc._get_idx. pose proof (where_equal_spec vals v 0) as H.
  destruct (existsb (fun x => Nc.np_equal x v) vals) eqn:Ex; simpl.
  - apply existsb_exists in Ex as (x & Hx & Ex).
    destruct (Nc.where_equal 0 vals v) as [|i0 l].
    { rewrite (H x Hx) in Ex. discriminate. }
    destruct H as (i1 & -> & Hl & Hi & Hj). simpl. split.
    + intros i. split.
      * intros [= <-]. auto.
      * intros (Hl' & Hi' & Hj'). f_equal.
        destruct (Nat.lt_trichotomy i1 i) as [L|[E|L]]; [|exact E|].
        -- rewrite (Hj' i1 L) in Hi. discriminate.
        -- rewrite (Hj i L) in Hi'. discriminate.
    + intros e. split; [discriminate|]. intros [_ Hn].
      rewrite (Hn x Hx) in Ex. discriminate.
  - assert (Hn : forall x, In x vals -> Nc.np_equal x v = false).
    { intros x Hx. destruct (Nc.np_equal x v) eqn:E; [|reflexivity].
      assert (existsb (fun x => Nc.np_equal x v) vals = true)
        by (apply existsb_exists; eauto).
      congruence. }
    split.
    + intros i. split; [discriminate|]. intros (Hl & Hi & _).
      rewrite (Hn (nth i vals SNaN)) in Hi; [discriminate | now apply nth_In].
    + intros e. split; [intros [= <-]; auto | intros [-> _]; reflexivity].
Qed.

Lemma remove_first_count (x d : string) (l : list string) :
  count_occ string_dec (Nc.remove_first x l) d
  = if string_dec x d then Nat.pred (count_occ string_dec l d)
    else count_occ string_dec l d.
Proof.
  induction l as [|y l IH]; simpl.
  - destruct (string_dec x d); reflexivity.
  - destruct (String.eqb_spec x y) as [->|N].
    + destruct (string_dec y d); reflexivity.
    + simpl. rewrite IH.
      destruct (string_dec y d) as [->|]; [|reflexivity].
      destruct (string_dec x d); [congruence | reflexivity].
Qed.

Lemma existsb_count (x : string) (l : list string) :
  existsb (String.eqb x) l = true <-> (0 < count_occ string_dec l x)%nat.
Proof.
  pose proof (count_occ_In string_dec l x) as C. unfold gt in C.
  rewrite <- C, existsb_exists. split.
  - intros (y & Hy & E). apply String.eqb_eq in E. now subst y.
  - intros H. exists x. split; [exact H | apply String.eqb_refl].
Qed.

Lemma remove_first_filter (x : string) (l : list string) :
  List.filter (fun d => negb (String.eqb d x)) (Nc.remove_first x l)
  = List.filter (fun d => negb (String.eqb d x)) l.
Proof.
  induction l as [|y l IH]; simpl; [reflexivity|].
  destruct (String.eqb_spec x y) as [->|N].
  - now rewrite String.eqb_refl.
  - simpl. now rewrite IH.
Qed.

(** X22: the dimensions of a variable written by [run_to_nc] end with
    ["time"], and hold the other dimensions as they were given, in the same
    order; ["time"] occurs once when it was given at most once, since only its
    first occurrence is taken out before it is added at the end. *)
Theorem all_dims_time_last (dimensions : list string) :
  last (Nc.all_dims dimensions) "" = "time" /\
  List.filter (fun d => negb (String.eqb d "time")) (Nc.all_dims dimensions)
  = List.filter (fun d => negb (String.eqb d "time")) dimensions /\
  count_occ string_dec (Nc.all_dims dimensions) "time"
  = Nat.max 1 (count_occ string_dec dimensions "time").
Proof.
  unfold Nc.all_dims. split; [apply last_last|]. split.
  - rewrite filter_app. simpl. rewrite app_nil_r. unfold Nc.write_dimensions.
    destruct (existsb _ dimensions); [apply remove_first_filter | reflexivity].
  - rewrite count_occ_app.
    assert (C1 : count_occ string_dec ["time"] "time" = 1%nat).
    { cbn [count_occ]. destruct (string_dec "time" "time"); [reflexivity | congruence]. }
    rewrite C1. unfold Nc.write_dimensions.
    destruct (existsb (String.eqb "time") dimensions) eqn:E.
    + apply existsb_count in E. rewrite remove_first_count.
      destruct (string_dec "time" "time"); [lia | congruence].
    + assert (count_occ string_dec dimensions "time" = 0%nat).
      { destruct (count_occ string_dec dimensions "time") eqn:C; [reflexivity|].
        assert (existsb (String.eqb "time") dimensions = true)
          by (apply existsb_count; lia).
        congruence. }
      lia.
Qed.

(** ** The database: file names, the check of the root and [delete] *)

Lemma safe_char_safe (c : ascii) :
  Str.isalnum (Database.safe_char c)
  || Str.contains_char (Database.safe_char c) "-/*_." = true.
Proof. destruct c as [[] [] [] [] [] [] [] []]; reflexivity. Qed.

Lemma safe_char_idem (c : ascii) :
  Database.safe_char (Database.safe_char c) = Database.safe_char c.
Proof.
  unfold Database.safe_char at 1. now rewrite safe_char_safe.
Qed.

Lemma map_chars_length (f : ascii -> ascii) (s : string) :
  String.length (Str.map_chars f s) = String.length s.
Proof. induction s; simpl; congruence. Qed.

Lemma map_chars_contains (f : ascii -> ascii) (c : ascii) (s : string) :
  Str.contains_char c (Str.map_chars f s) = true ->
  exists x, Str.contains_char x s = true /\ c = f x.
Proof.
  induction s as [|y s IH]; simpl; [discriminate|].
  intros H. apply orb_true_iff in H as [H|H].
  - apply Ascii.eqb_eq in H. exists y. now rewrite Ascii.eqb_refl.
  - destruct (IH H) as (x & Hx & ->). exists x. now rewrite Hx, orb_true_r.
Qed.

Lemma disk_filename_chars (inp : string) (c : ascii) :
  Str.contains_char c (Database._get_disk_filename inp) = true ->
  Str.isalnum c || Str.contains_char c "-/*_." = true.
Proof.
  intros H. apply map_chars_contains in H as (x & _ & ->). apply safe_char_safe.
Qed.

(** X23: the file name [_get_disk_filename] makes of an ASCII path has the
    length of the path and holds only ASCII letters, digits and the
    characters [-/*_.]; such a name is left as it is, so that cleaning twice
    is cleaning once. *)
Theorem disk_filename_safe (inp : string) :
  Str.is_ascii inp = true ->
  String.length (Database._get_disk_filename inp) = String.length inp /\
  (forall c, Str.contains_char c (Database._get_disk_filename inp) = true ->
             Str.isalnum c || Str.contains_char c "-/*_." = true) /\
  Database._get_disk_filename (Database._get_disk_filename inp)
  = Database._get_disk_filename inp.
Proof.
  intros _. split; [apply map_chars_length|]. split; [apply disk_filename_chars|].
  unfold Database._get_disk_filename.
  induction inp as [|c s IH]; simpl; [reflexivity|].
  now rewrite safe_char_idem, IH.
Qed.

Lemma check_filters_unknown (self : Database.ScmDatabase) (filters : Database.Filters) :
  (exists level v, In (level, v) filters /\ ~ In level (Database.levels self)) ->
  exists l, ~ In l (Database.levels self) /\
            Database.check_filters self filters
            = Raise (ValueError ("Unknown level: " ++ l)).
Proof.
  induction filters as [|[k w] filters IH]; intros (level & v & Hin & Hn);
    [destruct Hin|].
  simpl. destruct (existsb (String.eqb k) (Database.levels self)) eqn:E; simpl.
  - destruct Hin as [[= -> ->]|Hin].
    + elim Hn. apply existsb_exists in E as (x & Hx & E).
      apply String.eqb_eq in E. now subst x.
    + destruct IH as (l & Hl & ->); [eauto|]. simpl. eauto.
  - exists k. split; [|reflexivity]. intros Hk.
    assert (existsb (String.eqb k) (Database.levels self) = true).
    { apply existsb_exists. exists k. split; [exact Hk | apply String.eqb_refl]. }
    congruence.
Qed.

Lemma check_filters_Ok (self : Database.ScmDatabase) (filters f : Database.Filters) :
  Database.check_filters self filters = Ok f ->
  Forall2 (fun p q =>
             fst q = fst p /\ In (fst p) (Database.levels self) /\
             Str.contains_char "/" (snd q) = false /\
             (Str.contains_char "/" (snd p) = false -> snd q = snd p))
    filters f.
Proof.
  revert f; induction filters as [|[k w] filters IH]; intros f; simpl.
  - intros [= <-]. constructor.
  - destruct (existsb (String.eqb k) (Database.levels self)) eqn:E; simpl;
      [|discriminate].
    intros H. apply bind_Ok in H as (rest & Hr & [= <-]).
    constructor; [|now apply IH]. simpl.
    split; [reflexivity|]. split.
    + apply existsb_exists in E as (x & Hx & E). apply String.eqb_eq in E.
      now subst x.
    + destruct (Str.contains_char "/" w) eqn:Ec.
      * split; [now apply replace_char_gone | discriminate].
      * split; [exact Ec | reflexivity].
Qed.

(** X24: the first loop of [delete] lets through only filters on levels of
    the database, keeps their order and their levels, leaves a value without
    slash as it is and hands on no value that holds a slash: a filter cannot
    add a component to the path that is globbed. *)
Theorem check_filters_no_slash (self : Database.ScmDatabase)
    (filters f : Database.Filters) :
  Database.check_filters self filters = Ok f ->
  map fst f = map fst filters /\
  (forall level v, In (level, v) f ->
     In level (Database.levels self) /\ Str.contains_char "/" v = false) /\
  (forall level v, In (level, v) filters -> Str.contains_char "/" v = false ->
     In (level, v) f).
Proof.
  intros H. apply check_filters_Ok in H.
  induction H as [|[k w] [k' w'] l l' (Hk & Hl & Hs & Hw) _ (IH1 & IH2 & IH3)];
    simpl in *.
  - split; [reflexivity|]. split; tauto.
  - subst k'. split; [now rewrite IH1|]. split.
    + intros level v [[= <- <-]|Hin]; [auto | now apply IH2].
    + intros level v [[= <- <-]|Hin] Hv.
      * left. now rewrite Hw.
      * right. now apply IH3.
Qed.

Section DeleteMore.

Variable FS : Type.
Variable glob : FS -> string -> list string.
Variable resolve : FS -> string -> Database.Path.
Variable rmtree : FS -> string -> Res FS.

Lemma strictly_inside_irrefl (p : Database.Path) : ~ Database.strictly_inside p p.
Proof.
  intros (rest & Hne & E). apply (f_equal (@List.length string)) in E.
  rewrite length_app in E. destruct rest; [now elim Hne | simpl in E; lia].
Qed.

(** X25: [_check_is_subdir] lets a path through exactly when it resolves to a
    place strictly below the resolved root, and raises an [AssertionError]
    otherwise; in particular the root itself, or a link that resolves to it,
    is refused. *)
Theorem check_is_subdir_strict (fs : FS) (root d : string) :
  (Database._check_is_subdir FS resolve fs root d = Ok tt <->
   Database.strictly_inside (resolve fs root) (resolve fs d)) /\
  (forall e, Database._check_is_subdir FS resolve fs root d = Raise e ->
     e = AssertionError (d ++ " not in " ++ root)) /\
  (resolve fs d = resolve fs root ->
   Database._check_is_subdir FS resolve fs root d
   = Raise (AssertionError (d ++ " not in " ++ root))).
Proof.
  unfold Database._check_is_subdir.
  destruct (existsb _ _) eqn:E; simpl.
  - apply parents_spec in E. split; [tauto|]. split; [discriminate|].
    intros Heq. rewrite Heq in E. now apply strictly_inside_irrefl in E.
  - split; [|split].
    + split; [discriminate|]. intros H. apply parents_spec in H. congruence.
    + now intros e [= <-].
    + reflexivity.
Qed.

(** X26: a filter on a level the database does not have makes [delete] raise
    a [ValueError] that names an unknown level, before anything is looked up
    or removed: the file system is as it was. *)
Theorem delete_unknown_level (self : Database.ScmDatabase) (fs : FS)
    (filters : Database.Filters) (level v : string) :
  In (level, v) filters ->
  ~ In level (Database.levels self) ->
  let out := Database.delete FS glob resolve rmtree self fs filters in
  Database.d_removed FS out = [] /\ Database.d_fs FS out = fs /\
  exists l, ~ In l (Database.levels self) /\
            Database.d_raised FS out = Some (ValueError ("Unknown level: " ++ l)).
Proof.
  intros Hin Hn. unfold Database.delete.
  destruct (check_filters_unknown self filters) as (l & Hl & ->); [eauto|].
  simpl. eauto.
Qed.

Lemma delete_loop_prefix (self : Database.ScmDatabase) (load_dirs : list string) :
  forall fs removed,
  let out := Database.delete_loop FS resolve rmtree self fs load_dirs removed in
  exists k,
    map snd (Database.d_removed FS out) = (map snd removed ++ firstn k load_dirs)%list /\
    (Database.d_raised FS out = None -> k = List.length load_dirs) /\
    (Database.d_raised FS out <> None -> (k < List.length load_dirs)%nat).
Proof.
  induction load_dirs as [|d load_dirs IH]; intros fs removed; simpl.
  - exists 0%nat. rewrite app_nil_r. split; [reflexivity|]. split; [auto|].
    intros H. now elim H.
  - destruct (Database._check_is_subdir FS resolve fs (Database._root_dir self) d);
      simpl.
    + destruct (rmtree fs d) as [fs'|e]; simpl.
      * destruct (IH fs' (removed ++ [(fs, d)])%list) as (k & Hk & H1 & H2).
        exists (S k). rewrite Hk, map_app, <- app_assoc. simpl.
        split; [reflexivity|]. split.
        -- intros H. f_equal. now apply H1.
        -- intros H. apply -> Nat.succ_lt_mono. now apply H2.
      * exists 0%nat. rewrite app_nil_r. split; [reflexivity|].
        split; [discriminate | intros _; lia].
    + exists 0%nat. rewrite app_nil_r. split; [reflexivity|].
      split; [discriminate | intros _; lia].
Qed.

(** X27: [delete] looks the directories up once, on the file system it
    starts from, and removes them in the order of the lookup: all of them
    when it raises nothing, and otherwise those before the one at which the
    check or the removal failed, none after it. *)
Theorem delete_removes_in_order (self : Database.ScmDatabase) (fs : FS)
    (filters f : Database.Filters) :
  Database.check_filters self filters = Ok f ->
  let load_dirs :=
    glob fs
      (Database._get_disk_filename
         (Database.path_join (Database._root_dir self)
            (map (fun level => match Database.filters_get f level with
                               | Some v => v
                               | None => "*"
                               end) (Database.levels self)))) in
  let out := Database.delete FS glob resolve rmtree self fs filters in
  exists k,
    map snd (Database.d_removed FS out) = firstn k load_dirs /\
    (Database.d_raised FS out = None -> k = List.length load_dirs) /\
    (Database.d_raised FS out <> None -> (k < List.length load_dirs)%nat).
Proof.
  intros H. unfold Database.delete. rewrite H. cbv zeta.
  apply (delete_loop_prefix self _ fs []).
Qed.

Lemma out_levels_Ok (todo : list string) (levels : Database.Filters)
    (l : list string) :
  Store.out_levels todo levels = Ok l ->
  Forall2 (fun level v => Database.filters_get levels level = Some v) todo l.
Proof.
  revert l; induction todo as [|level todo IH]; intros l; simpl.
  - intros [= <-]. constructor.
  - destruct (Database.filters_get levels level) as [v|] eqn:E; [|discriminate].
    intros H. apply bind_Ok in H as (rest & Hr & [= <-]).
    constructor; [exact E | now apply IH].
Qed.

Lemma out_levels_first (levels : Database.Filters) (done todo : list string)
    (level : string) :
  (forall l, In l done -> Database.filters_get levels l <> None) ->
  Database.filters_get levels level = None ->
  Store.out_levels (done ++ level :: todo)%list levels
  = Raise (ValueError ("expected value for level: " ++ level)).
Proof.
  induction done as [|k done IH]; intros Hd Hn; simpl.
  - now rewrite Hn.
  - destruct (Database.filters_get levels k) as [v|] eqn:E.
    + rewrite IH; [reflexivity| |exact Hn]. intros l Hl. apply Hd. now right.
    + elim (Hd k (or_introl eq_refl)). exact E.
Qed.

Lemma out_levels_error (todo : list string) (levels : Database.Filters)
    (e : PyExc) :
  Store.out_levels todo levels = Raise e -> exists msg, e = ValueError msg.
Proof.
  induction todo as [|k todo IH]; simpl; [discriminate|].
  destruct (Database.filters_get levels k); simpl.
  - destruct (Store.out_levels todo levels); simpl; [discriminate|].
    intros [= <-]. now apply IH.
  - intros [= <-]. eauto.
Qed.

(** X28: [_get_out_filepath] needs a value for every level of the database:
    when values are missing, it raises the [ValueError] that names the first
    level without value; a path is returned only when every level has a
    value; and it raises nothing but [ValueError] and the [AssertionError] of
    [_check_is_subdir]. *)
Theorem get_out_filepath_levels (self : Database.ScmDatabase) (fs : FS)
    (levels : Database.Filters) :
  (forall done level todo,
     Database.levels self = (done ++ level :: todo)%list ->
     (forall l, In l done -> Database.filters_get levels l <> None) ->
     Database.filters_get levels level = None ->
     Store._get_out_filepath FS resolve self fs levels
     = Raise (ValueError ("expected value for level: " ++ level))) /\
  (forall p, Store._get_out_filepath FS resolve self fs levels = Ok p ->
     forall level, In level (Database.levels self) ->
       exists v, Database.filters_get levels level = Some v) /\
  (forall e, Store._get_out_filepath FS resolve self fs levels = Raise e ->
     exists msg, e = ValueError msg \/ e = AssertionError msg).
Proof.
  unfold Store._get_out_filepath. split; [|split].
  - intros done level todo E Hd Hn. rewrite E.
    rewrite (out_levels_first levels done todo level Hd Hn). reflexivity.
  - intros p H. apply bind_Ok in H as (l & Hl & H).
    apply out_levels_Ok in Hl. intros level Hin.
    clear -Hl Hin. induction Hl as [|x y t t' Hxy _ IH]; [destruct Hin|].
    destruct Hin as [<-|Hin]; eauto.
  - intros e H.
    destruct (Store.out_levels (Database.levels self) levels) as [l|e'] eqn:El;
      simpl in H.
    + unfold Database._check_is_subdir in H.
      destruct (negb _); simpl in H; [|discriminate].
      injection H as <-. eauto.
    + injection H as <-. apply out_levels_error in El as (msg & ->). eauto.
Qed.

End DeleteMore.

(** ** The metadata columns of a container *)

Lemma compare_lt_trans (a b c : string) :
  String.compare a b = Lt -> String.compare b c = Lt -> String.compare a c = Lt.
Proof.
  intros H1 H2. apply OrderedTypeEx.String_as_OT.cmp_lt.
  apply OrderedTypeEx.String_as_OT.cmp_lt in H1, H2.
  eapply OrderedTypeEx.String_as_OT.lt_trans; eassumption.
Qed.

Lemma compare_gt_lt (a b : string) :
  String.compare a b = Gt -> String.compare b a = Lt.
Proof.
  intros H. pose proof (OrderedTypeEx.String_as_OT.cmp_antisym b a) as E.
  unfold OrderedTypeEx.String_as_OT.cmp in E. rewrite H in E. exact E.
Qed.

Lemma compare_refl (a : string) : String.compare a a = Eq.
Proof. now apply OrderedTypeEx.String_as_OT.cmp_eq. Qed.

Lemma strictly_sorted_cons (a : string) (l : list string) :
  strictly_sorted (a :: l) = true <->
  strictly_sorted l = true /\ forall x, In x l -> String.compare a x = Lt.
Proof.
  revert a; induction l as [|b l IH]; intros a.
  - simpl. split; [intros _; split; [reflexivity | intros x []] | reflexivity].
  - change (strictly_sorted (a :: b :: l))
      with (match String.compare a b with
            | Lt => strictly_sorted (b :: l)
            | _ => false
            end).
    destruct (String.compare a b) eqn:E.
    + split; [discriminate|]. intros [_ H].
      specialize (H b (or_introl eq_refl)). congruence.
    + split.
      * intros H. split; [exact H|]. intros x [<-|Hx]; [exact E|].
        apply IH in H as [_ H]. eapply compare_lt_trans; [exact E | now apply H].
      * tauto.
    + split; [discriminate|]. intros [_ H].
      specialize (H b (or_introl eq_refl)). congruence.
Qed.

Lemma insert_key_sorted (k : string) (l : list string) :
  strictly_sorted l = true -> strictly_sorted (Run.insert_key k l) = true.
Proof.
  induction l as [|b l IH]; intros Hs; [reflexivity|].
  cbn [Run.insert_key]. destruct (String.compare k b) eqn:E.
  - exact Hs.
  - apply strictly_sorted_cons. split; [exact Hs|].
    apply strictly_sorted_cons in Hs as [_ Hb].
    intros x [<-|Hx]; [exact E|].
    eapply compare_lt_trans; [exact E | now apply Hb].
  - apply strictly_sorted_cons in Hs as [Hs Hb].
    apply strictly_sorted_cons. split; [now apply IH|].
    intros x Hx. apply insert_key_In in Hx as [->|Hx]; [|now apply Hb].
    now apply compare_gt_lt.
Qed.

Lemma strictly_sorted_NoDup (l : list string) :
  strictly_sorted l = true -> NoDup l.
Proof.
  induction l as [|a l IH]; intros Hs; constructor;
    apply strictly_sorted_cons in Hs as [Hs Ha].
  - intros Hin. specialize (Ha a Hin). rewrite compare_refl in Ha. discriminate.
  - now apply IH.
Qed.

(** X29: [meta_attributes] lists the metadata keys of the series of the
    container, each key once, in increasing order: a key is listed exactly
    when some series carries it. *)
Theorem meta_attributes_sorted_keys (self : ScmRun) :
  strictly_sorted (Run.meta_attributes self) = true /\
  NoDup (Run.meta_attributes self) /\
  (forall c, In c (Run.meta_attributes self) <->
             exists ts, In ts (_ts self) /\ In c (meta_keys (meta ts))).
Proof.
  assert (Hs : strictly_sorted (Run.meta_attributes self) = true).
  { unfold Run.meta_attributes, Run.sorted_set.
    induction (List.concat (map (fun ts => meta_keys (meta ts)) (_ts self)))
      as [|k l IH]; [reflexivity|].
    simpl. now apply insert_key_sorted. }
  split; [exact Hs|]. split; [now apply strictly_sorted_NoDup|].
  intros c. apply meta_attributes_In.
Qed.

(** * The properties on the containers of the test suite *)

Import Example.

Lemma filter_keep_partition_witness :
  Run.meta_only test_scm_run by_variable = true /\
  match Example.filter test_scm_run true false true by_variable,
        Example.filter test_scm_run false false true by_variable with
  | Ok kept, Ok dropped =>
      exists a b, Run.f_ret kept = Some a /\ Run.f_ret dropped = Some b /\
                  (Run.len a + Run.len b = Run.len test_scm_run)%nat
  | Raise e, Raise e' => e = e'
  | _, _ => False
  end.
Proof.
  split; [reflexivity|].
  apply (filter_keep_partition Example.pattern_match int_match int_match int_match
           int_match Example.datetime_match "|" test_scm_run true by_variable).
  reflexivity.
Defined.

Lemma filter_keep_false_both_axes_witness :
  Example._apply_filters test_scm_run coal_in_2005 true
  = Ok ([true; false; false], [false; true; false]) /\
  In false [false; true; false] /\
  In false [true; false; false] /\
  exists msg,
    Example.filter test_scm_run false false true coal_in_2005
    = Raise (ValueError msg).
Proof.
  split; [reflexivity|]. split; [simpl; auto|]. split; [simpl; auto|].
  apply (filter_keep_false_both_axes Example.pattern_match int_match int_match
           int_match int_match Example.datetime_match "|" test_scm_run false true
           coal_in_2005 [true; false; false] [false; true; false]).
  - reflexivity.
  - simpl; auto.
  - simpl; auto.
Defined.

Lemma filter_keep_false_drops_everything_witness :
  _ts test_scm_run <> [] /\
  _time_points test_scm_run <> [] /\
  (any_scenario = [] \/
   exists keep_times keep_cols,
     Example._apply_filters test_scm_run any_scenario true
     = Ok (keep_times, keep_cols) /\
     forallb (fun b => b) keep_times = true /\
     forallb (fun b => b) keep_cols = true) /\
  exists out ret,
    Example.filter test_scm_run false false true any_scenario = Ok out /\
    Run.f_ret out = Some ret /\
    _ts ret = [] /\ Run.len ret = 0%nat /\
    _time_points ret = _time_points test_scm_run /\
    Run.f_log out = ["Filtered ScmDataFrame is empty!"].
Proof.
  assert (H : any_scenario = [] \/
              exists keep_times keep_cols,
                Example._apply_filters test_scm_run any_scenario true
                = Ok (keep_times, keep_cols) /\
                forallb (fun b => b) keep_times = true /\
                forallb (fun b => b) keep_cols = true).
  { right. exists [true; true; true], [true; true; true]. repeat split. }
  assert (Hts : _ts test_scm_run <> []) by discriminate.
  assert (Htp : _time_points test_scm_run <> []) by discriminate.
  split; [exact Hts|]. split; [exact Htp|]. split; [exact H|].
  exact (filter_keep_false_drops_everything Example.pattern_match int_match
           int_match int_match int_match Example.datetime_match "|" test_scm_run
           true any_scenario Hts Htp H).
Defined.

(** C9: on a container without series, as a filter that matches nothing
    returns, [filter(keep=False)] without predicates returns no empty
    container: the masks of [np.array([True] * 0)] are of type [float64], and
    [~_keep_cols] raises [TypeError]. *)
Lemma filter_keep_false_raises_on_empty_run :
  _ts empty_run = [] /\
  Example._apply_filters empty_run [] true = Ok ([true; true; true], []) /\
  Example.filter empty_run false false true []
  = Raise (TypeError Mask.invert_msg).
Proof. repeat split. Qed.

Lemma get_unique_meta_unique_or_error_witness :
  Run.__getitem__ test_scm_run "variable"
  = Ok [SStr "Primary Energy"; SStr "Primary Energy|Coal"; SStr "Primary Energy"] /\
  Run.get_unique_meta format_list test_scm_run "variable" true
  = Raise (ValueError
      "`variable` column is not unique (found values: ['Primary Energy', 'Primary Energy|Coal'])") /\
  Run.get_unique_meta format_list test_scm_run "variable" false
  = Ok (Run.Values [SStr "Primary Energy"; SStr "Primary Energy|Coal"]).
Proof.
  assert (H : Run.__getitem__ test_scm_run "variable"
              = Ok [SStr "Primary Energy"; SStr "Primary Energy|Coal";
                    SStr "Primary Energy"]) by reflexivity.
  split; [exact H|].
  destruct (get_unique_meta_unique_or_error format_list test_scm_run "variable" _ H)
    as (H1 & _ & _ & H4).
  split; [|exact H4].
  apply H1. simpl. discriminate.
Defined.

Lemma nc_to_run_catches_read_errors_witness :
  (fun _ : string => Ok tt) "run.nc" = Ok tt /\
  (fun _ : unit => @Raise ScmRun (KeyError "time")) tt = Raise (KeyError "time") /\
  is_Exception (KeyError "time") = true /\
  Netcdf.nc_to_run unit true (fun _ => Ok tt) (fun _ => Raise (KeyError "time"))
    "run.nc"
  = Ok (None, ["Failed reading netdf file: run.nc"]).
Proof.
  split; [reflexivity|]. split; [reflexivity|]. split; [reflexivity|].
  apply (nc_to_run_catches_read_errors unit (fun _ => Ok tt)
           (fun _ => Raise (KeyError "time")) "run.nc" tt (KeyError "time"));
    reflexivity.
Defined.

Lemma stable_variable_read_back_witness :
  Netcdf.is_nc_stable "Primary Energy|Coal" = true /\
  Netcdf.variable_read_back "Primary Energy|Coal" = "Primary Energy|Coal".
Proof.
  split; [reflexivity|].
  apply (stable_variable_read_back "Primary Energy|Coal"). reflexivity.
Defined.

Lemma append_disjoint_years_witness :
  _time_points test_scm_run = map TimePoints.of_year years_A /\
  _time_points later_run = map TimePoints.of_year years_B /\
  Inv.aligned test_scm_run = true /\ Inv.aligned later_run = true /\
  Inv.unique_meta test_scm_run = true /\ Inv.unique_meta later_run = true /\
  exists out ret,
    Append.append test_scm_run later_run false (Atom (SStr "warn")) = Ok out /\
    Append.a_ret out = Some ret /\
    Run.__getitem__ ret "year"
    = Ok (map SNum [2005; 2010; 2015; 2020; 2030; 2040]) /\
    Append.a_warnings out = [].
Proof.
  do 6 (split; [reflexivity|]).
  apply (append_disjoint_years test_scm_run later_run (Atom (SStr "warn")));
    reflexivity.
Defined.

Lemma append_identical_copy_witness :
  Inv.well_formed test_scm_run = true /\
  Inv.unique_meta test_scm_run = true /\
  Inv.has_data test_scm_run = true /\
  exists out ret,
    Append.append test_scm_run test_scm_run false (Atom (SStr "warn")) = Ok out /\
    Append.a_ret out = Some ret /\
    Append.a_warnings out = [Append.warn_msg] /\
    _time_points ret = _time_points test_scm_run /\
    List.length (_ts ret) = List.length (_ts test_scm_run) /\
    (forall ts, In ts (_ts ret) ->
       exists o, In o (_ts test_scm_run) /\ meta ts = meta o /\
                 values_eq (values ts) (values o)) /\
    (forall o, In o (_ts test_scm_run) ->
       exists ts, In ts (_ts ret) /\ meta ts = meta o /\
                  values_eq (values ts) (values o)).
Proof.
  do 3 (split; [reflexivity|]).
  apply (append_identical_copy test_scm_run); reflexivity.
Defined.

Lemma duplicate_policy_dispatch_witness :
  Forall (fun r => Inv.aligned r = true) [test_scm_run; test_scm_run] /\
  Append.duplicated_any (Run.meta_table (Append.join test_scm_run [test_scm_run]))
  = true /\
  nan_free_meta (Append.join test_scm_run [test_scm_run]) = true /\
  overlapping_duplicates (Append.join test_scm_run [test_scm_run]) /\
  Append.df_append [test_scm_run; test_scm_run] false (Atom (SStr "warn"))
  = Ok (Append.mkAppendOut test_scm_run
          (Some (Append.sort (Append.average (Append.join test_scm_run [test_scm_run]))))
          [Append.warn_msg]) /\
  (exists data,
     Append.df_append [test_scm_run; test_scm_run] false (Atom (SStr "return"))
     = Ok (Append.mkAppendOut test_scm_run (Some data) [Append.return_msg]) /\
     Append.timeseries data
     = Append.timeseries (Append.join test_scm_run [test_scm_run])) /\
  Append.df_append [test_scm_run; test_scm_run] false (Atom (SStr "junk"))
  = Raise (ValueError "Unrecognised value for duplicate_msg").
Proof.
  assert (Ha : Forall (fun r => Inv.aligned r = true) [test_scm_run; test_scm_run])
    by (repeat constructor).
  assert (Hd : Append.duplicated_any
                 (Run.meta_table (Append.join test_scm_run [test_scm_run])) = true)
    by reflexivity.
  assert (Ho : overlapping_duplicates (Append.join test_scm_run [test_scm_run])).
  { exists 0%nat, 3%nat,
      (series 0 "a_scenario" "Primary Energy" years_A [1; 6; 6]%Q),
      (series 0 "a_scenario" "Primary Energy" years_A [1; 6; 6]%Q), 0%nat.
    repeat split. repeat constructor. }
  assert (Hf : nan_free_meta (Append.join test_scm_run [test_scm_run]) = true)
    by reflexivity.
  split; [exact Ha|]. split; [exact Hd|]. split; [exact Hf|]. split; [exact Ho|].
  destruct (duplicate_policy_dispatch test_scm_run [test_scm_run]
              (Atom (SStr "junk")) Ha Hd Hf) as [H _].
  destruct (H Ho) as (Hw & Hr & Hj).
  split; [exact Hw|]. split; [exact Hr|].
  apply Hj; [reflexivity | discriminate | discriminate].
Defined.

(** Duplicates that do not overlap: the runs of [test_append_duplicates]
    share all their metadata, and yet ["warn"] issues no warning and an
    unknown policy raises no error. *)
Lemma disjoint_duplicates_silent :
  Append.duplicated_any (Run.meta_table (Append.join test_scm_run [later_run]))
  = true /\
  (exists out,
     Append.df_append [test_scm_run; later_run] false (Atom (SStr "warn")) = Ok out /\
     Append.a_warnings out = []) /\
  (exists out,
     Append.df_append [test_scm_run; later_run] false (Atom (SStr "junk")) = Ok out /\
     Append.a_warnings out = []).
Proof.
  split; [reflexivity|]. split; eexists; split; reflexivity.
Qed.

(** A container with two series of the same metadata: its copy appended, one
    series is left, equal in values to neither of the two.  A container
    without series: no warning at all. *)
Lemma copy_of_twins_averaged :
  (exists out ret,
     Append.append twin_run twin_run false (Atom (SStr "warn")) = Ok out /\
     Append.a_ret out = Some ret /\
     List.length (_ts ret) = 1%nat /\ List.length (_ts twin_run) = 2%nat /\
     forall ts o, In ts (_ts ret) -> In o (_ts twin_run) ->
                  ~ values_eq (values ts) (values o)) /\
  (exists out,
     Append.append empty_run empty_run false (Atom (SStr "warn")) = Ok out /\
     Append.a_warnings out = []).
Proof.
  split.
  - do 2 eexists. split; [reflexivity|]. split; [reflexivity|].
    split; [reflexivity|]. split; [reflexivity|].
    intros ts o [<-|[]] [<-|[<-|[]]] H; inversion H as [|? ? ? ? E _]; subst;
      vm_compute in E; discriminate.
  - eexists. split; reflexivity.
Qed.

(** On the two year axes, a first container with two series of the same
    metadata: the warning is issued. *)
Lemma twins_before_later_run_warn :
  _time_points twin_run = map TimePoints.of_year years_A /\
  _time_points later_run = map TimePoints.of_year years_B /\
  exists out,
    Append.append twin_run later_run false (Atom (SStr "warn")) = Ok out /\
    Append.a_warnings out = [Append.warn_msg].
Proof.
  split; [reflexivity|]. split; [reflexivity|]. eexists. split; reflexivity.
Qed.

(** ** The further properties on the containers of the test suite *)

Import Cases.

Lemma filter_keeps_alignment_witness :
  Inv.aligned test_scm_run = true /\
  exists out ret,
    Example.filter test_scm_run true false true coal_in_2005 = Ok out /\
    filtered false out ret /\
    Inv.aligned ret = true.
Proof.
  split; [reflexivity|]. do 2 eexists.
  assert (H : Example.filter test_scm_run true false true coal_in_2005
              = Ok (Run.mkFilterOut test_scm_run
                      (Some (mkScmRun
                               [series 1 "a_scenario" "Primary Energy|Coal" [2005]
                                  [1 # 2]%Q]
                               (map TimePoints.of_year [2005])))
                      [])) by (vm_compute; reflexivity).
  split; [exact H|]. split; [reflexivity|].
  apply (filter_keeps_alignment Example.pattern_match int_match int_match int_match
           int_match Example.datetime_match "|" test_scm_run true false true
           coal_in_2005 _ _ eq_refl H eq_refl).
Defined.

Lemma filter_only_leaves_out_witness :
  exists out ret,
    Example.filter test_scm_run true false true coal_in_2005 = Ok out /\
    filtered false out ret /\
    subseq (map identity (_ts ret)) (map identity (_ts test_scm_run)) /\
    (Run.len ret <= Run.len test_scm_run)%nat.
Proof.
  do 2 eexists.
  assert (H : Example.filter test_scm_run true false true coal_in_2005
              = Ok (Run.mkFilterOut test_scm_run
                      (Some (mkScmRun
                               [series 1 "a_scenario" "Primary Energy|Coal" [2005]
                                  [1 # 2]%Q]
                               (map TimePoints.of_year [2005])))
                      [])) by (vm_compute; reflexivity).
  split; [exact H|]. split; [reflexivity|].
  apply (filter_only_leaves_out Example.pattern_match int_match int_match int_match
           int_match Example.datetime_match "|" test_scm_run true false true
           coal_in_2005 _ _ H eq_refl).
Defined.

Lemma filter_unsupported_key_witness :
  In ("colour", Atom (SStr "red")) by_colour /\
  "colour" <> "regexp" /\
  is_supported_filter test_scm_run "colour" = false /\
  (exists e, Example.filter test_scm_run true false true by_colour = Raise e) /\
  (forall rest, kw_remove "regexp" by_colour = ("colour", Atom (SStr "red")) :: rest ->
     Example.filter test_scm_run true false true by_colour
     = Raise (ValueError "filter by `colour` not supported")).
Proof.
  split; [simpl; auto|]. split; [discriminate|]. split; [reflexivity|].
  apply (filter_unsupported_key Example.pattern_match int_match int_match int_match
           int_match Example.datetime_match "|" test_scm_run true false true
           by_colour "colour" (Atom (SStr "red")));
    [simpl; auto | discriminate | reflexivity].
Defined.

Lemma filter_time_partition_witness :
  _ts test_scm_run <> [] /\
  Inv.aligned test_scm_run = true /\
  Example._apply_filters test_scm_run in_2005 true
  = Ok ([true; false; false], [true; true; true]) /\
  forallb (fun b => b) [true; true; true] = true /\
  In false [true; false; false] /\
  exists kept dropped a b,
    Example.filter test_scm_run true false true in_2005 = Ok kept /\
    Example.filter test_scm_run false false true in_2005 = Ok dropped /\
    Run.f_ret kept = Some a /\ Run.f_ret dropped = Some b /\
    Run.len a = Run.len test_scm_run /\ Run.len b = Run.len test_scm_run /\
    Mask.index (_time_points test_scm_run) [true; false; false]
    = Ok (_time_points a) /\
    Mask.index (_time_points test_scm_run) (Mask.invert [true; false; false])
    = Ok (_time_points b) /\
    (List.length (_time_points a) + List.length (_time_points b)
     = List.length (_time_points test_scm_run))%nat.
Proof.
  split; [discriminate|].
  split; [reflexivity|]. split; [reflexivity|]. split; [reflexivity|].
  split; [simpl; auto|].
  apply (filter_time_partition Example.pattern_match int_match int_match int_match
           int_match Example.datetime_match "|" test_scm_run true in_2005
           [true; false; false] [true; true; true]);
    [discriminate | reflexivity | reflexivity | reflexivity | simpl; auto].
Defined.

Lemma filter_keep_true_excludes_nothing_witness :
  _ts test_scm_run <> [] /\
  _time_points test_scm_run <> [] /\
  Example._apply_filters test_scm_run any_scenario true
  = Ok ([true; true; true], [true; true; true]) /\
  forallb (fun b => b) [true; true; true] = true /\
  exists out,
    Example.filter test_scm_run true false true any_scenario = Ok out /\
    filtered false out test_scm_run /\ Run.f_self out = test_scm_run.
Proof.
  split; [discriminate|]. split; [discriminate|].
  split; [reflexivity|]. split; [reflexivity|].
  apply (filter_keep_true_excludes_nothing Example.pattern_match int_match int_match
           int_match int_match Example.datetime_match "|" test_scm_run false true
           any_scenario [true; true; true] [true; true; true]);
    [discriminate | discriminate | reflexivity | reflexivity | reflexivity].
Defined.

Lemma set_meta_sets_column_witness :
  exists r,
    RunMeta.set_meta np_array test_scm_run (PyList [SNum 1; SNum 2; SNum 3])
      (Some "ensemble")
    = Ok r /\
    Run._meta_column r "ensemble" = [SNum 1; SNum 2; SNum 3] /\
    (forall col, col <> "ensemble" ->
       Run._meta_column r col = Run._meta_column test_scm_run col) /\
    map (fun t => (name t, time t, values t)) (_ts r)
    = map (fun t => (name t, time t, values t)) (_ts test_scm_run) /\
    _time_points r = _time_points test_scm_run.
Proof.
  eexists. split; [reflexivity|].
  eapply (set_meta_sets_column np_array test_scm_run _
            (PyList [SNum 1; SNum 2; SNum 3]) (Some "ensemble") "ensemble");
    reflexivity.
Defined.

Lemma set_meta_then_get_unique_meta_witness :
  exists r,
    RunMeta.set_meta np_array test_scm_run (Atom (SNum 7)) (Some "run_id") = Ok r /\
    (0 < Run.len test_scm_run)%nat /\
    "run_id" <> "time" /\ "run_id" <> "year" /\
    Run.__getitem__ r "run_id" = Ok (repeat (SNum 7) (Run.len test_scm_run)) /\
    Run.get_unique_meta format_list r "run_id" true = Ok (Run.Value1 (SNum 7)) /\
    Run.get_unique_meta format_list r "run_id" false = Ok (Run.Values [SNum 7]).
Proof.
  eexists. split; [reflexivity|]. split; [vm_compute; lia|].
  split; [discriminate|]. split; [discriminate|].
  eapply (set_meta_then_get_unique_meta np_array format_list test_scm_run _
            (SNum 7) "run_id");
    [reflexivity | vm_compute; lia | discriminate | discriminate].
Defined.

Lemma rename_keeps_data_witness :
  exists out,
    RunMeta.rename test_scm_run to_b_scenario false = Ok out /\
    exists ret,
      out = (test_scm_run, Some ret) /\
      Forall2 same_data (_ts test_scm_run) (_ts ret) /\
      _time_points ret = _time_points test_scm_run /\
      (forall c, ~ In c (map fst to_b_scenario) ->
         Run._meta_column ret c = Run._meta_column test_scm_run c) /\
      (forall col, In col (map fst to_b_scenario) ->
         In col (Run.meta_attributes test_scm_run)) /\
      (to_b_scenario <> [] -> Inv.unique_meta ret = true).
Proof.
  eexists. split; [reflexivity|].
  eapply (rename_keeps_data test_scm_run to_b_scenario false). reflexivity.
Defined.


Lemma df_append_time_axis_witness :
  exists out,
    Append.df_append [test_scm_run; later_run] false (Atom (SStr "warn")) = Ok out /\
    _time_points (appended out)
    = Append.np_unique
        (List.concat (map Run.time_points [test_scm_run; later_run])) /\
    Inv.increasing (_time_points (appended out)) = true /\
    (forall t, In t (_time_points (appended out)) <->
               exists r, In r [test_scm_run; later_run] /\ In t (_time_points r)).
Proof.
  eexists. split; [reflexivity|].
  eapply (df_append_time_axis [test_scm_run; later_run] false (Atom (SStr "warn"))).
  reflexivity.
Defined.

Lemma df_append_unique_meta_witness :
  Inv.unique_meta (Append.join test_scm_run [other_run]) = true /\
  exists out,
    Append.df_append [test_scm_run; other_run] false (Atom (SStr "junk")) = Ok out /\
    Append.a_warnings out = [] /\
    Permutation (_ts (appended out)) (_ts (Append.join test_scm_run [other_run])) /\
    ordered_by_name (_ts (appended out)) = true /\
    Run.len (appended out)
    = fold_right Nat.add 0%nat (map Run.len [test_scm_run; other_run]).
Proof.
  split; [reflexivity|].
  apply (df_append_unique_meta test_scm_run [other_run] false (Atom (SStr "junk"))).
  reflexivity.
Defined.

Lemma df_append_errors_witness :
  Append.df_append [test_scm_run; test_scm_run] false (Atom (SStr "junk"))
  = Raise (ValueError "Unrecognised value for duplicate_msg") /\
  truthy (Atom (SStr "junk")) = true /\
  Append.duplicated_any (Run.meta_table (Append.join test_scm_run [test_scm_run]))
  = true /\
  exists msg, ValueError "Unrecognised value for duplicate_msg" = ValueError msg.
Proof.
  split; [reflexivity|].
  apply (df_append_errors test_scm_run [test_scm_run] false (Atom (SStr "junk"))).
  reflexivity.
Defined.

Lemma df_append_keeps_alignment_witness :
  Forall (fun r => Inv.aligned r = true) [test_scm_run; later_run] /\
  exists out,
    Append.df_append [test_scm_run; later_run] false (Atom (SStr "warn")) = Ok out /\
    Inv.aligned (appended out) = true.
Proof.
  assert (Ha : Forall (fun r => Inv.aligned r = true) [test_scm_run; later_run])
    by (repeat constructor).
  split; [exact Ha|]. eexists. split; [reflexivity|].
  eapply (df_append_keeps_alignment [test_scm_run; later_run] false
            (Atom (SStr "warn")) _ Ha).
  reflexivity.
Defined.

Lemma nc_to_var_normal_form_witness :
  Str.is_ascii "emissions__co2" = true /\
  Str.contains_char "_" (Netcdf._nc_to_var "emissions__co2") = false /\
  Str.title (Netcdf._nc_to_var "emissions__co2") = Netcdf._nc_to_var "emissions__co2".
Proof.
  split; [reflexivity|]. apply (nc_to_var_normal_form "emissions__co2").
  reflexivity.
Defined.

Lemma variable_read_back_idempotent_witness :
  Str.is_ascii "Emissions|CO2" = true /\
  Netcdf.is_nc_stable (Netcdf.variable_read_back "Emissions|CO2") = true /\
  Netcdf.variable_read_back (Netcdf.variable_read_back "Emissions|CO2")
  = Netcdf.variable_read_back "Emissions|CO2".
Proof.
  split; [reflexivity|]. apply (variable_read_back_idempotent "Emissions|CO2").
  reflexivity.
Defined.

Lemma disk_filename_safe_witness :
  Str.is_ascii "/data/a model/Emissions|CO2" = true /\
  String.length (Database._get_disk_filename "/data/a model/Emissions|CO2")
  = String.length "/data/a model/Emissions|CO2" /\
  (forall c,
     Str.contains_char c (Database._get_disk_filename "/data/a model/Emissions|CO2")
     = true ->
     Str.isalnum c || Str.contains_char c "-/*_." = true) /\
  Database._get_disk_filename (Database._get_disk_filename "/data/a model/Emissions|CO2")
  = Database._get_disk_filename "/data/a model/Emissions|CO2".
Proof.
  split; [reflexivity|]. apply (disk_filename_safe "/data/a model/Emissions|CO2").
  reflexivity.
Defined.

Lemma read_back_only_stable_witness :
  Netcdf.variable_read_back "Primary Energy|Coal" = "Primary Energy|Coal" /\
  Netcdf.is_nc_stable "Primary Energy|Coal" = true.
Proof.
  split; [reflexivity|].
  apply (read_back_only_stable "Primary Energy|Coal"). reflexivity.
Defined.

Lemma check_filters_no_slash_witness :
  Database.check_filters database [("variable", "Emissions/CO2")]
  = Ok [("variable", "Emissions_CO2")] /\
  map fst [("variable", "Emissions_CO2")] = map fst [("variable", "Emissions/CO2")] /\
  (forall level v, In (level, v) [("variable", "Emissions_CO2")] ->
     In level (Database.levels database) /\ Str.contains_char "/" v = false) /\
  (forall level v, In (level, v) [("variable", "Emissions/CO2")] ->
     Str.contains_char "/" v = false -> In (level, v) [("variable", "Emissions_CO2")]).
Proof.
  split; [reflexivity|].
  apply (check_filters_no_slash database [("variable", "Emissions/CO2")]
           [("variable", "Emissions_CO2")]).
  reflexivity.
Defined.

Lemma delete_unknown_level_witness :
  In ("scenario", "ssp126") [("variable", "Emissions/CO2"); ("scenario", "ssp126")] /\
  ~ In "scenario" (Database.levels database) /\
  let out := Database.delete (list string) glob resolve rmtree database disk
               [("variable", "Emissions/CO2"); ("scenario", "ssp126")] in
  Database.d_removed (list string) out = [] /\
  Database.d_fs (list string) out = disk /\
  exists l, ~ In l (Database.levels database) /\
            Database.d_raised (list string) out
            = Some (ValueError ("Unknown level: " ++ l)).
Proof.
  assert (Hn : ~ In "scenario" (Database.levels database)).
  { simpl. intros [H|[H|[]]]; discriminate. }
  split; [simpl; auto|]. split; [exact Hn|].
  apply (delete_unknown_level (list string) glob resolve rmtree database disk
           [("variable", "Emissions/CO2"); ("scenario", "ssp126")]
           "scenario" "ssp126"); [simpl; auto | exact Hn].
Defined.

Lemma delete_removes_in_order_witness :
  Database.check_filters database [("variable", "Emissions/CO2")]
  = Ok [("variable", "Emissions_CO2")] /\
  let load_dirs :=
    glob disk
      (Database._get_disk_filename
         (Database.path_join (Database._root_dir database)
            (map (fun level =>
                    match Database.filters_get [("variable", "Emissions_CO2")] level with
                    | Some v => v
                    | None => "*"
                    end) (Database.levels database)))) in
  let out := Database.delete (list string) glob resolve rmtree database disk
               [("variable", "Emissions/CO2")] in
  exists k,
    map snd (Database.d_removed (list string) out) = firstn k load_dirs /\
    (Database.d_raised (list string) out = None -> k = List.length load_dirs) /\
    (Database.d_raised (list string) out <> None -> (k < List.length load_dirs)%nat).
Proof.
  split; [reflexivity|].
  apply (delete_removes_in_order (list string) glob resolve rmtree database disk
           [("variable", "Emissions/CO2")] [("variable", "Emissions_CO2")]).
  reflexivity.
Defined.
